(** * CodeSage-AI, ai-service: diff parser, pattern detector, embedding
      cache and similarity retrieval

    A shallow embedding of

      - [utils/diff_analyzer.py]            (module [DiffAnalyzer]),
      - [app/services/pattern_detector.py]  (module [PatternDetector]),
      - [app/services/embedding_service.py] (module [EmbeddingService]),
      - [app/services/rag_service.py]       (module [RAGService]),

    followed by the properties of the specification that concern them.

    Modelling conventions.  A Python [str] is a [string]; each [ascii] stands
    for one code point below 256, and the character classes of [re] and of
    [str.strip] are the ones Python uses on that range.  A Python [int] is a
    [Z], a [float] is a binary64 [float] ([PrimFloat]).  A value that may be
    [None] is an [option].  Calls to collaborators (cache, embedding
    provider, vector index) are state passing over an abstract world and
    leave an entry in a call trace; [logger] calls are not modelled. *)

From Stdlib Require Import Bool Ascii String List ZArith Lia Floats Sorted.
Import ListNotations.

#[local] Set Warnings "-inexact-float,-register-all".

Local Open Scope string_scope.
Local Open Scope list_scope.

(* ================================================================== *)
(** * Python strings *)
(* ================================================================== *)

Module Py.

(** Code point of a character. *)
Definition ord (c : ascii) : nat := nat_of_ascii c.

Definition in_range (lo hi : nat) (c : ascii) : bool :=
  (lo <=? ord c)%nat && (ord c <=? hi)%nat.

(** [str.isspace] on one character, which is also [\s] of [re] on [str]
    patterns: TAB..CR, FS..US, SPACE, NEL (0x85) and NBSP (0xA0). *)
Definition isspace (c : ascii) : bool :=
  in_range 9 13 c || in_range 28 32 c || (ord c =? 133)%nat || (ord c =? 160)%nat.

(** [\d] of [re]: the decimal digits (the only characters of category Nd
    below 256). *)
Definition isdigit (c : ascii) : bool := in_range 48 57 c.

(** [\w] of [re]: [str.isalnum] or underscore.  Below 256 the alphanumeric
    characters are the ASCII letters and digits, the Latin-1 letters, the
    ordinal indicators, the micro sign, the superscript digits and the
    vulgar fractions. *)
Definition isword (c : ascii) : bool :=
  in_range 48 57 c || in_range 65 90 c || in_range 97 122 c || (ord c =? 95)%nat
  || (ord c =? 170)%nat || (ord c =? 178)%nat || (ord c =? 179)%nat
  || (ord c =? 181)%nat || (ord c =? 185)%nat || (ord c =? 186)%nat
  || in_range 188 190 c || in_range 192 214 c || in_range 216 246 c
  || in_range 248 255 c.

(** [str.lower] on one character: ASCII and Latin-1 capitals move up by 32
    (0xD7 is the multiplication sign and has no case). *)
Definition lower_char (c : ascii) : ascii :=
  if in_range 65 90 c || (in_range 192 222 c && negb (ord c =? 215)%nat)
  then ascii_of_nat (ord c + 32)
  else c.

Fixpoint lower (s : string) : string :=
  match s with
  | EmptyString => EmptyString
  | String c s' => String (lower_char c) (lower s')
  end.

(** Removes a literal prefix, when it is there. *)
Fixpoint expect (p s : string) : option string :=
  match p with
  | EmptyString => Some s
  | String a p' =>
      match s with
      | EmptyString => None
      | String b s' => if Ascii.eqb a b then expect p' s' else None
      end
  end.

(** [s.startswith(p)]. *)
Definition startswith (s p : string) : bool :=
  match expect p s with
  | Some _ => true
  | None => false
  end.

(** [sub in s]. *)
Fixpoint contains (sub s : string) : bool :=
  startswith s sub ||
  match s with
  | EmptyString => false
  | String _ s' => contains sub s'
  end.

(** [s[1:]]. *)
Definition tail (s : string) : string :=
  match s with
  | EmptyString => EmptyString
  | String _ s' => s'
  end.

(** [s[:n]]. *)
Definition take (n : nat) (s : string) : string := String.substring 0 n s.

(** [s.split(sep)] for a one-character separator: never empty, and the
    empty string splits into one empty piece. *)
Fixpoint split (sep : ascii) (s : string) : list string :=
  match s with
  | EmptyString => [EmptyString]
  | String c s' =>
      if Ascii.eqb c sep then EmptyString :: split sep s'
      else match split sep s' with
           | h :: t => String c h :: t
           | [] => [String c EmptyString]
           end
  end.

Definition newline : ascii := ascii_of_nat 10.

Definition splitlines (s : string) : list string := split newline s.

Fixpoint lstrip (s : string) : string :=
  match s with
  | EmptyString => EmptyString
  | String c s' => if isspace c then lstrip s' else s
  end.

(** Strip on the right: a character is kept when anything kept follows it
    or when it is not white space. *)
Fixpoint rstrip (s : string) : string :=
  match s with
  | EmptyString => EmptyString
  | String c s' =>
      match rstrip s' with
      | EmptyString => if isspace c then EmptyString else String c EmptyString
      | r => String c r
      end
  end.

(** [s.strip()]. *)
Definition strip (s : string) : string := rstrip (lstrip s).

(** Every character is white space (true of the empty string). *)
Fixpoint all_space (s : string) : bool :=
  match s with
  | EmptyString => true
  | String c s' => isspace c && all_space s'
  end.

(** Truth value of a [str]: non-empty. *)
Definition truthy (s : string) : bool :=
  match s with EmptyString => false | _ => true end.

(** The longest prefix of decimal digits, and what follows it. *)
Fixpoint span_digits (s : string) : string * string :=
  match s with
  | EmptyString => (EmptyString, EmptyString)
  | String c s' =>
      if isdigit c
      then let (d, r) := span_digits s' in (String c d, r)
      else (EmptyString, s)
  end.

Definition digit_value (c : ascii) : Z := Z.of_nat (ord c - 48).

Fixpoint int_acc (acc : Z) (s : string) : Z :=
  match s with
  | EmptyString => acc
  | String c s' => int_acc (10 * acc + digit_value c) s'
  end.

(** [int(s)] on a string of decimal digits (the only strings the parser
    passes to it).  Python integers are unbounded; the interpreter's limit
    on the number of digits of a literal is not modelled. *)
Definition int (s : string) : Z := int_acc 0 s.

(** [join] on a line feed, to write a text down line by line. *)
Fixpoint join_lines (ls : list string) : string :=
  match ls with
  | [] => EmptyString
  | [l] => l
  | l :: ls' => (l ++ String newline (join_lines ls'))%string
  end.

End Py.

(* ================================================================== *)
(** * utils/diff_analyzer.py *)
(* ================================================================== *)

Module DiffAnalyzer.

(** [class DiffChunk]. *)
Record DiffChunk : Type := mkDiffChunk {
  file_path : string;
  old_start : Z;
  old_count : Z;
  new_start : Z;
  new_count : Z;
  added_lines : list (Z * string);
  removed_lines : list (Z * string);
  context_lines : list (Z * string)
}.

(** [DiffChunk.__init__]: the three sequences start empty. *)
Definition new_chunk (fp : string) (os oc ns nc : Z) : DiffChunk :=
  mkDiffChunk fp os oc ns nc [] [] [].

(** [new_file_pattern.match(line)]: the pattern is three plus signs, a
    space and [b/] at the start of the line, then group 1, any characters
    up to the end.  The dot does not match a line feed and the dollar
    matches at the end or before a final line feed, so a rest holding a
    line feed anywhere but last does not match. *)
Fixpoint dot_star_dollar (s : string) : option string :=
  match s with
  | EmptyString => Some EmptyString
  | String c s' =>
      if Ascii.eqb c Py.newline
      then match s' with EmptyString => Some EmptyString | _ => None end
      else option_map (String c) (dot_star_dollar s')
  end.

Definition new_file_match (line : string) : option string :=
  match Py.expect "+++ b/" line with
  | None => None
  | Some rest => dot_star_dollar rest
  end.

(** The optional count of the chunk header, a comma and one or more
    digits: the group and what follows. *)
Definition opt_count (s : string) : option string * string :=
  match s with
  | String "," s' =>
      match Py.span_digits s' with
      | (EmptyString, _) => (None, s)
      | (d, r) => (Some d, r)
      end
  | _ => (None, s)
  end.

(** [chunk_header_pattern.match(line)]: at the start of the line [@@ -],
    digits (group 1), an optional comma and digits (group 2), a space and
    a plus sign, digits (group 3), an optional comma and digits (group 4),
    a space and [@@].  The result is groups 1 to 4.  The greedy choice is
    the only one that can succeed: a shorter run of digits is followed by
    a digit, and a skipped count by a comma, where the pattern wants a
    comma or a space. *)
Definition chunk_header_match (line : string)
  : option (string * option string * string * option string) :=
  match Py.expect "@@ -" line with
  | None => None
  | Some s1 =>
      match Py.span_digits s1 with
      | (EmptyString, _) => None
      | (g1, s2) =>
          let (g2, s3) := opt_count s2 in
          match Py.expect " +" s3 with
          | None => None
          | Some s4 =>
              match Py.span_digits s4 with
              | (EmptyString, _) => None
              | (g3, s5) =>
                  let (g4, s6) := opt_count s5 in
                  match Py.expect " @@" s6 with
                  | None => None
                  | Some _ => Some (g1, g2, g3, g4)
                  end
              end
          end
      end
  end.

(** [int(g) if g else 1] for an optional group. *)
Definition count_of (g : option string) : Z :=
  match g with
  | Some d => if Py.truthy d then Py.int d else 1
  | None => 1
  end.

(** The local variables of [parse_diff]. *)
Record parse_state : Type := mkState {
  chunks : list DiffChunk;
  current_file : option string;
  current_chunk : option DiffChunk;
  old_line : Z;
  new_line : Z
}.

Definition initial_state : parse_state := mkState [] None None 0 0.

(** [current_file or '']. *)
Definition file_or_empty (f : option string) : string :=
  match f with
  | Some s => s
  | None => EmptyString
  end.

(** [if current_chunk: chunks.append(current_chunk)]. *)
Definition close_chunk (cs : list DiffChunk) (c : option DiffChunk) : list DiffChunk :=
  match c with
  | Some ch => cs ++ [ch]
  | None => cs
  end.

Definition add_added (c : DiffChunk) (e : Z * string) : DiffChunk :=
  mkDiffChunk (file_path c) (old_start c) (old_count c) (new_start c) (new_count c)
              (added_lines c ++ [e]) (removed_lines c) (context_lines c).

Definition add_removed (c : DiffChunk) (e : Z * string) : DiffChunk :=
  mkDiffChunk (file_path c) (old_start c) (old_count c) (new_start c) (new_count c)
              (added_lines c) (removed_lines c ++ [e]) (context_lines c).

Definition add_context (c : DiffChunk) (e : Z * string) : DiffChunk :=
  mkDiffChunk (file_path c) (old_start c) (old_count c) (new_start c) (new_count c)
              (added_lines c) (removed_lines c) (context_lines c ++ [e]).

(** One iteration of the loop of [parse_diff]. *)
Definition parse_line (st : parse_state) (line : string) : parse_state :=
  match new_file_match line with
  | Some f => mkState (chunks st) (Some f) (current_chunk st) (old_line st) (new_line st)
  | None =>
      match chunk_header_match line with
      | Some (g1, g2, g3, g4) =>
          let os := Py.int g1 in
          let oc := count_of g2 in
          let ns := Py.int g3 in
          let nc := count_of g4 in
          mkState (close_chunk (chunks st) (current_chunk st))
                  (current_file st)
                  (Some (new_chunk (file_or_empty (current_file st)) os oc ns nc))
                  os ns
      | None =>
          match current_chunk st with
          | None => st
          | Some c =>
              if Py.startswith line "+" && negb (Py.startswith line "+++") then
                mkState (chunks st) (current_file st)
                        (Some (add_added c (new_line st, Py.tail line)))
                        (old_line st) (new_line st + 1)
              else if Py.startswith line "-" && negb (Py.startswith line "---") then
                mkState (chunks st) (current_file st)
                        (Some (add_removed c (old_line st, Py.tail line)))
                        (old_line st + 1) (new_line st)
              else if Py.startswith line " " then
                mkState (chunks st) (current_file st)
                        (Some (add_context c (new_line st, Py.tail line)))
                        (old_line st + 1) (new_line st + 1)
              else st
          end
      end
  end.

Definition parse_lines (st : parse_state) (lines : list string) : parse_state :=
  fold_left parse_line lines st.

(** [DiffAnalyzer.parse_diff]. *)
Definition parse_diff (diff_text : string) : list DiffChunk :=
  let st := parse_lines initial_state (Py.splitlines diff_text) in
  close_chunk (chunks st) (current_chunk st).

(** [min(ln for ln, _ in xs)] and [max(...)] on a non-empty sequence. *)
Definition min_line (x : Z * string) (xs : list (Z * string)) : Z :=
  fold_left (fun m e => Z.min m (fst e)) xs (fst x).

Definition max_line (x : Z * string) (xs : list (Z * string)) : Z :=
  fold_left (fun m e => Z.max m (fst e)) xs (fst x).

(** The first loop of [get_changed_line_ranges]: one provisional range
    for each chunk of the file that adds lines. *)
Fixpoint chunk_ranges (file : string) (cs : list DiffChunk) : list (Z * Z) :=
  match cs with
  | [] => []
  | c :: cs' =>
      if String.eqb (file_path c) file then
        match added_lines c with
        | [] => chunk_ranges file cs'
        | x :: xs => (min_line x xs, max_line x xs) :: chunk_ranges file cs'
        end
      else chunk_ranges file cs'
  end.

(** Order of Python on pairs of integers. *)
Definition pair_leb (a b : Z * Z) : bool :=
  (fst a <? fst b)%Z || ((fst a =? fst b)%Z && (snd a <=? snd b)%Z).

Fixpoint insert_sorted (a : Z * Z) (l : list (Z * Z)) : list (Z * Z) :=
  match l with
  | [] => [a]
  | b :: l' => if pair_leb a b then a :: l else b :: insert_sorted a l'
  end.

(** [ranges.sort()]: pairs of integers that compare equal are equal, so
    every sorting algorithm gives the same list. *)
Definition sort_ranges (l : list (Z * Z)) : list (Z * Z) :=
  fold_right insert_sorted [] l.

(** The body of the merging loop; [merged] is never empty there. *)
Definition merge_step (merged : list (Z * Z)) (r : Z * Z) : list (Z * Z) :=
  let '(start, end_) := r in
  let '(last_start, last_end) := last merged (0, 0)%Z in
  if (start <=? last_end + 1)%Z
  then removelast merged ++ [(last_start, Z.max end_ last_end)]
  else merged ++ [(start, end_)].

Definition merge_ranges (ranges : list (Z * Z)) : list (Z * Z) :=
  match sort_ranges ranges with
  | [] => []
  | r0 :: rest => fold_left merge_step rest [r0]
  end.

(** [DiffAnalyzer.get_changed_line_ranges]. *)
Definition get_changed_line_ranges (diff_text file : string) : list (Z * Z) :=
  merge_ranges (chunk_ranges file (parse_diff diff_text)).

(** ** Well-formed single-hunk diffs *)

Definition is_header (line : string) : bool :=
  match chunk_header_match line with
  | Some _ => true
  | None => false
  end.






(** ** Statements and inputs for the properties below *)

(** Each range starts more than one line after the end of the one before. *)
Fixpoint separated (l : list (Z * Z)) : Prop :=
  match l with
  | [] => True
  | a :: t =>
      match t with
      | [] => True
      | b :: _ => (fst b > snd a + 1)%Z /\ separated t
      end
  end.

(** Two hunks of one file whose added lines are 1 to 2 and 11. *)
Definition two_hunks : string :=
  Py.join_lines ["+++ b/f.py"; "@@ -1 +1,2 @@"; "+a"; "+b"; "@@ -10 +11 @@"; "+c"].

(** Two hunks of one file whose added lines are 1 to 2 and 3: the ranges
    touch and are merged. *)
Definition touching_hunks : string :=
  Py.join_lines ["+++ b/f.py"; "@@ -1,0 +1,2 @@"; "+a"; "+b"; "@@ -1,0 +3 @@"; "+c"].


(** The claim of the specification about a context line: it is recorded
    at the old-line counter and at the new-line counter. *)
Definition recorded_at_both_counters (st : parse_state) (line : string) : Prop :=
  exists c',
    current_chunk (parse_line st line) = Some c'
    /\ In (old_line st, Py.tail line) (context_lines c')
    /\ In (new_line st, Py.tail line) (context_lines c').

(** The state after the header of a hunk whose old side starts at line 1
    and whose new side starts at line 5. *)
Definition after_shifted_header : parse_state :=
  parse_lines initial_state ["@@ -1 +5 @@"].

(** ** The other operations of the analyzer *)

(** [a < b] on [str]: code point by code point, a proper prefix first. *)
Definition str_lt (a b : string) : Prop := String.compare a b = Lt.

(** Inserts a string into an increasing list, unless it is there. *)
Fixpoint insert_unique (a : string) (l : list string) : list string :=
  match l with
  | [] => [a]
  | b :: l' =>
      match String.compare a b with
      | Lt => a :: l
      | Eq => l
      | Gt => b :: insert_unique a l'
      end
  end.

(** [sorted(list(set(xs)))]: the elements of [xs], each once, in
    increasing order; the order in which a set is walked does not show in
    the sorted list. *)
Definition sorted_set (xs : list string) : list string :=
  fold_right insert_unique [] xs.

(** The paths of the file header lines, in the order of the text. *)
Fixpoint header_paths (lines : list string) : list string :=
  match lines with
  | [] => []
  | l :: ls =>
      match new_file_match l with
      | Some f => f :: header_paths ls
      | None => header_paths ls
      end
  end.

(** [DiffAnalyzer.get_changed_files]. *)
Definition get_changed_files (diff_text : string) : list string :=
  sorted_set (header_paths (Py.splitlines diff_text)).

(** The dictionary [get_diff_stats] returns. *)
Record diff_stats : Type := mkStats {
  files_changed : nat;
  additions : nat;
  deletions : nat;
  chunks_count : nat
}.

(** [sum(len(f(chunk)) for chunk in chunks)]. *)
Definition total_length {A : Type} (f : DiffChunk -> list A) (cs : list DiffChunk) : nat :=
  fold_left (fun acc c => acc + length (f c))%nat cs 0%nat.

(** [DiffAnalyzer.get_diff_stats]. *)
Definition get_diff_stats (diff_text : string) : diff_stats :=
  let cs := parse_diff diff_text in
  mkStats (length (sorted_set (map file_path cs)))
          (total_length added_lines cs)
          (total_length removed_lines cs)
          (length cs).

(** The line numbers of a sequence of a chunk increase and start at
    [lo] or after. *)
Definition increasing_from (lo : Z) (l : list (Z * string)) : Prop :=
  StronglySorted Z.lt (map fst l) /\ Forall (fun e => (lo <= fst e)%Z) l.

(** The three sequences of a chunk are in increasing line order from the
    start of their side, and no line number is both added and context. *)
Definition chunk_lines_ordered (c : DiffChunk) : Prop :=
  increasing_from (new_start c) (added_lines c)
  /\ increasing_from (old_start c) (removed_lines c)
  /\ increasing_from (new_start c) (context_lines c)
  /\ forall a x, In a (added_lines c) -> In x (context_lines c) -> fst a <> fst x.

(** ** Invariants of the parse loop and of the ranges *)

Local Open Scope Z_scope.

(** The chunks of a state: the closed ones and the open one. *)
Definition all_chunks (st : parse_state) : list DiffChunk :=
  close_chunk (chunks st) (current_chunk st).

(** What one line can do to the state. *)
Inductive line_effect (st : parse_state) (l : string) : parse_state -> Prop :=
| effect_file f :
    new_file_match l = Some f -> is_header l = false ->
    line_effect st l
      (mkState (chunks st) (Some f) (current_chunk st) (old_line st) (new_line st))
| effect_header g1 g2 g3 g4 :
    new_file_match l = None -> chunk_header_match l = Some (g1, g2, g3, g4) ->
    line_effect st l
      (mkState (close_chunk (chunks st) (current_chunk st)) (current_file st)
         (Some (new_chunk (file_or_empty (current_file st))
                          (Py.int g1) (count_of g2) (Py.int g3) (count_of g4)))
         (Py.int g1) (Py.int g3))
| effect_added c :
    is_header l = false -> current_chunk st = Some c ->
    line_effect st l
      (mkState (chunks st) (current_file st)
         (Some (add_added c (new_line st, Py.tail l))) (old_line st) (new_line st + 1))
| effect_removed c :
    is_header l = false -> current_chunk st = Some c ->
    line_effect st l
      (mkState (chunks st) (current_file st)
         (Some (add_removed c (old_line st, Py.tail l))) (old_line st + 1) (new_line st))
| effect_context c :
    is_header l = false -> current_chunk st = Some c ->
    line_effect st l
      (mkState (chunks st) (current_file st)
         (Some (add_context c (new_line st, Py.tail l))) (old_line st + 1) (new_line st + 1))
| effect_none :
    is_header l = false -> line_effect st l st.

(** The open chunk is ordered and every line number in it lies below the
    counter of its side. *)
Definition open_chunk_ordered (st : parse_state) : Prop :=
  match current_chunk st with
  | None => True
  | Some c =>
      chunk_lines_ordered c
      /\ Forall (fun e => fst e < new_line st) (added_lines c)
      /\ Forall (fun e => fst e < new_line st) (context_lines c)
      /\ Forall (fun e => fst e < old_line st) (removed_lines c)
      /\ new_start c <= new_line st /\ old_start c <= old_line st
  end.

Definition lines_ordered (st : parse_state) : Prop :=
  Forall chunk_lines_ordered (chunks st) /\ open_chunk_ordered st.

(** Every path in the state is the empty one or a path of the text. *)
Definition paths_known (known : string -> Prop) (st : parse_state) : Prop :=
  (forall f, current_file st = Some f -> known f)
  /\ Forall (fun c => file_path c = EmptyString \/ known (file_path c)) (all_chunks st).

(** Lines a chunk accounts for: its header and its three sequences. *)
Definition chunk_weight (c : DiffChunk) : nat :=
  S (length (added_lines c) + length (removed_lines c) + length (context_lines c))%nat.

(** A range is well formed when it does not end before it starts, and a
    line is covered by a list of ranges when one of them holds it. *)
Definition well_formed_range (r : Z * Z) : Prop := fst r <= snd r.

Definition covers (rs : list (Z * Z)) (n : Z) : Prop :=
  exists r, In r rs /\ fst r <= n <= snd r.

(** The sort keeps the ranges and puts the starts in ascending order. *)
Definition by_start (a b : Z * Z) : Prop := fst a <= fst b.

End DiffAnalyzer.

(* ================================================================== *)
(** * Regular expressions of [re] *)
(* ================================================================== *)

Module Re.

(** The constructs the patterns of the detector use.  Groups only matter
    for what they capture and lazy repetition only for which match is
    found, and the detector looks at neither, so a group is its body and
    a lazy star is a star. *)
Inductive regex : Type :=
| Eps
| Chr (c : ascii)
| Cls (p : ascii -> bool)
| Seq (r1 r2 : regex)
| Alt (r1 r2 : regex)
| Star (r : regex)
| WordB.

(** A pattern character against a text character; with [re.IGNORECASE]
    both are compared in lower case. *)
Definition chr_eq (ic : bool) (c x : ascii) : bool :=
  if ic then Ascii.eqb (Py.lower_char x) (Py.lower_char c) else Ascii.eqb x c.

Definition word_before (prev : option ascii) : bool :=
  match prev with
  | Some c => Py.isword c
  | None => false
  end.

Definition word_after (s : string) : bool :=
  match s with
  | String c _ => Py.isword c
  | EmptyString => false
  end.

(** Backtracking matcher: [matches ic r prev s k] tries every way for [r]
    to match a prefix of [s] ([prev] is the character before [s], for word
    boundaries) and hands the rest to [k].  A star iterates at most once
    for each character left, each round consuming at least one.  The
    conditionals make the matcher stop at the first failure and at the
    first success. *)
Fixpoint matches (ic : bool) (r : regex) (prev : option ascii) (s : string)
         (k : option ascii -> string -> bool) {struct r} : bool :=
  match r with
  | Eps => k prev s
  | Chr c =>
      match s with
      | String x s' => if chr_eq ic c x then k (Some x) s' else false
      | EmptyString => false
      end
  | Cls p =>
      match s with
      | String x s' => if p x then k (Some x) s' else false
      | EmptyString => false
      end
  | Seq r1 r2 => matches ic r1 prev s (fun p' s' => matches ic r2 p' s' k)
  | Alt r1 r2 => if matches ic r1 prev s k then true else matches ic r2 prev s k
  | Star r1 =>
      (fix loop (n : nat) (prev0 : option ascii) (s0 : string) {struct n} : bool :=
         if k prev0 s0 then true
         else
           match n with
           | O => false
           | S n' =>
               matches ic r1 prev0 s0
                 (fun p' s' =>
                    if (String.length s' <? String.length s0)%nat
                    then loop n' p' s' else false)
           end) (String.length s) prev s
  | WordB => if xorb (word_before prev) (word_after s) then k prev s else false
  end.

Definition match_here (ic : bool) (r : regex) (prev : option ascii) (s : string) : bool :=
  matches ic r prev s (fun _ _ => true).

Fixpoint search_from (ic : bool) (r : regex) (prev : option ascii) (s : string) : bool :=
  if match_here ic r prev s then true
  else
    match s with
    | String c s' => search_from ic r (Some c) s'
    | EmptyString => false
    end.

(** Truth value of [re.search(r, s)], and of [re.search(r, s, re.IGNORECASE)]
    when [ic] is set. *)
Definition search (ic : bool) (r : regex) (s : string) : bool := search_from ic r None s.

(** Building blocks. *)
Fixpoint Lit (s : string) : regex :=
  match s with
  | EmptyString => Eps
  | String c s' => Seq (Chr c) (Lit s')
  end.

Definition Plus (r : regex) : regex := Seq r (Star r).
Definition Opt (r : regex) : regex := Alt r Eps.
Definition OneOf (cs : string) : regex :=
  Cls (fun x => Py.contains (String x EmptyString) cs).
Definition NoneOf (cs : string) : regex :=
  Cls (fun x => negb (Py.contains (String x EmptyString) cs)).
Definition Space : regex := Cls Py.isspace.
Definition Word : regex := Cls Py.isword.
(** The dot: anything but a line feed. *)
Definition Dot : regex := Cls (fun x => negb (Ascii.eqb x Py.newline)).

Fixpoint Cat (rs : list regex) : regex :=
  match rs with
  | [] => Eps
  | r :: rs' => Seq r (Cat rs')
  end.

(** The chunk header pattern of the diff parser, to compare the parser's
    own matcher with. *)
Definition Digit : regex := Cls Py.isdigit.

Definition chunk_header_regex : regex :=
  Cat [Lit "@@ -"; Plus Digit; Opt (Seq (Chr ",") (Plus Digit));
       Lit " +"; Plus Digit; Opt (Seq (Chr ",") (Plus Digit)); Lit " @@"].

(** ** Shapes of text the patterns match *)

(** Every character of the string is in the class. *)
Fixpoint all_chars (p : ascii -> bool) (s : string) : bool :=
  match s with
  | EmptyString => true
  | String c s' => if p c then all_chars p s' else false
  end.

(** The string is the literal, character by character, up to letter case
    when [ic] is set. *)
Fixpoint chars_match (ic : bool) (lit s : string) : bool :=
  match lit, s with
  | EmptyString, EmptyString => true
  | String c lit', String x s' => if chr_eq ic c x then chars_match ic lit' s' else false
  | _, _ => false
  end.

(** The character before what follows [s], when [prev] is before [s]. *)
Fixpoint last_of (prev : option ascii) (s : string) : option ascii :=
  match s with
  | EmptyString => prev
  | String c s' => last_of (Some c) s'
  end.

End Re.

(* ================================================================== *)
(** * app/services/pattern_detector.py *)
(* ================================================================== *)

Module PatternDetector.

Import Re.

(** [class PatternMatch]. *)
Record PatternMatch : Type := mkMatch {
  pattern_type : string;
  severity : string;
  message : string;
  line_number : Z;
  code_snippet : string;
  confidence : float
}.

(** The two quote characters of the credential patterns. *)
Definition is_quote (x : ascii) : bool :=
  Ascii.eqb x (ascii_of_nat 34) || Ascii.eqb x (ascii_of_nat 39).

Definition Quote : regex := Cls is_quote.
Definition NotQuote : regex := Cls (fun x => negb (is_quote x)).

(** The tail shared by the four credential patterns: optional white
    space, an equals sign, optional white space and a quoted, non-empty
    literal. *)
Definition quoted_assignment : regex :=
  Cat [Star Space; Chr "="; Star Space; Quote; Plus NotQuote; Quote].

(** The tail shared by the two SQL patterns: an opening parenthesis, a
    quote, anything, a plus sign, anything, a quote. *)
Definition concatenated_literal : regex :=
  Cat [Chr "("; Quote; Star Dot; Chr "+"; Star Dot; Quote].

(** One entry of the rule table: its severity and its (pattern, message)
    pairs. *)
Record rule : Type := mkRule {
  rule_severity : string;
  rule_patterns : list (regex * string)
}.

(** [PatternDetector._load_patterns]: the table, in the order of the
    dictionary literal. *)
Definition _load_patterns : list (string * rule) :=
  [ ("hardcoded_credentials",
     mkRule "critical"
       [ (Seq (Lit "password") quoted_assignment, "Hardcoded password");
         (Cat [Lit "api"; Opt (OneOf "_-"); Lit "key"; quoted_assignment], "Hardcoded API key");
         (Seq (Lit "secret") quoted_assignment, "Hardcoded secret");
         (Seq (Lit "token") quoted_assignment, "Hardcoded token") ]);
    ("sql_injection",
     mkRule "critical"
       [ (Seq (Lit "execute") concatenated_literal, "Potential SQL injection");
         (Seq (Lit "query") concatenated_literal, "Potential SQL injection") ]);
    ("todo_comments",
     mkRule "info"
       [ (Cat [Lit "//"; Star Space; Lit "TODO"], "TODO comment found");
         (Cat [Lit "#"; Star Space; Lit "TODO"], "TODO comment found");
         (Cat [Lit "//"; Star Space; Lit "FIXME"], "FIXME comment found");
         (Cat [Lit "#"; Star Space; Lit "FIXME"], "FIXME comment found") ]) ].

(** [for i, line in enumerate(lines, 1): if test: matches.append(mk)],
    started at line number [i]. *)
Fixpoint scan (test : nat -> string -> bool) (mk : nat -> string -> PatternMatch)
         (i : nat) (lines : list string) : list PatternMatch :=
  match lines with
  | [] => []
  | l :: ls =>
      (if test i l then [mk i l] else []) ++ scan test mk (S i) ls
  end.

(** [lines[i:i+3] if i < len(lines) - 3 else lines[i:]]. *)
Definition next_lines (lines : list string) (i : nat) : list string :=
  if (Z.of_nat i <? Z.of_nat (length lines) - 3)%Z
  then firstn 3 (skipn i lines)
  else skipn i lines.

(** [PatternDetector._detect_java_patterns]. *)
Definition _detect_java_patterns (code : string) : list PatternMatch :=
  let lines := Py.splitlines code in
  scan (fun i line =>
          Py.contains "catch" line
          && existsb (fun l => String.eqb (Py.strip l) "}") (next_lines lines i))
       (fun i line =>
          mkMatch "empty_catch" "major" "Empty catch block - swallows exceptions"
                  (Z.of_nat i) (Py.strip line) 0.8)
       1 lines
  ++
  scan (fun _ line =>
          search false (Cat [Lit "catch"; Star Space; Chr "("; Star Space; Lit "Exception"]) line)
       (fun i line =>
          mkMatch "catch_generic_exception" "minor"
                  "Catching generic Exception - be more specific"
                  (Z.of_nat i) (Py.strip line) 0.9)
       1 lines
  ++
  scan (fun _ line =>
          Py.contains "System.out.println" line || Py.contains "System.err.println" line)
       (fun i line =>
          mkMatch "console_logging" "minor" "Use logger instead of System.out.println"
                  (Z.of_nat i) (Py.strip line) 0.95)
       1 lines.

(** The start of a function definition up to an equals sign inside the
    parameter list, as in the two patterns for mutable defaults. *)
Definition def_with_default : regex :=
  Cat [Lit "def"; Plus Space; Plus Word; Star Space; Chr "(";
       Star (NoneOf ")"); Chr "="; Star Space].

(** [PatternDetector._detect_python_patterns]. *)
Definition _detect_python_patterns (code : string) : list PatternMatch :=
  let lines := Py.splitlines code in
  scan (fun _ line => search false (Cat [Lit "except"; Star Space; Chr ":"]) line)
       (fun i line =>
          mkMatch "bare_except" "major" "Bare except clause - catches all exceptions"
                  (Z.of_nat i) (Py.strip line) 0.95)
       1 lines
  ++
  scan (fun _ line =>
          search false (Cat [WordB; Lit "print"; Star Space; Chr "("]) line
          && negb (Py.contains "logger" code))
       (fun i line =>
          mkMatch "print_statement" "info" "Consider using logging instead of print"
                  (Z.of_nat i) (Py.strip line) 0.7)
       1 lines
  ++
  scan (fun _ line =>
          search false (Seq def_with_default (Chr "[")) line
          || search false (Seq def_with_default (Chr "{")) line)
       (fun i line =>
          mkMatch "mutable_default_argument" "major"
                  "Mutable default argument - can lead to unexpected behavior"
                  (Z.of_nat i) (Py.strip line) 0.85)
       1 lines.

(** The pattern of the loose-equality check: a character other than
    [=], [!], [<], [>], two equals signs, a character other than [=]. *)
Definition loose_equality_regex : regex :=
  Cat [NoneOf "=!<>"; Chr "="; Chr "="; NoneOf "="].

Definition loose_equality_match (i : nat) (line : string) : PatternMatch :=
  mkMatch "loose_equality" "minor" "Use === instead of == for strict equality"
          (Z.of_nat i) (Py.strip line) 0.8.

(** [PatternDetector._detect_javascript_patterns]. *)
Definition _detect_javascript_patterns (code : string) : list PatternMatch :=
  let lines := Py.splitlines code in
  scan (fun _ line => Py.contains "console.log" line || Py.contains "console.error" line)
       (fun i line =>
          mkMatch "console_log" "info" "Remove console.log before production"
                  (Z.of_nat i) (Py.strip line) 0.9)
       1 lines
  ++
  scan (fun _ line => search false loose_equality_regex line)
       loose_equality_match
       1 lines
  ++
  scan (fun _ line => search false (Cat [WordB; Lit "var"; Plus Space]) line)
       (fun i line =>
          mkMatch "var_keyword" "minor" "Use let or const instead of var"
                  (Z.of_nat i) (Py.strip line) 0.9)
       1 lines.

(** The first loop of [_detect_universal_patterns]: every entry of the
    table is visited, and only the one named [hardcoded_credentials] is
    applied. *)
Definition credential_scan (table : list (string * rule)) (lines : list string)
  : list PatternMatch :=
  flat_map
    (fun entry : string * rule =>
       let (ptype, config) := entry in
       if String.eqb ptype "hardcoded_credentials" then
         flat_map
           (fun rm : regex * string =>
              let (re, msg) := rm in
              scan (fun _ line => search true re line)
                   (fun i line =>
                      mkMatch ptype (rule_severity config) msg
                              (Z.of_nat i) (Py.strip line) 0.85)
                   1 lines)
           (rule_patterns config)
       else [])
    table.

(** [PatternDetector._detect_universal_patterns]. *)
Definition _detect_universal_patterns (code : string) : list PatternMatch :=
  let lines := Py.splitlines code in
  credential_scan _load_patterns lines
  ++
  scan (fun _ line =>
          search true (Cat [Alt (Lit "//") (Lit "#"); Star Space;
                            Alt (Lit "TODO") (Lit "FIXME")]) line)
       (fun i line =>
          mkMatch "todo_comment" "info" "TODO/FIXME comment - needs attention"
                  (Z.of_nat i) (Py.take 80 (Py.strip line)) 0.95)
       1 lines.

(** [PatternDetector.detect_patterns]; the file path is not used. *)
Definition detect_patterns (code language : string) : list PatternMatch :=
  let language := Py.lower language in
  (if String.eqb language "java" then _detect_java_patterns code
   else if String.eqb language "python" then _detect_python_patterns code
   else if String.eqb language "javascript" || String.eqb language "typescript"
        then _detect_javascript_patterns code
   else [])
  ++ _detect_universal_patterns code.

(** ** The loose-equality rule as the specification words it *)

Definition is_operator_neighbour (x : ascii) : bool :=
  Py.contains (String x EmptyString) "=!<>".

(** There is an occurrence of two equals signs which neither follows nor
    precedes one of [=], [!], [<], [>]; the start and the end of the line
    count as no character. *)
Fixpoint spec_loose_equality_from (prev : option ascii) (s : string) : bool :=
  match s with
  | String "=" (String "=" rest as s') =>
      (negb (match prev with Some p => is_operator_neighbour p | None => false end)
       && negb (match rest with String n _ => is_operator_neighbour n | EmptyString => false end))
      || spec_loose_equality_from (Some "="%char) s'
  | String c s' => spec_loose_equality_from (Some c) s'
  | EmptyString => false
  end.

Definition spec_loose_equality (line : string) : bool :=
  spec_loose_equality_from None line.

(** ** Statements and inputs for the properties below *)

(** The types of match a call of [detect_patterns] can return. *)
Definition emitted_types : list string :=
  [ "empty_catch"; "catch_generic_exception"; "console_logging";
    "bare_except"; "print_statement"; "mutable_default_argument";
    "console_log"; "loose_equality"; "var_keyword";
    "hardcoded_credentials"; "todo_comment" ].

(** A line the first SQL pattern of the table matches. *)
Definition concatenated_query : string :=
  "cursor.execute('SELECT * FROM t WHERE id = ' + uid + ';')".

(** What the pattern of the rule asks of a line: somewhere in it, a
    character other than [=], [!], [<], [>], then two equals signs, then
    a character other than [=]. *)
Definition loose_equality_shape (line : string) : Prop :=
  exists (p q : string) (c1 c2 : ascii),
    line = (p ++ String c1 (String "=" (String "=" (String c2 q))))%string
    /\ is_operator_neighbour c1 = false
    /\ c2 <> "="%char.

(** A comparison with a negated operand, and a comparison broken after
    the operator. *)
Definition negated_operand : string := "if (a ==!b) {".
Definition operator_at_end : string := "if (a ==".

(** ** The operations on lists of matches *)

(** [severity_order.get(s, 0)]. *)
Definition severity_rank (s : string) : Z :=
  if String.eqb s "info" then 0
  else if String.eqb s "minor" then 1
  else if String.eqb s "major" then 2
  else if String.eqb s "critical" then 3
  else 0.

(** [PatternDetector.filter_by_severity]. *)
Definition filter_by_severity (ms : list PatternMatch) (min_severity : string)
  : list PatternMatch :=
  let min_level := severity_rank min_severity in
  filter (fun m => (min_level <=? severity_rank (severity m))%Z) ms.

(** The dictionary of [group_by_type], its keys in the order in which
    they were first set. *)
Definition groups : Type := list (string * list PatternMatch).

(** [grouped[key]] when the key is there. *)
Fixpoint group_lookup (key : string) (g : groups) : option (list PatternMatch) :=
  match g with
  | [] => None
  | (k, ms) :: g' => if String.eqb k key then Some ms else group_lookup key g'
  end.

(** One round of the loop of [group_by_type]: a new key gets an empty
    list at the end of the dictionary, and the match is appended to the
    list of its key. *)
Fixpoint group_insert (m : PatternMatch) (g : groups) : groups :=
  match g with
  | [] => [(pattern_type m, [m])]
  | (k, ms) :: g' =>
      if String.eqb k (pattern_type m) then (k, ms ++ [m]) :: g'
      else (k, ms) :: group_insert m g'
  end.

(** [PatternDetector.group_by_type]. *)
Definition group_by_type (ms : list PatternMatch) : groups :=
  fold_left (fun g m => group_insert m g) ms [].

(** The matches of one type, in the order of the list. *)
Definition of_type (key : string) (ms : list PatternMatch) : list PatternMatch :=
  filter (fun m => String.eqb (pattern_type m) key) ms.

(** A match points at a line of the text: its line number is the number
    of a line, counted from 1, and its excerpt is that line stripped, or
    the first 80 characters of that. *)
Definition points_at (lines : list string) (m : PatternMatch) : Prop :=
  exists k line,
    nth_error lines k = Some line
    /\ line_number m = Z.of_nat (S k)
    /\ (code_snippet m = Py.strip line \/ code_snippet m = Py.take 80 (Py.strip line)).

End PatternDetector.

(* ================================================================== *)
(** * Effects: exceptions, collaborator calls and their trace *)
(* ================================================================== *)

Module Effects.

(** A raised Python exception: its class name, and whether the class
    derives from [Exception] (what [except Exception] catches) or only
    from [BaseException]. *)
Record exn : Type := mkExn {
  exn_class : string;
  exn_is_Exception : bool
}.

Inductive outcome (A : Type) : Type :=
| Returns (a : A)
| Raises (e : exn).

Arguments Returns {A} a.
Arguments Raises {A} e.

Section Monad.

(** [W] is the state of the world behind the collaborators, [C] the
    type of the entries of the call trace. *)
Variables W C : Type.

Definition state : Type := (W * list C)%type.

Definition M (A : Type) : Type := state -> outcome A * state.

Definition ret {A : Type} (a : A) : M A := fun s => (Returns a, s).

Definition raise {A : Type} (e : exn) : M A := fun s => (Raises e, s).

Definition bind {A B : Type} (m : M A) (f : A -> M B) : M B :=
  fun s =>
    match m s with
    | (Returns a, s') => f a s'
    | (Raises e, s') => (Raises e, s')
    end.

(** [try: m  except Exception as e: handler]. *)
Definition try_except {A : Type} (m : M A) (handler : exn -> M A) : M A :=
  fun s =>
    match m s with
    | (Returns a, s') => (Returns a, s')
    | (Raises e, s') =>
        if exn_is_Exception e then handler e s' else (Raises e, s')
    end.

(** A call to a collaborator: it acts on the world and is recorded. *)
Definition call {A : Type} (c : C) (f : W -> outcome A * W) : M A :=
  fun s =>
    let (r, w') := f (fst s) in (r, (w', snd s ++ [c])).

(** A computation that touches no collaborator. *)
Definition lift {A : Type} (r : outcome A) : M A := fun s => (r, s).

End Monad.

Arguments ret {W C A} a.
Arguments raise {W C A} e.
Arguments bind {W C A B} m f.
Arguments try_except {W C A} m handler.
Arguments call {W C A} c f.
Arguments lift {W C A} r.

Notation "x <- m ;; k" := (bind m (fun x => k))
  (at level 61, m at next level, right associativity).

(** Exceptions the modelled code raises by itself. *)
Definition OverflowError : exn := mkExn "OverflowError" true.
Definition ZeroDivisionError : exn := mkExn "ZeroDivisionError" true.
Definition IndexError : exn := mkExn "IndexError" true.


End Effects.

(* ================================================================== *)
(** * app/services/embedding_service.py *)
(* ================================================================== *)

Module EmbeddingService.

Import Effects.

(** [List[float]]. *)
Definition vec : Type := list float.

(** Truth value of an [Optional[List[float]]]: a non-empty list. *)
Definition truthy (v : option vec) : bool :=
  match v with
  | Some (_ :: _) => true
  | _ => false
  end.

(** Calls the service makes to its collaborators. *)
Inductive call_event : Type :=
| CacheGet (key : string)
| CacheSet (key : string) (v : option vec) (ttl : Z)
| ProviderEmbed (text model task_type : string).

(** The cache collaborator ([cache_service]). *)
Record CacheService (W : Type) : Type := mkCache {
  get_embedding : string -> W -> outcome (option vec) * W;
  set_embedding : string -> option vec -> Z -> W -> outcome unit * W
}.

(** The embedding provider ([gemini_service]); its [generate_embedding]
    takes the text, the model and the task type. *)
Record GeminiService (W : Type) : Type := mkGemini {
  provider_generate_embedding : string -> string -> string -> W -> outcome (option vec) * W
}.

Arguments get_embedding {W} _ _ _.
Arguments set_embedding {W} _ _ _ _ _.
Arguments provider_generate_embedding {W} _ _ _ _ _.

(** The service object.  [sha256_hexdigest] stands for
    [hashlib.sha256(...).hexdigest()] on the UTF-8 encoding of a string and
    [dummy_embedding] for [_generate_dummy_embedding], which seeds
    [random] with an MD5 digest; both are functions of their argument. *)
Record service (W : Type) : Type := mkService {
  gemini_service : option (GeminiService W);
  cache_service : option (CacheService W);
  sha256_hexdigest : string -> string;
  dummy_embedding : string -> vec
}.

Arguments gemini_service {W} _.
Arguments cache_service {W} _.
Arguments sha256_hexdigest {W} _ _.
Arguments dummy_embedding {W} _ _.

Definition embedding_model : string := "models/embedding-001".

Section Service.

Variable W : Type.
Variable self : service W.

Definition M : Type -> Type := Effects.M W call_event.

(** [EmbeddingService._generate_cache_key]. *)
Definition _generate_cache_key (text task_type : string) : string :=
  sha256_hexdigest self (task_type ++ ":" ++ text)%string.

(** [not text or not text.strip()]. *)
Definition blank (text : string) : bool :=
  negb (Py.truthy text) || negb (Py.truthy (Py.strip text)).

(** The body of the [try] of [generate_embedding]. *)
Definition embed_and_cache (text task_type cache_key : string) : M (option vec) :=
  embedding <-
    match gemini_service self with
    | Some g =>
        call (ProviderEmbed text embedding_model task_type)
             (provider_generate_embedding g text embedding_model task_type)
    | None => ret (Some (dummy_embedding self text))
    end ;;
  _ <-
    match cache_service self with
    | Some c =>
        if truthy embedding
        then call (CacheSet cache_key embedding 86400)
                  (set_embedding c cache_key embedding 86400)
        else ret tt
    | None => ret tt
    end ;;
  ret embedding.

(** The look-up that comes before the [try]: nothing is found when
    there is no cache. *)
Definition read_cache (cache_key : string) : M (option vec) :=
  match cache_service self with
  | Some c => call (CacheGet cache_key) (get_embedding c cache_key)
  | None => ret None
  end.

(** [EmbeddingService.generate_embedding]. *)
Definition generate_embedding (text task_type : string) : M (option vec) :=
  if blank text then ret None
  else
    let cache_key := _generate_cache_key text task_type in
    cached <- read_cache cache_key ;;
    if truthy cached then ret cached
    else
      try_except (embed_and_cache text task_type cache_key)
                 (fun _ => ret None).

End Service.

Arguments _generate_cache_key {W} self text task_type.
Arguments generate_embedding {W} self text task_type.
Arguments embed_and_cache {W} self text task_type cache_key.
Arguments read_cache {W} self cache_key.

(** ** Collaborators to run the service with *)

(** Modelled from the spec: the key/value cache, whose class is not among
    the sources; [get(key)] gives the vector stored under the key or
    absence, [set(key, vector, ttl)] stores it.  The world is the store,
    newest entry first; expiry is left to the cache and not modelled. *)
Definition store : Type := list (string * option vec).

Fixpoint store_get (key : string) (w : store) : option vec :=
  match w with
  | [] => None
  | (k, v) :: w' => if String.eqb k key then v else store_get key w'
  end.

Definition store_cache : CacheService store :=
  mkCache store
    (fun key w => (Returns (store_get key w), w))
    (fun key v _ w => (Returns tt, (key, v) :: w)).

(** A provider that answers every request with the same value. *)
Definition constant_provider (W : Type) (v : option vec) : GeminiService W :=
  mkGemini W (fun _ _ _ w => (Returns v, w)).

(** Collaborators that fail with an exception deriving from
    [Exception]. *)
Definition ConnectionError : exn := mkExn "ConnectionError" true.

Definition failing_cache (W : Type) : CacheService W :=
  mkCache W
    (fun _ w => (Raises ConnectionError, w))
    (fun _ _ _ w => (Raises ConnectionError, w)).

Definition failing_provider (W : Type) : GeminiService W :=
  mkGemini W (fun _ _ _ w => (Raises ConnectionError, w)).

(** A stand-in for the digest where an example needs a concrete one. *)
Definition plain_key (s : string) : string := s.

(** Number of provider calls in a trace. *)
Definition provider_calls (tr : list call_event) : nat :=
  length (filter (fun c => match c with ProviderEmbed _ _ _ => true | _ => false end) tr).

(** ** [cosine_similarity] *)

Local Open Scope float_scope.

(** [a ** 2]: float power raises [OverflowError] when the result of a
    finite operand is out of range; a result too small becomes zero. *)
Definition square (a : float) : outcome float :=
  let r := a * a in
  if PrimFloat.is_finite a && PrimFloat.is_infinity r then Raises OverflowError
  else Returns r.

(** [sum(a ** 2 for a in v)], the sum starting from the integer 0 and
    adding from left to right.  (Interpreters from 3.12 on add floats
    with a compensated sum, which can change the last bits of a sum; a
    sum of squares is zero under either exactly when every square is.) *)
Fixpoint sum_squares (acc : float) (v : vec) : outcome float :=
  match v with
  | [] => Returns acc
  | a :: v' =>
      match square a with
      | Returns r => sum_squares (acc + r) v'
      | Raises e => Raises e
      end
  end.

(** [sum(a ** 2 for a in v) ** 0.5]; the sum is never negative and its
    power one half is its square root. *)
Definition magnitude (v : vec) : outcome float :=
  match sum_squares 0 v with
  | Returns x => Returns (PrimFloat.sqrt x)
  | Raises e => Raises e
  end.

(** [sum(a * b for a, b in zip(vec1, vec2))]. *)
Definition dot_product (vec1 vec2 : vec) : float :=
  fold_left (fun acc ab => acc + fst ab * snd ab) (combine vec1 vec2) 0.

(** [x / y] on floats raises [ZeroDivisionError] on a zero divisor. *)
Definition divide (x y : float) : outcome float :=
  if y =? 0 then Raises ZeroDivisionError else Returns (x / y).

Definition is_empty {A : Type} (l : list A) : bool :=
  match l with [] => true | _ => false end.

(** [EmbeddingService.cosine_similarity]. *)
Definition cosine_similarity (vec1 vec2 : vec) : outcome float :=
  if is_empty vec1 || is_empty vec2 || negb (length vec1 =? length vec2)%nat
  then Returns 0
  else
    let dot := dot_product vec1 vec2 in
    match magnitude vec1 with
    | Raises e => Raises e
    | Returns magnitude1 =>
        match magnitude vec2 with
        | Raises e => Raises e
        | Returns magnitude2 =>
            if (magnitude1 =? 0) || (magnitude2 =? 0) then Returns 0
            else divide dot (magnitude1 * magnitude2)
        end
    end.

(** ** Statements and inputs for the properties below *)



Local Close Scope float_scope.

(** What is asked of the cache: a vector just stored under a key is what
    a look-up of that key gives back. *)
Definition cache_keeps {W : Type} (c : CacheService W) : Prop :=
  forall key v ttl w,
    exists w',
      set_embedding c key v ttl w = (Returns tt, w')
      /\ exists w'', get_embedding c key w' = (Returns v, w'').

(** A service over the store, with a provider that always answers [v]. *)
Definition stored_service (v : option vec)
  : service store :=
  mkService store
    (Some (constant_provider store v))
    (Some store_cache)
    plain_key (fun _ => []).

(** The state after two calls of [generate_embedding]. *)
Definition embed_twice (v : option vec) (text task_type : string)
           (w : store)
  : outcome (option vec)
    * outcome (option vec)
    * list call_event :=
  let (r1, s1) := generate_embedding (stored_service v) text task_type (w, []) in
  let (r2, s2) := generate_embedding (stored_service v) text task_type s1 in
  (r1, r2, snd s2).

(** A service whose provider fails, without cache, and one whose cache
    fails on every look-up. *)
Definition service_with_failing_provider : service unit :=
  mkService unit
    (Some (failing_provider unit)) None
    plain_key (fun _ => []).


(** ** The other operations of the service *)

(** The text whose digest is the cache key: the task type, a colon and
    the text. *)
Definition cache_key_content (text task_type : string) : string :=
  (task_type ++ ":" ++ text)%string.

(** [sep.join(parts)]. *)
Fixpoint join (sep : string) (parts : list string) : string :=
  match parts with
  | [] => EmptyString
  | [p] => p
  | p :: ps => (p ++ sep ++ join sep ps)%string
  end.

(** The text [embed_code_snippet] builds; a description that is [None]
    or empty adds no part. *)
Definition combined_text (code language : string) (description : option string) : string :=
  join (String Py.newline (String Py.newline EmptyString))
       ([("Language: " ++ language)%string;
         ("Code:" ++ String Py.newline code)%string]
        ++ match description with
           | Some d => if Py.truthy d then [("Description: " ++ d)%string] else []
           | None => []
           end).

(** [EmbeddingService.embed_code_snippet]. *)
Definition embed_code_snippet {W : Type} (self : service W)
           (code language : string) (description : option string)
  : Effects.M W call_event (option vec) :=
  generate_embedding self (combined_text code language description) "retrieval_document".

(** [EmbeddingService.embed_search_query]. *)
Definition embed_search_query {W : Type} (self : service W) (query : string)
  : Effects.M W call_event (option vec) :=
  generate_embedding self query "retrieval_query".

(** Calls made by the batch operation: those of the single operation and
    the batch call of the provider. *)
Inductive batch_event : Type :=
| Single (e : call_event)
| ProviderEmbedBatch (texts : list string) (model task_type : string).

(** The three lists the first loop of [generate_embeddings_batch] builds. *)
Record batch_lists : Type := mkLists {
  embeddings : list (option vec);
  uncached_indices : list nat;
  uncached_texts : list string
}.

(** [embeddings[idx] = v]; the index is always one of the list. *)
Fixpoint set_at (l : list (option vec)) (idx : nat) (v : option vec) : list (option vec) :=
  match l, idx with
  | [], _ => []
  | _ :: l', O => v :: l'
  | x :: l', S n => x :: set_at l' n v
  end.

Section Batch.

Variable W : Type.
Variable self : service W.

(** [gemini_service.generate_embeddings_batch], the batch method of the
    provider, taking the texts, the model and the task type. *)
Variable provider_batch :
  list string -> string -> string -> W -> outcome (list (option vec)) * W.

Definition BM : Type -> Type := Effects.M W batch_event.

(** One round of the first loop: a blank text gets [None] without a
    look-up, a text found in the cache gets its vector, any other text
    gets a placeholder and joins the texts to embed. *)
Definition check_text (acc : batch_lists) (i : nat) (text task_type : string)
  : BM batch_lists :=
  if blank text
  then ret (mkLists (embeddings acc ++ [None]) (uncached_indices acc) (uncached_texts acc))
  else
    let cache_key := _generate_cache_key self text task_type in
    cached <-
      match cache_service self with
      | Some c => call (Single (CacheGet cache_key)) (get_embedding c cache_key)
      | None => ret None
      end ;;
    if truthy cached
    then ret (mkLists (embeddings acc ++ [cached]) (uncached_indices acc) (uncached_texts acc))
    else ret (mkLists (embeddings acc ++ [None]) (uncached_indices acc ++ [i])
                      (uncached_texts acc ++ [text])).

(** The first loop, over [enumerate(texts)] from index [i] on. *)
Fixpoint check_texts (acc : batch_lists) (i : nat) (texts : list string) (task_type : string)
  : BM batch_lists :=
  match texts with
  | [] => ret acc
  | text :: rest =>
      acc' <- check_text acc i text task_type ;;
      check_texts acc' (S i) rest task_type
  end.

(** The loop that fills in the embeddings of the batch and caches them.
    The list is changed in place, so what was filled in before a failure
    stays: the list comes back with the outcome. *)
Fixpoint fill (texts : list string) (task_type : string)
         (pairs : list (nat * option vec)) (embs : list (option vec))
         (s : state W batch_event)
  : (list (option vec) * outcome unit) * state W batch_event :=
  match pairs with
  | [] => ((embs, Returns tt), s)
  | (idx, embedding) :: rest =>
      let embs' := set_at embs idx embedding in
      match cache_service self with
      | Some c =>
          if truthy embedding
          then
            let cache_key := _generate_cache_key self (nth idx texts EmptyString) task_type in
            match call (Single (CacheSet cache_key embedding 86400))
                       (set_embedding c cache_key embedding 86400) s with
            | (Returns _, s') => fill texts task_type rest embs' s'
            | (Raises e, s') => ((embs', Raises e), s')
            end
          else fill texts task_type rest embs' s
      | None => fill texts task_type rest embs' s
      end
  end.

(** The [try] of the second part: the batch call, or the dummy
    embeddings without provider, then the filling loop. *)
Definition embed_uncached (texts : list string) (task_type : string) (lists : batch_lists)
           (s : state W batch_event)
  : (list (option vec) * outcome unit) * state W batch_event :=
  match (match gemini_service self with
         | Some _ =>
             call (ProviderEmbedBatch (uncached_texts lists) embedding_model task_type)
                  (provider_batch (uncached_texts lists) embedding_model task_type) s
         | None =>
             (Returns (map (fun t => Some (dummy_embedding self t)) (uncached_texts lists)), s)
         end) with
  | (Returns batch_embeddings, s') =>
      fill texts task_type (combine (uncached_indices lists) batch_embeddings)
           (embeddings lists) s'
  | (Raises e, s') => ((embeddings lists, Raises e), s')
  end.

(** [EmbeddingService.generate_embeddings_batch]. *)
Definition generate_embeddings_batch (texts : list string) (task_type : string)
  : BM (list (option vec)) :=
  match texts with
  | [] => ret []
  | _ =>
      lists <- check_texts (mkLists [] [] []) 0 texts task_type ;;
      match uncached_texts lists with
      | [] => ret (embeddings lists)
      | _ =>
          fun s =>
            match embed_uncached texts task_type lists s with
            | ((embs, Returns _), s') => (Returns embs, s')
            | ((embs, Raises e), s') =>
                if exn_is_Exception e then (Returns embs, s') else (Raises e, s')
            end
      end
  end.

End Batch.

Arguments check_text {W} self acc i text task_type.
Arguments check_texts {W} self acc i texts task_type.
Arguments fill {W} self texts task_type pairs embs s.
Arguments embed_uncached {W} self provider_batch texts task_type lists s.
Arguments generate_embeddings_batch {W} self provider_batch texts task_type.

(** Number of batch calls of the provider in a trace. *)
Definition batch_calls (tr : list batch_event) : nat :=
  length (filter (fun c => match c with ProviderEmbedBatch _ _ _ => true | _ => false end) tr).

(** A batch method that answers each text with the same vector, and one
    that fails. *)
Definition constant_batch (W : Type) (v : option vec)
  : list string -> string -> string -> W
    -> Effects.outcome (list (option vec)) * W :=
  fun texts _ _ w => (Effects.Returns (map (fun _ => v) texts), w).

Definition failing_batch (W : Type)
  : list string -> string -> string -> W
    -> Effects.outcome (list (option vec)) * W :=
  fun _ _ _ w => (Effects.Raises ConnectionError, w).

End EmbeddingService.

(* ================================================================== *)
(** * app/services/rag_service.py *)
(* ================================================================== *)

Module RAGService.

Import Effects.

(** A metadata dictionary of the index, keys and values being strings. *)
Definition metadata : Type := list (string * string).

(** [d.get(key, default)]. *)
Fixpoint dict_get (d : metadata) (key default : string) : string :=
  match d with
  | [] => default
  | (k, v) :: d' => if String.eqb k key then v else dict_get d' key default
  end.

(** The [where] filter of a query. *)
Inductive where_clause : Type :=
| WhereEq (field value : string)
| WhereAnd (clauses : list where_clause).

(** What [collection.query] returns: three entries, each a list with one
    list for each query text, or [None]. *)
Record query_result : Type := mkResult {
  documents : option (list (list string));
  metadatas : option (list (list metadata));
  distances : option (list (list float))
}.

(** One dictionary of the list [find_similar_patterns] returns. *)
Record pattern : Type := mkPattern {
  code : string;
  pattern_metadata : metadata;
  distance : float;
  description : string
}.

(** Calls to the index. *)
Inductive call_event : Type :=
| IndexCount
| IndexQuery (query_texts : list string) (n_results : Z) (filter : where_clause).

(** The vector index ([self.collection]). *)
Record Collection (W : Type) : Type := mkCollection {
  count : W -> outcome Z * W;
  query : list string -> Z -> where_clause -> W -> outcome (option query_result) * W
}.

Arguments count {W} _ _.
Arguments query {W} _ _ _ _ _.

(** Truth value of an optional list: a non-empty list. *)
Definition truthy {A : Type} (l : option (list A)) : bool :=
  match l with
  | Some (_ :: _) => true
  | _ => false
  end.

(** [l[0][i]] on an optional list of lists known to be truthy; an index
    out of range raises [IndexError]. *)
Definition first_at {A : Type} (l : option (list (list A))) (i : nat) : outcome A :=
  match l with
  | Some (row :: _) =>
      match nth_error row i with
      | Some x => Returns x
      | None => Raises IndexError
      end
  | _ => Raises IndexError
  end.

(** The dictionary built for document [i]; its four entries are
    evaluated in the order of the literal. *)
Definition format_one (results : query_result) (i : nat) (doc : string) : outcome pattern :=
  match (if truthy (metadatas results)
         then first_at (metadatas results) i else Returns []) with
  | Raises e => Raises e
  | Returns md =>
      match (if truthy (distances results)
             then first_at (distances results) i else Returns 0%float) with
      | Raises e => Raises e
      | Returns dist =>
          match (if truthy (metadatas results)
                 then match first_at (metadatas results) i with
                      | Returns m => Returns (dict_get m "description" "")
                      | Raises e => Raises e
                      end
                 else Returns "") with
          | Raises e => Raises e
          | Returns descr => Returns (mkPattern doc md dist descr)
          end
      end
  end.

(** The loop over [enumerate(results['documents'][0])]. *)
Fixpoint format_docs (results : query_result) (i : nat) (docs : list string)
  : outcome (list pattern) :=
  match docs with
  | [] => Returns []
  | doc :: docs' =>
      match format_one results i doc with
      | Raises e => Raises e
      | Returns p =>
          match format_docs results (S i) docs' with
          | Raises e => Raises e
          | Returns ps => Returns (p :: ps)
          end
      end
  end.

(** The formatting of the results. *)
Definition format_results (results : option query_result) : outcome (list pattern) :=
  match results with
  | Some r =>
      match documents r with
      | Some (docs0 :: _) => format_docs r 0 docs0
      | _ => Returns []
      end
  | None => Returns []
  end.

(** The filter: language only when the repository id is empty. *)
Definition build_where (repository_id language : string) : where_clause :=
  if Py.truthy repository_id
  then WhereAnd [WhereEq "repository_id" repository_id; WhereEq "language" language]
  else WhereEq "language" language.

Section Service.

Variable W : Type.
Variable collection : Collection W.

Definition M : Type -> Type := Effects.M W call_event.

(** The body of the [try] of [find_similar_patterns]. *)
Definition find_similar_body (code_snippet repository_id language : string) (limit : Z)
  : M (list pattern) :=
  n <- call IndexCount (count collection) ;;
  if (n =? 0)%Z then ret []
  else
    n' <- call IndexCount (count collection) ;;
    let filter := build_where repository_id language in
    results <- call (IndexQuery [code_snippet] (Z.min limit n') filter)
                    (query collection [code_snippet] (Z.min limit n') filter) ;;
    lift (format_results results).

(** [RAGService.find_similar_patterns]; the coroutine awaits nothing
    and is modelled by its body run to the end. *)
Definition find_similar_patterns (code_snippet repository_id language : string) (limit : Z)
  : M (list pattern) :=
  try_except (find_similar_body code_snippet repository_id language limit)
             (fun _ => ret []).

End Service.

Arguments find_similar_body {W} collection code_snippet repository_id language limit.
Arguments find_similar_patterns {W} collection code_snippet repository_id language limit.

(** ** Indexes to run the service with *)

Definition ChromaError : exn := mkExn "ChromaError" true.

(** An index that holds nothing; a query of it would fail. *)
Definition empty_index (W : Type) : Collection W :=
  mkCollection W
    (fun w => (Returns 0%Z, w))
    (fun _ _ _ w => (Raises ChromaError, w)).


(** Number of queries in a trace. *)
Definition query_calls (tr : list call_event) : nat :=
  length (filter (fun c => match c with IndexQuery _ _ _ => true | _ => false end) tr).

(** ** Storing patterns and statistics *)

(** [d[key] = value]: the value of a key that is there is replaced where
    it stands, a new key goes to the end. *)
Fixpoint dict_set (d : metadata) (key value : string) : metadata :=
  match d with
  | [] => [(key, value)]
  | (k, v) :: d' =>
      if String.eqb k key then (k, value) :: d' else (k, v) :: dict_set d' key value
  end.

(** [d.update(extras)]. *)
Definition dict_update (d extras : metadata) : metadata :=
  fold_left (fun acc kv => dict_set acc (fst kv) (snd kv)) extras d.

(** What [collection.get] returns. *)
Record get_result : Type := mkGetResult {
  ids : option (list string);
  got_metadatas : option (list metadata)
}.

(** The writing and listing side of the vector index. *)
Record Store (W : Type) : Type := mkStore {
  add : list string -> list metadata -> list string -> W -> outcome unit * W;
  get : where_clause -> W -> outcome get_result * W
}.

Arguments add {W} _ _ _ _ _.
Arguments get {W} _ _ _.

Inductive store_event : Type :=
| IndexAdd (docs : list string) (metadatas : list metadata) (ids : list string)
| IndexGet (filter : where_clause).

(** The five required fields of the metadata of a pattern. *)
Definition required_metadata (repository_id file_path language category description : string)
  : metadata :=
  [ ("repository_id", repository_id); ("file_path", file_path);
    ("language", language); ("category", category); ("description", description) ].

(** The metadata [store_pattern] writes: the required fields, updated
    with the extras when there are any. *)
Definition pattern_metadata_of (repository_id file_path language category description : string)
           (extras : option metadata) : metadata :=
  match extras with
  | Some (kv :: more) =>
      dict_update (required_metadata repository_id file_path language category description)
                  (kv :: more)
  | _ => required_metadata repository_id file_path language category description
  end.

(** The dictionary [get_repository_stats] returns. *)
Record repository_stats : Type := mkRepoStats {
  total_patterns : nat;
  categories : list (string * nat)
}.

(** [categories.get(key, 0)]. *)
Fixpoint tally_get (t : list (string * nat)) (key : string) : nat :=
  match t with
  | [] => 0
  | (k, n) :: t' => if String.eqb k key then n else tally_get t' key
  end.

(** [categories[key] = categories.get(key, 0) + 1]. *)
Fixpoint tally_add (t : list (string * nat)) (key : string) : list (string * nat) :=
  match t with
  | [] => [(key, 1)]
  | (k, n) :: t' => if String.eqb k key then (k, S n) :: t' else (k, n) :: tally_add t' key
  end.

(** The category of an entry, [unknown] when it has none. *)
Definition category_of (m : metadata) : string := dict_get m "category" "unknown".

(** The loop over the metadatas. *)
Definition tally (ms : list metadata) : list (string * nat) :=
  fold_left (fun t m => tally_add t (category_of m)) ms [].

Section Storing.

Variable W : Type.
Variable store : Store W.

(** [hashlib.sha256(...).hexdigest()] of the encoded string. *)
Variable sha256_hexdigest : string -> string.

Definition SM : Type -> Type := Effects.M W store_event.

(** [RAGService._generate_pattern_id]. *)
Definition _generate_pattern_id (code repository_id file_path : string) : string :=
  Py.take 16 (sha256_hexdigest (repository_id ++ ":" ++ file_path ++ ":" ++ code)%string).

(** [RAGService.store_pattern]: the handler logs and raises again. *)
Definition store_pattern (code repository_id file_path language category description : string)
           (extras : option metadata) : SM string :=
  try_except
    (let pattern_id := _generate_pattern_id code repository_id file_path in
     let md := pattern_metadata_of repository_id file_path language category description extras in
     _ <- call (IndexAdd [code] [md] [pattern_id]) (add store [code] [md] [pattern_id]) ;;
     ret pattern_id)
    (fun e => raise e).

(** The metadata [store_accepted_suggestion] hands over. *)
Definition suggestion_metadata (suggestion_id code_before category : string) : metadata :=
  [ ("suggestion_id", suggestion_id); ("type", "accepted_suggestion");
    ("code_before", Py.take 500 code_before); ("improvement", category) ].

(** [RAGService.store_accepted_suggestion]: the handler only logs. *)
Definition store_accepted_suggestion
           (suggestion_id code_before code_after repository_id file_path language category : string)
  : SM unit :=
  try_except
    (_ <- store_pattern code_after repository_id file_path language category
            ("Accepted " ++ category ++ " improvement")%string
            (Some (suggestion_metadata suggestion_id code_before category)) ;;
     ret tt)
    (fun _ => ret tt).

(** [RAGService.get_repository_stats]. *)
Definition get_repository_stats (repository_id : string) : SM repository_stats :=
  try_except
    (results <- call (IndexGet (WhereEq "repository_id" repository_id))
                     (get store (WhereEq "repository_id" repository_id)) ;;
     let total :=
       match ids results with
       | Some (i :: more) => length (i :: more)
       | _ => 0
       end in
     let cats :=
       match got_metadatas results with
       | Some (m :: more) => tally (m :: more)
       | _ => []
       end in
     ret (mkRepoStats total cats))
    (fun _ => ret (mkRepoStats 0 [])).

End Storing.

Arguments store_pattern {W} store sha256_hexdigest
  code repository_id file_path language category description extras.
Arguments store_accepted_suggestion {W} store sha256_hexdigest
  suggestion_id code_before code_after repository_id file_path language category.
Arguments get_repository_stats {W} store repository_id.

(** A store whose every operation fails, and one that holds the given
    entries. *)
Definition failing_store (W : Type) : Store W :=
  mkStore W (fun _ _ _ w => (Raises ChromaError, w)) (fun _ w => (Raises ChromaError, w)).

Definition fixed_store (W : Type) (r : get_result) : Store W :=
  mkStore W (fun _ _ _ w => (Returns tt, w)) (fun _ w => (Returns r, w)).

(** An index that holds [n] entries and answers every query with [r]. *)
Definition fixed_index (W : Type) (n : Z) (r : option query_result) : Collection W :=
  mkCollection W (fun w => (Returns n, w)) (fun _ _ _ w => (Returns r, w)).

(** An optional list read as a list, [None] as the empty one. *)
Definition or_empty {A : Type} (l : option (list A)) : list A :=
  match l with
  | Some l' => l'
  | None => []
  end.

(** The first row of an optional list of rows is long enough for [n]
    results; a list that is [None] or empty is not read at all. *)
Definition row_covers {A : Type} (n : nat) (l : option (list (list A))) : bool :=
  match l with
  | Some (row :: _) => (n <=? length row)%nat
  | _ => true
  end.

End RAGService.

(* ================================================================== *)
(** * Properties of the diff parser *)
(* ================================================================== *)

Section DiffAnalyzerProperties.

Import DiffAnalyzer.

Local Open Scope Z_scope.

Local Arguments Ascii.eqb : simpl never.

(** ** Merged ranges neither overlap nor touch *)

Lemma separated_snoc (init : list (Z * Z)) (a b : Z * Z) :
  separated (init ++ [a]) -> fst b > snd a + 1 -> separated (init ++ [a; b]).
Proof.
  induction init as [| x init IH]; intros Hs Hgap.
  - simpl. auto.
  - destruct init as [| y init'].
    + simpl in *. tauto.
    + change (separated (x :: (y :: init') ++ [a; b])).
      change (separated (x :: (y :: init') ++ [a])) in Hs.
      simpl in Hs. destruct Hs as [Hxy Hrest].
      simpl. split; [exact Hxy |].
      apply IH; assumption.
Qed.

Lemma separated_replace_end (init : list (Z * Z)) (s e e' : Z) :
  separated (init ++ [(s, e)]) -> separated (init ++ [(s, e')]).
Proof.
  induction init as [| x init IH]; intros Hs.
  - simpl. exact I.
  - destruct init as [| y init'].
    + simpl in *. tauto.
    + change (separated (x :: (y :: init') ++ [(s, e)])) in Hs.
      simpl in Hs. destruct Hs as [Hxy Hrest].
      change (separated (x :: (y :: init') ++ [(s, e')])).
      simpl. split; [exact Hxy |].
      apply IH. exact Hrest.
Qed.

Lemma merge_step_separated (merged : list (Z * Z)) (r : Z * Z) :
  merged <> [] -> separated merged ->
  merge_step merged r <> [] /\ separated (merge_step merged r).
Proof.
  intros Hne Hs.
  destruct (exists_last Hne) as [init [[ls le] Heq]]. subst merged.
  destruct r as [start end_].
  unfold merge_step. rewrite last_last, removelast_last.
  destruct (start <=? le + 1) eqn:Hcmp.
  - split.
    + intro H. apply app_eq_nil in H. destruct H as [_ H]. discriminate.
    + apply separated_replace_end with (e := le). exact Hs.
  - split.
    + intro H. apply app_eq_nil in H. destruct H as [_ H]. discriminate.
    + rewrite <- app_assoc. simpl.
      apply separated_snoc; [exact Hs |].
      simpl. apply Z.leb_gt in Hcmp. lia.
Qed.

Lemma fold_merge_separated (rest merged : list (Z * Z)) :
  merged <> [] -> separated merged ->
  separated (fold_left merge_step rest merged).
Proof.
  revert merged.
  induction rest as [| r rest IH]; intros merged Hne Hs.
  - exact Hs.
  - simpl. destruct (merge_step_separated merged r Hne Hs) as [Hne' Hs'].
    apply IH; assumption.
Qed.

Lemma merge_ranges_separated (ranges : list (Z * Z)) :
  separated (merge_ranges ranges).
Proof.
  unfold merge_ranges.
  destruct (sort_ranges ranges) as [| r0 rest].
  - exact I.
  - apply fold_merge_separated.
    + discriminate.
    + exact I.
Qed.

Lemma separated_adjacent (l : list (Z * Z)) :
  separated l ->
  forall (i : nat) (a b : Z * Z),
    nth_error l i = Some a -> nth_error l (S i) = Some b -> fst b > snd a + 1.
Proof.
  induction l as [| x l IH]; intros Hs i a b Ha Hb.
  - destruct i; discriminate.
  - destruct l as [| y l'].
    + destruct i; simpl in Hb; [discriminate | destruct i; discriminate].
    + simpl in Hs. destruct Hs as [Hxy Hrest].
      destruct i as [| i].
      * simpl in Ha, Hb. inversion Ha. inversion Hb. subst. exact Hxy.
      * apply (IH Hrest i a b); assumption.
Qed.

Example touching_hunks_merged :
  get_changed_line_ranges touching_hunks "f.py" = [(1, 3)].
Proof. vm_compute. reflexivity. Qed.

(** C6: for every diff text and file path, two ranges next to each other
    in the list [get_changed_line_ranges] returns neither overlap nor
    touch: the second starts more than one line after the end of the
    first.  (This holds for every adjacent pair, whether or not the first
    starts before the second.) *)
Theorem changed_line_ranges_never_touch
  (diff_text file : string) (i : nat) (s1 e1 s2 e2 : Z) :
  nth_error (get_changed_line_ranges diff_text file) i = Some (s1, e1) ->
  nth_error (get_changed_line_ranges diff_text file) (S i) = Some (s2, e2) ->
  s2 > e1 + 1.
Proof.
  intros H1 H2.
  unfold get_changed_line_ranges in H1, H2.
  exact (separated_adjacent _ (merge_ranges_separated _) i (s1, e1) (s2, e2) H1 H2).
Qed.

Lemma changed_line_ranges_never_touch_witness :
  nth_error (get_changed_line_ranges two_hunks "f.py") 0 = Some (1, 2)
  /\ nth_error (get_changed_line_ranges two_hunks "f.py") 1 = Some (11, 11)
  /\ 11 > 2 + 1.
Proof.
  split; [reflexivity |]. split; [reflexivity |].
  apply (changed_line_ranges_never_touch two_hunks "f.py" 0 1 2 11 11); reflexivity.
Defined.

(** ** Lines of a hunk *)

(** The matcher of chunk headers agrees with the pattern it stands for
    on headers of every form and on malformed ones. *)
Example chunk_header_match_agrees_with_pattern :
  map is_header
      ["@@ -10,7 +10,8 @@"; "@@ -1 +1 @@ def f():"; "@@ -1,0 +5 @@"; "@@ -3 +4,2 @@";
       "@@ -1, +1 @@"; "@@ -a +1 @@"; "@@ -1,2 +1,3@@"; " @@ -1 +1 @@"; "@@ -12,34"]
  = map (Re.match_here false Re.chunk_header_regex None)
      ["@@ -10,7 +10,8 @@"; "@@ -1 +1 @@ def f():"; "@@ -1,0 +5 @@"; "@@ -3 +4,2 @@";
       "@@ -1, +1 @@"; "@@ -a +1 @@"; "@@ -1,2 +1,3@@"; " @@ -1 +1 @@"; "@@ -12,34"]
  /\ map chunk_header_match ["@@ -10,7 +10,8 @@"; "@@ -1 +5 @@"]
     = [Some ("10", Some "7", "10", Some "8"); Some ("1", None, "5", None)].
Proof. split; vm_compute; reflexivity. Qed.

Lemma header_is_not_file_line (l : string) g :
  chunk_header_match l = Some g -> new_file_match l = None.
Proof.
  destruct l as [| c l]; [discriminate |].
  unfold chunk_header_match, new_file_match. simpl.
  destruct (Ascii.eqb_spec "+" c) as [<- | _]; [discriminate | reflexivity].
Qed.










(** ** Context lines *)

(** C2, as stated, fails: after a header whose two sides start at
    different lines, a context line is recorded at the new-line counter
    only. *)
Lemma context_line_not_at_old_counter :
  old_line after_shifted_header = 1
  /\ new_line after_shifted_header = 5
  /\ option_map context_lines (current_chunk (parse_line after_shifted_header " a"))
     = Some [(5, "a")]
  /\ ~ recorded_at_both_counters after_shifted_header " a".
Proof.
  split; [reflexivity |]. split; [reflexivity |]. split; [reflexivity |].
  intros [c' [Hc [Hold _]]].
  vm_compute in Hc. inversion Hc; subst c'. clear Hc.
  simpl in Hold. destruct Hold as [H | []].
  inversion H.
Qed.

(** C2, amended: for every line beginning with a space met while a chunk
    is open, [parse_diff] appends the pair of the new-line counter and the
    text after the space to the context sequence of the chunk, and then
    adds one to the old-line and to the new-line counter; nothing else
    changes. *)
Theorem context_line_step (st : parse_state) (c : DiffChunk) (line : string) :
  current_chunk st = Some c ->
  Py.startswith line " " = true ->
  parse_line st line
  = mkState (chunks st) (current_file st)
            (Some (mkDiffChunk (file_path c) (old_start c) (old_count c)
                               (new_start c) (new_count c)
                               (added_lines c) (removed_lines c)
                               (context_lines c ++ [(new_line st, Py.tail line)])))
            (old_line st + 1) (new_line st + 1).
Proof.
  intros Hcur Hsp.
  destruct line as [| ch l]; [discriminate |].
  unfold Py.startswith in Hsp. simpl in Hsp.
  destruct (Ascii.eqb_spec " " ch) as [<- | ]; [| discriminate].
  unfold parse_line. rewrite Hcur. reflexivity.
Qed.

Lemma context_line_step_witness :
  parse_line after_shifted_header " a"
  = mkState [] None
            (Some (mkDiffChunk "" 1 1 5 1 [] [] [(5, "a")]))
            2 6.
Proof.
  apply (context_line_step after_shifted_header
           (mkDiffChunk "" 1 1 5 1 [] [] []) " a"); reflexivity.
Defined.

End DiffAnalyzerProperties.

(* ================================================================== *)
(** * Properties of the pattern detector *)
(* ================================================================== *)

Section PatternDetectorProperties.

Import Re PatternDetector.

Local Arguments Ascii.eqb : simpl never.

(** ** What a scan emits *)

Lemma scan_In (test : nat -> string -> bool) (mk : nat -> string -> PatternMatch)
      (lines : list string) (start : nat) (m : PatternMatch) :
  In m (scan test mk start lines)
  <-> exists k l, nth_error lines k = Some l
                  /\ test (start + k) l = true /\ m = mk (start + k) l.
Proof.
  revert start. induction lines as [| l0 lines IH]; intros start; simpl.
  - split; [intros [] | intros [k [l [H _]]]; destruct k; discriminate].
  - rewrite in_app_iff, IH. split.
    + intros [H | [k [l [Hk [Ht Hm]]]]].
      * destruct (test start l0) eqn:Ht; [| destruct H].
        destruct H as [<- | []].
        exists 0, l0. rewrite Nat.add_0_r. auto.
      * exists (S k), l. rewrite Nat.add_succ_r. auto.
    + intros [[| k] [l [Hk [Ht Hm]]]].
      * left. simpl in Hk. inversion Hk; subst l0.
        rewrite Nat.add_0_r in Ht, Hm. rewrite Ht. left. auto.
      * right. exists k, l. rewrite Nat.add_succ_r in Ht, Hm. auto.
Qed.

Lemma scan_Forall (P : PatternMatch -> Prop) (test : nat -> string -> bool)
      (mk : nat -> string -> PatternMatch) (lines : list string) (start : nat) :
  (forall i l, P (mk i l)) -> Forall P (scan test mk start lines).
Proof.
  intros HP. apply Forall_forall. intros m Hin.
  apply scan_In in Hin. destruct Hin as [k [l [_ [_ ->]]]]. apply HP.
Qed.

(** ** The SQL rule of the table is never applied *)

Lemma credential_scan_type (table : list (string * rule)) (lines : list string) :
  Forall (fun m => pattern_type m = "hardcoded_credentials")
         (credential_scan table lines).
Proof.
  unfold credential_scan. apply Forall_flat_map.
  apply Forall_forall. intros [ptype config] _.
  destruct (String.eqb_spec ptype "hardcoded_credentials") as [-> | _];
    [| constructor].
  apply Forall_flat_map. apply Forall_forall. intros [re msg] _.
  apply scan_Forall. intros i l. reflexivity.
Qed.

Ltac scans_emit :=
  repeat (apply Forall_app; split);
  try (apply scan_Forall; intros i l; simpl; tauto).

Lemma detect_patterns_types (code language : string) :
  Forall (fun m => In (pattern_type m) emitted_types) (detect_patterns code language).
Proof.
  unfold detect_patterns. apply Forall_app. split.
  - destruct (String.eqb (Py.lower language) "java");
      [unfold _detect_java_patterns; scans_emit |].
    destruct (String.eqb (Py.lower language) "python");
      [unfold _detect_python_patterns; scans_emit |].
    destruct (String.eqb (Py.lower language) "javascript"
              || String.eqb (Py.lower language) "typescript");
      [unfold _detect_javascript_patterns; scans_emit | constructor].
  - unfold _detect_universal_patterns. apply Forall_app. split.
    + eapply Forall_impl; [| apply credential_scan_type].
      intros m ->. simpl. tauto.
    + apply scan_Forall. intros i l. simpl. tauto.
Qed.

Example sql_pattern_matches_but_is_not_reported :
  existsb (fun rm => search false (fst rm) concatenated_query)
          (match _load_patterns with
           | _ :: (_, sql) :: _ => rule_patterns sql
           | _ => []
           end) = true
  /\ detect_patterns concatenated_query "python" = [].
Proof. split; vm_compute; reflexivity. Qed.

(** C10: the rule table holds an entry [sql_injection], and yet for every
    code text and language tag no match [detect_patterns] returns has
    that type; the scan over the table only ever emits matches of the
    type [hardcoded_credentials]. *)
Theorem sql_injection_never_reported (code language : string) :
  In "sql_injection" (map fst _load_patterns)
  /\ Forall (fun m => pattern_type m <> "sql_injection") (detect_patterns code language)
  /\ Forall (fun m => pattern_type m = "hardcoded_credentials")
            (credential_scan _load_patterns (Py.splitlines code)).
Proof.
  split; [simpl; tauto |]. split; [| apply credential_scan_type].
  eapply Forall_impl; [| apply detect_patterns_types].
  intros m Hin Heq. cbv beta in Hin. rewrite Heq in Hin. simpl in Hin.
  repeat (destruct Hin as [Hin | Hin]; [discriminate |]). exact Hin.
Qed.

(** ** The loose-equality rule *)

Lemma not_equals_sign (x : ascii) :
  negb (Py.contains (String x EmptyString) "=") = true <-> x <> "="%char.
Proof.
  unfold Py.contains, Py.startswith. simpl.
  destruct (Ascii.eqb_spec x "=") as [-> | Hne]; simpl.
  - split; [discriminate | intros H; now elim H].
  - split; [intros _; exact Hne | reflexivity].
Qed.

Lemma loose_equality_here (prev : option ascii) (s : string) :
  match_here false loose_equality_regex prev s = true
  <-> exists (c1 c2 : ascii) (q : string),
        s = String c1 (String "=" (String "=" (String c2 q)))
        /\ is_operator_neighbour c1 = false /\ c2 <> "="%char.
Proof.
  unfold match_here, loose_equality_regex, NoneOf. cbn [Cat].
  split.
  - destruct s as [| c1 [| x2 [| x3 [| c2 q]]]]; cbn [matches];
      try discriminate;
      change (Py.contains (String c1 EmptyString) "=!<>") with (is_operator_neighbour c1);
      destruct (is_operator_neighbour c1) eqn:Hn; cbn [negb]; try discriminate;
      unfold chr_eq;
      destruct (Ascii.eqb_spec x2 "=") as [-> | ]; try discriminate;
      destruct (Ascii.eqb_spec x3 "=") as [-> | ]; try discriminate.
    destruct (negb (Py.contains (String c2 EmptyString) "=")) eqn:Hc2;
      [| discriminate].
    intros _. exists c1, c2, q.
    split; [reflexivity |]. split; [exact Hn |].
    apply not_equals_sign. exact Hc2.
  - intros [c1 [c2 [q [-> [Hn Hc2]]]]]. cbn [matches].
    change (Py.contains (String c1 EmptyString) "=!<>") with (is_operator_neighbour c1).
    rewrite Hn. cbn [negb].
    unfold chr_eq. rewrite Ascii.eqb_refl.
    apply not_equals_sign in Hc2. rewrite Hc2. reflexivity.
Qed.

Lemma loose_equality_search_from (s : string) (prev : option ascii) :
  search_from false loose_equality_regex prev s = true <-> loose_equality_shape s.
Proof.
  revert prev. induction s as [| c s IH]; intros prev.
  - simpl. split; [discriminate |].
    intros [p [q [c1 [c2 [H _]]]]]. destruct p; discriminate.
  - cbn [search_from].
    destruct (match_here false loose_equality_regex prev (String c s)) eqn:Hhere.
    + split; [| reflexivity]. intros _.
      apply loose_equality_here in Hhere.
      destruct Hhere as [c1 [c2 [q [Hs [Hn Hc2]]]]].
      exists EmptyString, q, c1, c2. simpl. auto.
    + rewrite IH. split.
      * intros [p [q [c1 [c2 [Hs [Hn Hc2]]]]]].
        exists (String c p), q, c1, c2. simpl. rewrite Hs. auto.
      * intros [p [q [c1 [c2 [Hs [Hn Hc2]]]]]].
        destruct p as [| c0 p]; simpl in Hs.
        -- assert (Hm : match_here false loose_equality_regex prev (String c s) = true).
           { apply loose_equality_here. exists c1, c2, q. auto. }
           congruence.
        -- inversion Hs; subst. exists p, q, c1, c2. auto.
Qed.

Lemma loose_equality_search (line : string) :
  search false loose_equality_regex line = true <-> loose_equality_shape line.
Proof. apply loose_equality_search_from. Qed.

(** C3, as stated, fails in both directions: the operator followed by
    [!] is reported although the specification excludes it, and the
    operator at the end of a line is not reported although nothing
    follows it. *)
Lemma loose_equality_differs_from_spec :
  (spec_loose_equality negated_operand = false
   /\ _detect_javascript_patterns negated_operand
      = [loose_equality_match 1 negated_operand])
  /\ (spec_loose_equality operator_at_end = true
      /\ _detect_javascript_patterns operator_at_end = []).
Proof. repeat split; vm_compute; reflexivity. Qed.

(** C3, amended: for JavaScript or TypeScript code, the detector emits
    the loose-equality match of a line (severity minor, confidence 0.8)
    exactly when the line holds, somewhere, a character other than [=],
    [!], [<], [>], then two equals signs, then a character other than
    [=]: a character is needed on both sides, and on the right only [=]
    is excluded. *)
Theorem loose_equality_detection (code language : string) (i : nat) (line : string) :
  Py.lower language = "javascript" \/ Py.lower language = "typescript" ->
  nth_error (Py.splitlines code) i = Some line ->
  (In (loose_equality_match (S i) line) (detect_patterns code language)
   <-> loose_equality_shape line)
  /\ severity (loose_equality_match (S i) line) = "minor"
  /\ confidence (loose_equality_match (S i) line) = 0.8%float.
Proof.
  intros Hlang Hline. split; [| split; reflexivity].
  rewrite <- loose_equality_search.
  assert (Hjs : detect_patterns code language
                = _detect_javascript_patterns code ++ _detect_universal_patterns code).
  { unfold detect_patterns. destruct Hlang as [-> | ->]; reflexivity. }
  rewrite Hjs. clear Hjs Hlang.
  unfold _detect_javascript_patterns, _detect_universal_patterns.
  rewrite !in_app_iff, !scan_In.
  split.
  - intros [[H | [H | H]] | [H | H]].
    + destruct H as [k [l [_ [_ H]]]]. discriminate H.
    + destruct H as [k [l [Hk [Ht H]]]].
      assert (Hnum : Z.of_nat (S i) = Z.of_nat (1 + k))
        by exact (f_equal line_number H).
      apply Nat2Z.inj in Hnum. simpl in Hnum. inversion Hnum; subst k.
      rewrite Hline in Hk. inversion Hk; subst l. exact Ht.
    + destruct H as [k [l [_ [_ H]]]]. discriminate H.
    + pose proof (credential_scan_type _load_patterns (Py.splitlines code)) as Hall.
      rewrite Forall_forall in Hall. apply Hall in H. discriminate H.
    + destruct H as [k [l [_ [_ H]]]]. discriminate H.
  - intros Ht. left. right. left.
    exists i, line. auto.
Qed.

Lemma loose_equality_detection_witness :
  (In (loose_equality_match 2 "  if (x == 1) {")
      (detect_patterns (Py.join_lines ["function f(x) {"; "  if (x == 1) {"; "}"])
                       "TypeScript")
   <-> loose_equality_shape "  if (x == 1) {")
  /\ severity (loose_equality_match 2 "  if (x == 1) {") = "minor"
  /\ confidence (loose_equality_match 2 "  if (x == 1) {") = 0.8%float.
Proof.
  apply (loose_equality_detection
           (Py.join_lines ["function f(x) {"; "  if (x == 1) {"; "}"])
           "TypeScript" 1 "  if (x == 1) {").
  - right. reflexivity.
  - reflexivity.
Defined.

End PatternDetectorProperties.

(* ================================================================== *)
(** * Properties of the embedding service *)
(* ================================================================== *)

Section EmbeddingServiceProperties.

Import Effects EmbeddingService.

Variable W : Type.
Variable self : service W.

(** ** Blank text *)

Lemma all_space_lstrip (s : string) :
  Py.all_space s = true -> Py.lstrip s = EmptyString.
Proof.
  induction s as [| c s IH]; simpl; [reflexivity |].
  intros H. apply andb_true_iff in H. destruct H as [Hc Hs].
  rewrite Hc. apply IH. exact Hs.
Qed.

Lemma all_space_blank (text : string) :
  Py.all_space text = true -> blank text = true.
Proof.
  intros H. unfold blank, Py.strip.
  rewrite (all_space_lstrip text H). simpl.
  apply orb_true_r.
Qed.

(** C8: for every text that is empty or holds white space only, and any
    task type, [generate_embedding] returns [None] and leaves the world
    and the call trace as they were: no provider call, no cache read, no
    cache write. *)
Theorem blank_text_touches_nothing
  (text task_type : string) (s : state W call_event) :
  Py.all_space text = true ->
  generate_embedding self text task_type s = (Returns None, s).
Proof.
  intros H. unfold generate_embedding.
  rewrite (all_space_blank text H). reflexivity.
Qed.

End EmbeddingServiceProperties.

Lemma blank_text_touches_nothing_witness :
  EmbeddingService.generate_embedding
    (EmbeddingService.mkService unit
       (Some (EmbeddingService.failing_provider unit))
       (Some (EmbeddingService.failing_cache unit))
       EmbeddingService.plain_key (fun _ => []))
    (String (ascii_of_nat 9) "  ") "retrieval_document" (tt, [])
  = (Effects.Returns None, (tt, [])).
Proof.
  apply blank_text_touches_nothing. reflexivity.
Defined.

(** ** Embedding the same text twice *)

Section EmbeddingTwice.

Import Effects EmbeddingService.

Variable W : Type.
Variable self : service W.
Variable c : CacheService W.
Variable g : GeminiService W.

Hypothesis cache_present : cache_service self = Some c.
Hypothesis provider_present : gemini_service self = Some g.

(** C5, amended: with a cache that gives back what was just stored, for
    every non-blank text and task type, when the first look-up finds no
    vector and the provider answers with a non-empty vector, two calls of
    [generate_embedding] with the same text and task type make exactly
    one provider call in total and both return that vector. *)
Theorem second_embedding_comes_from_cache
  (text task_type : string) (w0 w1 w2 : W) (tr : list call_event)
  (cached v : option vec) :
  cache_keeps c ->
  blank text = false ->
  get_embedding c (_generate_cache_key self text task_type) w0 = (Returns cached, w1) ->
  truthy cached = false ->
  provider_generate_embedding g text embedding_model task_type w1 = (Returns v, w2) ->
  truthy v = true ->
  exists s1 s2,
    generate_embedding self text task_type (w0, tr) = (Returns v, s1)
    /\ generate_embedding self text task_type s1 = (Returns v, s2)
    /\ provider_calls (snd s2) = S (provider_calls tr).
Proof.
  intros Hkeeps Hblank Hget Hmiss Hprov Hv.
  destruct (Hkeeps (_generate_cache_key self text task_type) v 86400%Z w2)
    as [w3 [Hset [w4 Hget2]]].
  exists (w3, tr ++ [CacheGet (_generate_cache_key self text task_type)]
                 ++ [ProviderEmbed text embedding_model task_type]
                 ++ [CacheSet (_generate_cache_key self text task_type) v 86400%Z]).
  exists (w4, (tr ++ [CacheGet (_generate_cache_key self text task_type)]
                  ++ [ProviderEmbed text embedding_model task_type]
                  ++ [CacheSet (_generate_cache_key self text task_type) v 86400%Z])
              ++ [CacheGet (_generate_cache_key self text task_type)]).
  split; [| split].
  - unfold generate_embedding, read_cache, embed_and_cache, try_except, bind, call, ret.
    rewrite Hblank, cache_present, provider_present. simpl.
    rewrite Hget, Hmiss. simpl. rewrite Hprov, Hv. simpl. rewrite Hset.
    rewrite <- !app_assoc. reflexivity.
  - unfold generate_embedding, read_cache, bind, call, ret.
    rewrite Hblank, cache_present. simpl.
    rewrite Hget2, Hv. reflexivity.
  - simpl. unfold provider_calls.
    rewrite !filter_app, !length_app. simpl. lia.
Qed.

End EmbeddingTwice.

Lemma second_embedding_comes_from_cache_witness :
  exists s1 s2,
    EmbeddingService.generate_embedding (EmbeddingService.stored_service (Some [1%float; 2%float]))
      "def f(): pass" "retrieval_document" ([], [])
    = (Effects.Returns (Some [1%float; 2%float]), s1)
    /\ EmbeddingService.generate_embedding (EmbeddingService.stored_service (Some [1%float; 2%float]))
         "def f(): pass" "retrieval_document" s1
       = (Effects.Returns (Some [1%float; 2%float]), s2)
    /\ EmbeddingService.provider_calls (snd s2) = 1.
Proof.
  apply (second_embedding_comes_from_cache EmbeddingService.store
           (EmbeddingService.stored_service (Some [1%float; 2%float]))
           EmbeddingService.store_cache
           (EmbeddingService.constant_provider EmbeddingService.store
              (Some [1%float; 2%float]))
           eq_refl eq_refl
           "def f(): pass" "retrieval_document" [] [] [] [] None
           (Some [1%float; 2%float])).
  - intros key v ttl w. exists ((key, v) :: w). split; [reflexivity |].
    exists ((key, v) :: w). simpl. rewrite String.eqb_refl. reflexivity.
  - reflexivity.
  - reflexivity.
  - reflexivity.
  - reflexivity.
  - reflexivity.
Defined.

(** C5, as stated, fails: with the cache and the provider present and
    the provider answering, two calls make no provider call at all when
    the cache already holds a vector for the key, and two provider calls
    when the provider answers with an empty vector, which is never
    stored. *)
Lemma provider_calls_not_always_one :
  EmbeddingService.embed_twice (Some [1%float; 2%float]) "def f(): pass" "retrieval_document"
    [("retrieval_document:def f(): pass", Some [3%float])]
  = (Effects.Returns (Some [3%float]), Effects.Returns (Some [3%float]),
     [EmbeddingService.CacheGet "retrieval_document:def f(): pass";
      EmbeddingService.CacheGet "retrieval_document:def f(): pass"])
  /\ EmbeddingService.provider_calls
       (snd (EmbeddingService.embed_twice (Some [1%float; 2%float]) "def f(): pass" "retrieval_document"
               [("retrieval_document:def f(): pass", Some [3%float])])) = 0
  /\ EmbeddingService.provider_calls
       (snd (EmbeddingService.embed_twice (Some []) "def f(): pass" "retrieval_document" [])) = 2.
Proof. repeat split; vm_compute; reflexivity. Qed.

(* ================================================================== *)
(** * Properties of the similarity retrieval *)
(* ================================================================== *)

Section RAGServiceProperties.

Import Effects RAGService.

Variable W : Type.
Variable collection : Collection W.

(** C9: for every snippet, repository id, language and limit, when the
    index reports a count of zero, [find_similar_patterns] returns the
    empty list after that one call of [count]: the trace gains no query. *)
Theorem empty_index_is_not_queried
  (code_snippet repository_id language : string) (limit : Z)
  (s : state W call_event) (w' : W) :
  count collection (fst s) = (Returns 0%Z, w') ->
  find_similar_patterns collection code_snippet repository_id language limit s
  = (Returns [], (w', snd s ++ [IndexCount]))
  /\ query_calls (snd s ++ [IndexCount]) = query_calls (snd s).
Proof.
  intros Hcount. split.
  - unfold find_similar_patterns, find_similar_body, try_except, bind, call, ret.
    rewrite Hcount. reflexivity.
  - unfold query_calls. rewrite filter_app, length_app. simpl. lia.
Qed.

End RAGServiceProperties.

Lemma empty_index_is_not_queried_witness :
  RAGService.find_similar_patterns (RAGService.empty_index unit)
    "x == y" "repo-1" "javascript" 5 (tt, [])
  = (Effects.Returns [], (tt, [RAGService.IndexCount]))
  /\ RAGService.query_calls ([] ++ [RAGService.IndexCount]) = RAGService.query_calls [].
Proof.
  apply (empty_index_is_not_queried unit (RAGService.empty_index unit)
           "x == y" "repo-1" "javascript" 5 (tt, []) tt).
  reflexivity.
Defined.

(* ================================================================== *)
(** * Failures of collaborators on the read path *)
(* ================================================================== *)

Section ReadPathFailures.

Import Effects.

Variable W : Type.
Variable self : EmbeddingService.service W.
Variable collection : RAGService.Collection W.



End ReadPathFailures.



(* ================================================================== *)
(** * Cosine similarity *)
(* ================================================================== *)

Section CosineSimilarity.

Import Effects EmbeddingService.

Local Open Scope float_scope.




Example self_similarity_of_3_4 :
  cosine_similarity [3; 4] [3; 4] = Returns 1.
Proof. reflexivity. Qed.

End CosineSimilarity.

(* ================================================================== *)
(** * Further properties of the diff parser *)
(* ================================================================== *)

Section ParseDiffInvariants.

Import DiffAnalyzer.

Local Open Scope Z_scope.

Local Arguments Ascii.eqb : simpl never.



Lemma file_line_is_not_header (l f : string) :
  new_file_match l = Some f -> is_header l = false.
Proof.
  intros Hf. unfold is_header.
  destruct (chunk_header_match l) as [g |] eqn:Hh; [| reflexivity].
  rewrite (header_is_not_file_line l g Hh) in Hf. discriminate.
Qed.

Lemma parse_line_effect (st : parse_state) (l : string) :
  line_effect st l (parse_line st l).
Proof.
  unfold parse_line.
  destruct (new_file_match l) as [f |] eqn:Hf.
  { apply effect_file; [exact Hf | exact (file_line_is_not_header l f Hf)]. }
  destruct (chunk_header_match l) as [[[[g1 g2] g3] g4] |] eqn:Hh.
  { apply effect_header; assumption. }
  assert (Hnh : is_header l = false) by (unfold is_header; rewrite Hh; reflexivity).
  destruct (current_chunk st) as [c |] eqn:Hc.
  - destruct (Py.startswith l "+" && negb (Py.startswith l "+++")).
    + apply effect_added; assumption.
    + destruct (Py.startswith l "-" && negb (Py.startswith l "---")).
      * apply effect_removed; assumption.
      * destruct (Py.startswith l " ").
        -- apply effect_context; assumption.
        -- apply effect_none. exact Hnh.
  - apply effect_none. exact Hnh.
Qed.

(** An invariant of the loop holds of the state after any lines. *)
Lemma parse_lines_invariant (P : parse_state -> Prop) (lines : list string) :
  (forall st l st', In l lines -> P st -> line_effect st l st' -> P st') ->
  forall st, P st -> P (parse_lines st lines).
Proof.
  induction lines as [| l lines IH]; intros Hstep st HP; [exact HP |].
  simpl. apply IH.
  - intros st0 l0 st' Hin. apply Hstep. right. exact Hin.
  - apply (Hstep st l); [left; reflexivity | exact HP | apply parse_line_effect].
Qed.

(** ** One chunk for each hunk header *)




(** ** Line numbers inside a chunk *)

Lemma strongly_sorted_snoc (l : list Z) (n : Z) :
  StronglySorted Z.lt l -> Forall (fun x => x < n) l ->
  StronglySorted Z.lt (l ++ [n]).
Proof.
  induction l as [| a l IH]; intros Hs Hb; simpl.
  - constructor; constructor.
  - apply StronglySorted_inv in Hs. destruct Hs as [Hs Ha].
    inversion Hb as [| ? ? Han Hbl]; subst.
    constructor.
    + apply IH; assumption.
    + apply Forall_app. split; [exact Ha |]. constructor; [exact Han | constructor].
Qed.

Lemma increasing_from_snoc (lo n : Z) (t : string) (l : list (Z * string)) :
  increasing_from lo l -> Forall (fun e => fst e < n) l -> lo <= n ->
  increasing_from lo (l ++ [(n, t)]).
Proof.
  intros [Hs Hlo] Hb Hn. split.
  - rewrite map_app. simpl. apply strongly_sorted_snoc; [exact Hs |].
    rewrite Forall_map. exact Hb.
  - apply Forall_app. split; [exact Hlo |]. constructor; [exact Hn | constructor].
Qed.

Lemma below_snoc (n : Z) (t : string) (l : list (Z * string)) :
  Forall (fun e => fst e < n) l ->
  Forall (fun e => fst e < n + 1) (l ++ [(n, t)]).
Proof.
  intros H. apply Forall_app. split.
  - eapply Forall_impl; [| exact H]. intros e He. simpl in *. lia.
  - constructor; [simpl; lia | constructor].
Qed.

Lemma below_weaken (n : Z) (l : list (Z * string)) :
  Forall (fun e => fst e < n) l -> Forall (fun e => fst e < n + 1) l.
Proof.
  intros H. eapply Forall_impl; [| exact H]. intros e He. simpl in *. lia.
Qed.


Lemma ordered_add_added (c : DiffChunk) (n : Z) (t : string) :
  chunk_lines_ordered c ->
  Forall (fun e => fst e < n) (added_lines c) ->
  Forall (fun e => fst e < n) (context_lines c) ->
  new_start c <= n ->
  chunk_lines_ordered (add_added c (n, t)).
Proof.
  intros [Ha [Hr [Hx Hd]]] Hba Hbx Hn.
  unfold chunk_lines_ordered, add_added.
  cbn [added_lines removed_lines context_lines new_start old_start].
  split; [apply increasing_from_snoc; assumption |].
  split; [exact Hr |]. split; [exact Hx |].
  intros a x Hin Hx'. apply in_app_iff in Hin. destruct Hin as [Hin | [<- | []]].
  - apply Hd; assumption.
  - rewrite Forall_forall in Hbx. specialize (Hbx x Hx'). simpl. lia.
Qed.

Lemma ordered_add_removed (c : DiffChunk) (n : Z) (t : string) :
  chunk_lines_ordered c ->
  Forall (fun e => fst e < n) (removed_lines c) ->
  old_start c <= n ->
  chunk_lines_ordered (add_removed c (n, t)).
Proof.
  intros [Ha [Hr [Hx Hd]]] Hbr Hn.
  unfold chunk_lines_ordered, add_removed.
  cbn [added_lines removed_lines context_lines new_start old_start].
  split; [exact Ha |].
  split; [apply increasing_from_snoc; assumption |].
  split; [exact Hx | exact Hd].
Qed.

Lemma ordered_add_context (c : DiffChunk) (n : Z) (t : string) :
  chunk_lines_ordered c ->
  Forall (fun e => fst e < n) (added_lines c) ->
  Forall (fun e => fst e < n) (context_lines c) ->
  new_start c <= n ->
  chunk_lines_ordered (add_context c (n, t)).
Proof.
  intros [Ha [Hr [Hx Hd]]] Hba Hbx Hn.
  unfold chunk_lines_ordered, add_context.
  cbn [added_lines removed_lines context_lines new_start old_start].
  split; [exact Ha |]. split; [exact Hr |].
  split; [apply increasing_from_snoc; assumption |].
  intros a x Ha' Hin. apply in_app_iff in Hin. destruct Hin as [Hin | [<- | []]].
  - apply Hd; assumption.
  - rewrite Forall_forall in Hba. specialize (Hba a Ha'). simpl. lia.
Qed.

Lemma lines_ordered_step (st st' : parse_state) (l : string) :
  lines_ordered st -> line_effect st l st' -> lines_ordered st'.
Proof.
  unfold lines_ordered, open_chunk_ordered.
  intros [Hclosed Hopen]
         [f Hf Hh | g1 g2 g3 g4 Hf Hh | c Hh Hc | c Hh Hc | c Hh Hc | Hh];
    cbn [chunks current_chunk new_line old_line].
  - split; assumption.
  - split.
    + destruct (current_chunk st) as [c |]; cbn [close_chunk]; [| exact Hclosed].
      apply Forall_app. split; [exact Hclosed |].
      constructor; [exact (proj1 Hopen) | constructor].
    + unfold chunk_lines_ordered, increasing_from, new_chunk. simpl.
      repeat split; try constructor; try lia.
  - rewrite Hc in Hopen.
    destruct Hopen as [Hord [Hba [Hbx [Hbr [Hn Ho]]]]].
    split; [exact Hclosed |].
    split; [apply ordered_add_added; assumption |].
    cbn [add_added added_lines removed_lines context_lines new_start old_start].
    split; [apply below_snoc; exact Hba |].
    split; [apply below_weaken; exact Hbx |].
    split; [exact Hbr |]. split; [lia | exact Ho].
  - rewrite Hc in Hopen.
    destruct Hopen as [Hord [Hba [Hbx [Hbr [Hn Ho]]]]].
    split; [exact Hclosed |].
    split; [apply ordered_add_removed; assumption |].
    cbn [add_removed added_lines removed_lines context_lines new_start old_start].
    split; [exact Hba |]. split; [exact Hbx |].
    split; [apply below_snoc; exact Hbr |]. split; [exact Hn | lia].
  - rewrite Hc in Hopen.
    destruct Hopen as [Hord [Hba [Hbx [Hbr [Hn Ho]]]]].
    split; [exact Hclosed |].
    split; [apply ordered_add_context; assumption |].
    cbn [add_context added_lines removed_lines context_lines new_start old_start].
    split; [apply below_weaken; exact Hba |].
    split; [apply below_snoc; exact Hbx |].
    split; [apply below_weaken; exact Hbr |]. split; lia.
  - split; assumption.
Qed.

(** X2: in every chunk [parse_diff] returns, the line numbers of the
    added lines increase strictly and start at the new start of the hunk
    or after, and so do those of the context lines; those of the removed
    lines increase strictly from the old start; and no line number is
    given to both an added and a context line. *)
Theorem parse_diff_lines_ordered (diff_text : string) :
  Forall chunk_lines_ordered (parse_diff diff_text).
Proof.
  unfold parse_diff.
  assert (H : lines_ordered (parse_lines initial_state (Py.splitlines diff_text))).
  { apply parse_lines_invariant.
    - intros st l st' _ HP He. exact (lines_ordered_step st st' l HP He).
    - split; [constructor | exact I]. }
  destruct H as [Hclosed Hopen]. unfold open_chunk_ordered in Hopen.
  destruct (current_chunk (parse_lines initial_state (Py.splitlines diff_text)));
    cbn [close_chunk]; [| exact Hclosed].
  apply Forall_app. split; [exact Hclosed |].
  constructor; [exact (proj1 Hopen) | constructor].
Qed.

(** ** The changed files *)

Lemma ascii_compare_lt_trans (a b c : ascii) :
  Ascii.compare a b = Lt -> Ascii.compare b c = Lt -> Ascii.compare a c = Lt.
Proof.
  unfold Ascii.compare. rewrite !N.compare_lt_iff. apply N.lt_trans.
Qed.

Lemma str_lt_trans (a b c : string) : str_lt a b -> str_lt b c -> str_lt a c.
Proof.
  unfold str_lt. revert b c.
  induction a as [| x a IH]; intros [| y b] [| z c]; simpl; try discriminate; auto.
  destruct (Ascii.compare x y) eqn:Hxy; try discriminate.
  - apply Ascii.compare_eq_iff in Hxy. subst y.
    destruct (Ascii.compare x z); auto. apply IH.
  - destruct (Ascii.compare y z) eqn:Hyz; try discriminate.
    + apply Ascii.compare_eq_iff in Hyz. subst z. rewrite Hxy. auto.
    + rewrite (ascii_compare_lt_trans x y z Hxy Hyz). auto.
Qed.

Lemma str_lt_irrefl (a : string) : ~ str_lt a a.
Proof.
  unfold str_lt. intros H.
  pose proof (String.compare_antisym a a) as Ha. rewrite H in Ha. discriminate.
Qed.

Lemma insert_unique_In (a x : string) (l : list string) :
  In x (insert_unique a l) <-> x = a \/ In x l.
Proof.
  induction l as [| b l IH]; simpl.
  - intuition.
  - destruct (String.compare a b) eqn:Hc; simpl.
    + apply String.compare_eq_iff in Hc. subst b. intuition.
    + intuition.
    + rewrite IH. intuition.
Qed.

Lemma insert_unique_sorted (a : string) (l : list string) :
  Sorted str_lt l -> Sorted str_lt (insert_unique a l).
Proof.
  induction l as [| b l IH]; intros Hs; simpl.
  - constructor; constructor.
  - destruct (String.compare a b) eqn:Hc.
    + exact Hs.
    + constructor; [exact Hs | constructor; exact Hc].
    + inversion Hs as [| ? ? Hl Hb]; subst.
      constructor; [apply IH; exact Hl |].
      assert (Hba : str_lt b a).
      { unfold str_lt. rewrite String.compare_antisym, Hc. reflexivity. }
      destruct l as [| c l]; simpl.
      * constructor. exact Hba.
      * inversion Hb; subst.
        destruct (String.compare a c); constructor; assumption.
Qed.

Lemma sorted_set_sorted (xs : list string) : Sorted str_lt (sorted_set xs).
Proof.
  induction xs as [| x xs IH]; simpl; [constructor |].
  apply insert_unique_sorted. exact IH.
Qed.

Lemma sorted_set_In (xs : list string) (x : string) :
  In x (sorted_set xs) <-> In x xs.
Proof.
  induction xs as [| a xs IH]; simpl; [tauto |].
  rewrite insert_unique_In, IH. intuition.
Qed.

Lemma strongly_sorted_NoDup (l : list string) :
  StronglySorted str_lt l -> NoDup l.
Proof.
  induction 1 as [| a l Hs IH Ha]; constructor; [| exact IH].
  intros Hin. rewrite Forall_forall in Ha.
  exact (str_lt_irrefl a (Ha a Hin)).
Qed.

Lemma sorted_set_strongly_sorted (xs : list string) :
  StronglySorted str_lt (sorted_set xs).
Proof.
  apply Sorted_StronglySorted.
  - intros a b c. apply str_lt_trans.
  - apply sorted_set_sorted.
Qed.

Lemma header_paths_In (lines : list string) (f : string) :
  In f (header_paths lines) <-> exists l, In l lines /\ new_file_match l = Some f.
Proof.
  induction lines as [| l lines IH]; simpl.
  - split; [intros [] | intros [l [[] _]]].
  - destruct (new_file_match l) as [g |] eqn:Hm; simpl; rewrite ?IH; split.
    + intros [<- | [l' [Hin Hl']]]; [exists l; auto | exists l'; auto].
    + intros [l' [[<- | Hin] Hl']].
      * left. congruence.
      * right. exists l'. auto.
    + intros [l' [Hin Hl']]. exists l'. auto.
    + intros [l' [[<- | Hin] Hl']]; [congruence | exists l'; auto].
Qed.

(** X3: [get_changed_files] returns a strictly increasing list, so one
    without duplicates, that holds exactly the paths of the lines
    matching the file header pattern. *)
Theorem changed_files_sorted_and_complete (diff_text : string) :
  StronglySorted str_lt (get_changed_files diff_text)
  /\ NoDup (get_changed_files diff_text)
  /\ forall f,
       In f (get_changed_files diff_text)
       <-> exists l, In l (Py.splitlines diff_text) /\ new_file_match l = Some f.
Proof.
  unfold get_changed_files.
  split; [apply sorted_set_strongly_sorted |].
  split; [apply strongly_sorted_NoDup; apply sorted_set_strongly_sorted |].
  intros f. rewrite sorted_set_In. apply header_paths_In.
Qed.


Lemma paths_known_step (known : string -> Prop) (st st' : parse_state) (l : string) :
  (forall f, new_file_match l = Some f -> known f) ->
  paths_known known st -> line_effect st l st' -> paths_known known st'.
Proof.
  unfold paths_known, all_chunks.
  intros Hl [Hfile Hall]
         [f Hf Hh | g1 g2 g3 g4 Hf Hh | c Hh Hc | c Hh Hc | c Hh Hc | Hh];
    cbn [chunks current_chunk current_file close_chunk].
  - split; [| exact Hall]. intros f' Heq. inversion Heq; subst. apply Hl. exact Hf.
  - split; [exact Hfile |].
    apply Forall_app. split; [exact Hall |].
    constructor; [| constructor]. cbn [new_chunk file_path].
    destruct (current_file st) as [f |]; simpl; [right; apply Hfile; reflexivity | left; reflexivity].
  - split; [exact Hfile |]. rewrite Hc in Hall. cbn [close_chunk] in Hall.
    apply Forall_app in Hall. destruct Hall as [Hcs Hlast].
    apply Forall_app. split; [exact Hcs |].
    inversion Hlast; subst. constructor; [assumption | constructor].
  - split; [exact Hfile |]. rewrite Hc in Hall. cbn [close_chunk] in Hall.
    apply Forall_app in Hall. destruct Hall as [Hcs Hlast].
    apply Forall_app. split; [exact Hcs |].
    inversion Hlast; subst. constructor; [assumption | constructor].
  - split; [exact Hfile |]. rewrite Hc in Hall. cbn [close_chunk] in Hall.
    apply Forall_app in Hall. destruct Hall as [Hcs Hlast].
    apply Forall_app. split; [exact Hcs |].
    inversion Hlast; subst. constructor; [assumption | constructor].
  - split; assumption.
Qed.

(** X4: the file path of every chunk [parse_diff] returns is the empty
    string (no file header came before the hunk) or one of the paths
    [get_changed_files] returns for the same text. *)
Theorem chunk_paths_are_changed_files (diff_text : string) :
  Forall (fun c => file_path c = EmptyString
                   \/ In (file_path c) (get_changed_files diff_text))
         (parse_diff diff_text).
Proof.
  unfold parse_diff.
  assert (H : paths_known (fun f => In f (get_changed_files diff_text))
                (parse_lines initial_state (Py.splitlines diff_text))).
  { apply parse_lines_invariant.
    - intros st l st' Hin HP He.
      apply (paths_known_step _ st st' l); [| exact HP | exact He].
      intros f Hf. unfold get_changed_files.
      apply sorted_set_In. apply header_paths_In.
      exists l. auto.
    - split; [discriminate | constructor]. }
  exact (proj2 H).
Qed.

(** ** The statistics *)

Local Close Scope Z_scope.

Lemma insert_unique_length (a : string) (l : list string) :
  length (insert_unique a l) <= S (length l).
Proof.
  induction l as [| b l IH]; simpl; [lia |].
  destruct (String.compare a b); simpl; lia.
Qed.

Lemma sorted_set_length (xs : list string) : length (sorted_set xs) <= length xs.
Proof.
  induction xs as [| x xs IH]; simpl; [lia |].
  pose proof (insert_unique_length x (sorted_set xs)). lia.
Qed.

Lemma total_length_from {A : Type} (f : DiffChunk -> list A) (cs : list DiffChunk) (a : nat) :
  fold_left (fun acc c => acc + length (f c)) cs a
  = a + list_sum (map (fun c => length (f c)) cs).
Proof.
  revert a. induction cs as [| c cs IH]; intros a; simpl; [lia |].
  rewrite IH. lia.
Qed.


Lemma weight_snoc (cs : list DiffChunk) (c : DiffChunk) :
  list_sum (map chunk_weight (cs ++ [c])) = list_sum (map chunk_weight cs) + chunk_weight c.
Proof.
  rewrite map_app, list_sum_app.
  change (list_sum (map chunk_weight [c])) with (chunk_weight c + 0). lia.
Qed.

Lemma weight_step (st st' : parse_state) (l : string) :
  line_effect st l st' ->
  list_sum (map chunk_weight (all_chunks st'))
  <= S (list_sum (map chunk_weight (all_chunks st))).
Proof.
  unfold all_chunks.
  intros [f Hf Hh | g1 g2 g3 g4 Hf Hh | c Hh Hc | c Hh Hc | c Hh Hc | Hh];
    cbn [chunks current_chunk close_chunk]; try rewrite Hc; cbn [close_chunk];
    rewrite ?weight_snoc; unfold chunk_weight; simpl; rewrite ?length_app; simpl; lia.
Qed.

Lemma parse_lines_weight (lines : list string) (st : parse_state) :
  list_sum (map chunk_weight (all_chunks (parse_lines st lines)))
  <= list_sum (map chunk_weight (all_chunks st)) + length lines.
Proof.
  revert st. induction lines as [| l lines IH]; intros st; simpl; [lia |].
  change (fold_left parse_line lines (parse_line st l))
    with (parse_lines (parse_line st l) lines).
  pose proof (IH (parse_line st l)).
  pose proof (weight_step st _ l (parse_line_effect st l)). lia.
Qed.

Lemma weight_bounds_totals (cs : list DiffChunk) :
  total_length added_lines cs + total_length removed_lines cs + length cs
  <= list_sum (map chunk_weight cs).
Proof.
  unfold total_length. rewrite !total_length_from. simpl.
  induction cs as [| c cs IH]; simpl in *; [lia |].
  unfold chunk_weight in *. lia.
Qed.

(** X5: in the statistics of a diff, the number of files is at most the
    number of chunks and at most one more than the number of changed
    files (the empty path of a hunk without file header counts as a
    file), and additions, deletions and chunks together are at most the
    number of lines of the text. *)
Theorem diff_stats_bounds (diff_text : string) :
  files_changed (get_diff_stats diff_text) <= chunks_count (get_diff_stats diff_text)
  /\ files_changed (get_diff_stats diff_text) <= S (length (get_changed_files diff_text))
  /\ additions (get_diff_stats diff_text) + deletions (get_diff_stats diff_text)
     + chunks_count (get_diff_stats diff_text)
     <= length (Py.splitlines diff_text).
Proof.
  unfold get_diff_stats. cbn [files_changed additions deletions chunks_count].
  split; [| split].
  - pose proof (sorted_set_length (map file_path (parse_diff diff_text))) as H.
    rewrite length_map in H. exact H.
  - change (S (length (get_changed_files diff_text)))
      with (length (EmptyString :: get_changed_files diff_text)).
    apply NoDup_incl_length.
    + apply strongly_sorted_NoDup. apply sorted_set_strongly_sorted.
    + intros f Hin. rewrite sorted_set_In in Hin. apply in_map_iff in Hin.
      destruct Hin as [c [<- Hc]].
      assert (Hknown : paths_known (fun f => In f (get_changed_files diff_text))
                         (parse_lines initial_state (Py.splitlines diff_text))).
      { apply parse_lines_invariant.
        - intros st l st' Hin HP He.
          apply (paths_known_step _ st st' l); [| exact HP | exact He].
          intros f Hf. unfold get_changed_files.
          apply sorted_set_In. apply header_paths_In. exists l. auto.
        - split; [discriminate | constructor]. }
      destruct Hknown as [_ Hall]. rewrite Forall_forall in Hall.
      destruct (Hall c Hc) as [-> | Hk]; [left; reflexivity | right; exact Hk].
  - pose proof (weight_bounds_totals (parse_diff diff_text)) as H1.
    pose proof (parse_lines_weight (Py.splitlines diff_text) initial_state) as H2.
    unfold parse_diff in *. unfold all_chunks in H2. simpl in H2. lia.
Qed.

End ParseDiffInvariants.

(** ** The changed line ranges *)

Section ChangedLineRanges.

Import DiffAnalyzer.

Local Open Scope Z_scope.


Lemma fold_min_le (xs : list (Z * string)) (init : Z) :
  fold_left (fun m e => Z.min m (fst e)) xs init <= init
  /\ forall e, In e xs -> fold_left (fun m e => Z.min m (fst e)) xs init <= fst e.
Proof.
  revert init. induction xs as [| x xs IH]; intros init; simpl.
  - split; [lia | intros e []].
  - destruct (IH (Z.min init (fst x))) as [H1 H2]. split; [lia |].
    intros e [<- | Hin]; [lia | apply H2; exact Hin].
Qed.

Lemma fold_max_ge (xs : list (Z * string)) (init : Z) :
  init <= fold_left (fun m e => Z.max m (fst e)) xs init
  /\ forall e, In e xs -> fst e <= fold_left (fun m e => Z.max m (fst e)) xs init.
Proof.
  revert init. induction xs as [| x xs IH]; intros init; simpl.
  - split; [lia | intros e []].
  - destruct (IH (Z.max init (fst x))) as [H1 H2]. split; [lia |].
    intros e [<- | Hin]; [lia | apply H2; exact Hin].
Qed.

Lemma min_max_line (x : Z * string) (xs : list (Z * string)) (e : Z * string) :
  In e (x :: xs) -> min_line x xs <= fst e <= max_line x xs.
Proof.
  unfold min_line, max_line.
  destruct (fold_min_le xs (fst x)) as [Hm1 Hm2].
  destruct (fold_max_ge xs (fst x)) as [HM1 HM2].
  intros [<- | Hin]; [lia |].
  specialize (Hm2 e Hin). specialize (HM2 e Hin). lia.
Qed.

Lemma chunk_ranges_cover (file : string) (cs : list DiffChunk) (c : DiffChunk)
      (e : Z * string) :
  In c cs -> file_path c = file -> In e (added_lines c) ->
  covers (chunk_ranges file cs) (fst e).
Proof.
  induction cs as [| c0 cs IH]; intros Hin Hf He; [destruct Hin |].
  assert (Hmono : forall n, covers (chunk_ranges file cs) n ->
                            covers (chunk_ranges file (c0 :: cs)) n).
  { intros n [r [Hr Hn]]. exists r. split; [| exact Hn].
    simpl. destruct (String.eqb (file_path c0) file); [| exact Hr].
    destruct (added_lines c0); [exact Hr | right; exact Hr]. }
  destruct Hin as [-> | Hin]; [| apply Hmono, IH; assumption].
  simpl. rewrite Hf, String.eqb_refl.
  destruct (added_lines c) as [| x xs] eqn:Hadd; [destruct He |].
  exists (min_line x xs, max_line x xs). split; [left; reflexivity |].
  apply min_max_line. exact He.
Qed.

Lemma chunk_ranges_well_formed (file : string) (cs : list DiffChunk) :
  Forall well_formed_range (chunk_ranges file cs).
Proof.
  induction cs as [| c cs IH]; simpl; [constructor |].
  destruct (String.eqb (file_path c) file); [| exact IH].
  destruct (added_lines c) as [| x xs]; [exact IH |].
  constructor; [| exact IH].
  unfold well_formed_range. simpl.
  pose proof (min_max_line x xs x (or_introl eq_refl)). lia.
Qed.


Lemma insert_sorted_In (a r : Z * Z) (l : list (Z * Z)) :
  In r (insert_sorted a l) <-> r = a \/ In r l.
Proof.
  induction l as [| b l IH]; simpl; [intuition |].
  destruct (pair_leb a b); simpl; [intuition |].
  rewrite IH. intuition.
Qed.

Lemma sort_ranges_In (r : Z * Z) (l : list (Z * Z)) :
  In r (sort_ranges l) <-> In r l.
Proof.
  induction l as [| a l IH]; simpl; [tauto |].
  rewrite insert_sorted_In, IH. intuition.
Qed.

Lemma pair_leb_start (a b : Z * Z) :
  (pair_leb a b = true -> fst a <= fst b) /\ (pair_leb a b = false -> fst b <= fst a).
Proof.
  unfold pair_leb. split; intros H.
  - apply orb_true_iff in H. destruct H as [H | H].
    + apply Z.ltb_lt in H. lia.
    + apply andb_true_iff in H. destruct H as [H _]. apply Z.eqb_eq in H. lia.
  - apply orb_false_iff in H. destruct H as [H _]. apply Z.ltb_ge in H. exact H.
Qed.

Lemma insert_sorted_by_start (a : Z * Z) (l : list (Z * Z)) :
  StronglySorted by_start l -> StronglySorted by_start (insert_sorted a l).
Proof.
  induction l as [| b l IH]; intros Hs; simpl.
  - constructor; constructor.
  - apply StronglySorted_inv in Hs. destruct Hs as [Hl Hb].
    destruct (pair_leb a b) eqn:Hab.
    + apply (proj1 (pair_leb_start a b)) in Hab.
      constructor; [constructor; assumption |].
      constructor; [exact Hab |].
      eapply Forall_impl; [| exact Hb]. unfold by_start. intros; lia.
    + apply (proj2 (pair_leb_start a b)) in Hab.
      constructor; [apply IH; exact Hl |].
      apply Forall_forall. intros r Hr. apply insert_sorted_In in Hr.
      destruct Hr as [-> | Hr]; [exact Hab |].
      rewrite Forall_forall in Hb. apply Hb. exact Hr.
Qed.

Lemma sort_ranges_by_start (l : list (Z * Z)) : StronglySorted by_start (sort_ranges l).
Proof.
  induction l as [| a l IH]; simpl; [constructor |].
  apply insert_sorted_by_start. exact IH.
Qed.

(** One step of the merge, on a list that ends with a range starting no
    later than the one that comes in. *)
Lemma merge_step_spec (init : list (Z * Z)) (ls le s e : Z) :
  ls <= s ->
  exists init' le',
    merge_step (init ++ [(ls, le)]) (s, e) = init' ++ [(if s <=? le + 1 then ls else s, le')]
    /\ (forall n, covers (init ++ [(ls, le)]) n \/ s <= n <= e ->
                  covers (init' ++ [(if s <=? le + 1 then ls else s, le')]) n)
    /\ (Forall well_formed_range (init ++ [(ls, le)]) -> s <= e ->
        Forall well_formed_range (init' ++ [(if s <=? le + 1 then ls else s, le')])).
Proof.
  intros Hls. unfold merge_step. rewrite last_last, removelast_last.
  destruct (s <=? le + 1) eqn:Hcmp.
  - exists init, (Z.max e le). split; [reflexivity |]. split.
    + intros n [[r [Hr Hn]] | Hn].
      * apply in_app_iff in Hr. destruct Hr as [Hr | [<- | []]].
        -- exists r. split; [apply in_app_iff; left; exact Hr | exact Hn].
        -- exists (ls, Z.max e le).
           split; [apply in_app_iff; right; left; reflexivity | simpl in *; lia].
      * exists (ls, Z.max e le).
        split; [apply in_app_iff; right; left; reflexivity | simpl; lia].
    + intros Hwf Hse. apply Forall_app in Hwf. destruct Hwf as [Hi Hl].
      apply Forall_app. split; [exact Hi |].
      inversion Hl as [| ? ? Hlast _]; subst. unfold well_formed_range in *. simpl in *.
      constructor; [simpl; lia | constructor].
  - exists (init ++ [(ls, le)]), e. split; [reflexivity |]. split.
    + intros n [[r [Hr Hn]] | Hn].
      * exists r. split; [apply in_app_iff; left; exact Hr | exact Hn].
      * exists (s, e). split; [apply in_app_iff; right; left; reflexivity | exact Hn].
    + intros Hwf Hse. apply Forall_app. split; [exact Hwf |].
      constructor; [exact Hse | constructor].
Qed.

Lemma fold_merge_spec (rest : list (Z * Z)) (init : list (Z * Z)) (ls le : Z) :
  StronglySorted by_start rest ->
  Forall (fun r => ls <= fst r) rest ->
  (forall n, covers (init ++ [(ls, le)]) n \/ covers rest n ->
             covers (fold_left merge_step rest (init ++ [(ls, le)])) n)
  /\ (Forall well_formed_range (init ++ [(ls, le)]) ->
      Forall well_formed_range rest ->
      Forall well_formed_range (fold_left merge_step rest (init ++ [(ls, le)]))).
Proof.
  revert init ls le.
  induction rest as [| [s e] rest IH]; intros init ls le Hsorted Hge; cbn [fold_left].
  - split; [| auto]. intros n [H | [r [[] _]]]. exact H.
  - apply StronglySorted_inv in Hsorted. destruct Hsorted as [Hsorted Hs].
    inversion Hge as [| ? ? Hls Hge']; subst. simpl in Hls.
    destruct (merge_step_spec init ls le s e Hls) as [init' [le' [Heq [Hcov Hwf]]]].
    rewrite Heq.
    assert (Hge'' : Forall (fun r => (if s <=? le + 1 then ls else s) <= fst r) rest).
    { apply Forall_forall. intros r Hr.
      rewrite Forall_forall in Hs, Hge'. specialize (Hs r Hr). specialize (Hge' r Hr).
      unfold by_start in Hs. simpl in Hs. destruct (s <=? le + 1); lia. }
    destruct (IH init' _ le' Hsorted Hge'') as [IHcov IHwf].
    split.
    + intros n [H | [r [[<- | Hr] Hn]]].
      * apply IHcov. left. apply Hcov. left. exact H.
      * apply IHcov. left. apply Hcov. right. exact Hn.
      * apply IHcov. right. exists r. auto.
    + intros Hw Hwr. inversion Hwr as [| ? ? Hse Hwr']; subst.
      apply IHwf; [apply Hwf; assumption | exact Hwr'].
Qed.

Lemma merge_ranges_spec (ranges : list (Z * Z)) :
  (forall n, covers ranges n -> covers (merge_ranges ranges) n)
  /\ (Forall well_formed_range ranges -> Forall well_formed_range (merge_ranges ranges)).
Proof.
  unfold merge_ranges.
  pose proof (sort_ranges_by_start ranges) as Hsorted.
  assert (Hin : forall r, In r (sort_ranges ranges) <-> In r ranges)
    by (intros r; apply sort_ranges_In).
  destruct (sort_ranges ranges) as [| [s0 e0] rest].
  - split; [| constructor]. intros n [r [Hr _]]. apply Hin in Hr. destruct Hr.
  - apply StronglySorted_inv in Hsorted. destruct Hsorted as [Hsorted H0].
    destruct (fold_merge_spec rest [] s0 e0 Hsorted H0) as [Hcov Hwf].
    simpl in Hcov, Hwf. split.
    + intros n [r [Hr Hn]]. apply Hin in Hr. apply Hcov.
      destruct Hr as [<- | Hr].
      * left. exists (s0, e0). split; [left; reflexivity | exact Hn].
      * right. exists r. auto.
    + intros Hw.
      assert (Hw' : Forall well_formed_range ((s0, e0) :: rest)).
      { apply Forall_forall. intros r Hr. apply Hin in Hr.
        rewrite Forall_forall in Hw. apply Hw. exact Hr. }
      inversion Hw'; subst. apply Hwf; [constructor; [assumption | constructor] | assumption].
Qed.

(** X6: every added line of the file lies in one of the ranges
    [get_changed_line_ranges] returns: for each chunk of the file and
    each added entry of it, some returned range holds its line number. *)
Theorem changed_ranges_cover_added_lines
  (diff_text file : string) (c : DiffChunk) (e : Z * string) :
  In c (parse_diff diff_text) -> file_path c = file -> In e (added_lines c) ->
  exists r, In r (get_changed_line_ranges diff_text file) /\ fst r <= fst e <= snd r.
Proof.
  intros Hc Hf He. unfold get_changed_line_ranges.
  apply (proj1 (merge_ranges_spec _)).
  exact (chunk_ranges_cover file _ c e Hc Hf He).
Qed.

Lemma changed_ranges_cover_added_lines_witness :
  exists r, In r (get_changed_line_ranges touching_hunks "f.py")
            /\ fst r <= 3 <= snd r.
Proof.
  apply (changed_ranges_cover_added_lines touching_hunks "f.py"
           (mkDiffChunk "f.py" 1 0 3 1 [(3, "c")] [] []) (3, "c")).
  - right. left. reflexivity.
  - reflexivity.
  - left. reflexivity.
Defined.

Lemma separated_strongly (l : list (Z * Z)) :
  separated l -> Forall well_formed_range l ->
  StronglySorted (fun a b => snd a + 1 < fst b) l.
Proof.
  induction l as [| a l IH]; intros Hs Hw; [constructor |].
  inversion Hw as [| ? ? Ha Hwl]; subst.
  destruct l as [| b l']; [constructor; constructor |].
  simpl in Hs. destruct Hs as [Hab Hrest].
  specialize (IH Hrest Hwl).
  constructor; [exact IH |].
  constructor; [lia |].
  apply StronglySorted_inv in IH. destruct IH as [_ Hb].
  inversion Hwl as [| ? ? Hwb _]; subst. unfold well_formed_range in Hwb.
  eapply Forall_impl; [| exact Hb]. simpl. intros x Hx. lia.
Qed.

(** X7: the ranges [get_changed_line_ranges] returns are well formed
    (none ends before it starts) and in ascending order, each one
    starting more than one line after the end of every range before it. *)
Theorem changed_ranges_ascending (diff_text file : string) :
  Forall well_formed_range (get_changed_line_ranges diff_text file)
  /\ StronglySorted (fun a b => snd a + 1 < fst b)
                    (get_changed_line_ranges diff_text file).
Proof.
  assert (Hw : Forall well_formed_range (get_changed_line_ranges diff_text file)).
  { unfold get_changed_line_ranges.
    apply (proj2 (merge_ranges_spec _)). apply chunk_ranges_well_formed. }
  split; [exact Hw |].
  apply separated_strongly; [| exact Hw].
  unfold get_changed_line_ranges. apply merge_ranges_separated.
Qed.

End ChangedLineRanges.

(* ================================================================== *)
(** * Further properties of the pattern detector *)
(* ================================================================== *)

Section MatchLists.

Import PatternDetector.

Local Open Scope Z_scope.

Lemma severity_rank_range (s : string) : 0 <= severity_rank s <= 3.
Proof.
  unfold severity_rank.
  destruct (String.eqb s "info"); [lia |].
  destruct (String.eqb s "minor"); [lia |].
  destruct (String.eqb s "major"); [lia |].
  destruct (String.eqb s "critical"); lia.
Qed.

Lemma filter_all {A : Type} (f : A -> bool) (l : list A) :
  (forall x, In x l -> f x = true) -> filter f l = l.
Proof.
  induction l as [| a l IH]; intros H; simpl; [reflexivity |].
  rewrite (H a (or_introl eq_refl)). f_equal. apply IH.
  intros x Hx. apply H. right. exact Hx.
Qed.

(** X8: a threshold that is none of [minor], [major], [critical] (the
    name [info], a misspelt or an empty name) keeps every match, those
    with an unknown severity included. *)
Theorem unknown_threshold_keeps_everything
  (ms : list PatternMatch) (min_severity : string) :
  min_severity <> "minor" -> min_severity <> "major" -> min_severity <> "critical" ->
  filter_by_severity ms min_severity = ms.
Proof.
  intros H1 H2 H3. unfold filter_by_severity.
  assert (Hr : severity_rank min_severity = 0).
  { unfold severity_rank.
    destruct (String.eqb min_severity "info"); [reflexivity |].
    destruct (String.eqb_spec min_severity "minor"); [contradiction |].
    destruct (String.eqb_spec min_severity "major"); [contradiction |].
    destruct (String.eqb_spec min_severity "critical"); [contradiction | reflexivity]. }
  rewrite Hr. apply filter_all. intros m _.
  apply Z.leb_le. apply severity_rank_range.
Qed.

Lemma unknown_threshold_keeps_everything_witness :
  filter_by_severity
    [mkMatch "sql" "blocker" "m" 1 "x" 0.5%float; mkMatch "var_keyword" "minor" "m" 2 "y" 0.9%float]
    "Major"
  = [mkMatch "sql" "blocker" "m" 1 "x" 0.5%float; mkMatch "var_keyword" "minor" "m" 2 "y" 0.9%float].
Proof.
  apply unknown_threshold_keeps_everything; discriminate.
Defined.

Lemma filter_filter {A : Type} (f g : A -> bool) (l : list A) :
  filter f (filter g l) = filter (fun x => g x && f x) l.
Proof.
  induction l as [| a l IH]; simpl; [reflexivity |].
  destruct (g a); simpl; [destruct (f a); rewrite IH; reflexivity | exact IH].
Qed.

(** X9: filtering by one threshold and then by another is filtering
    once by the stricter of the two, in whichever order. *)
Theorem filter_by_severity_twice (ms : list PatternMatch) (a b : string) :
  filter_by_severity (filter_by_severity ms a) b
  = filter_by_severity ms (if severity_rank a <=? severity_rank b then b else a).
Proof.
  unfold filter_by_severity. rewrite filter_filter.
  apply filter_ext. intros m.
  destruct (Z.leb_spec (severity_rank a) (severity_rank b)).
  - destruct (Z.leb_spec (severity_rank b) (severity_rank (severity m))).
    + rewrite andb_true_r. apply Z.leb_le. lia.
    + apply andb_false_r.
  - destruct (Z.leb_spec (severity_rank a) (severity_rank (severity m))).
    + simpl. apply Z.leb_le. lia.
    + reflexivity.
Qed.

(** ** Grouping *)

Lemma group_insert_lookup (m : PatternMatch) (g : groups) (key : string) :
  group_lookup key (group_insert m g)
  = if String.eqb (pattern_type m) key
    then Some (match group_lookup key g with Some l => l ++ [m] | None => [m] end)
    else group_lookup key g.
Proof.
  induction g as [| [k l] g IH]; simpl.
  - destruct (String.eqb (pattern_type m) key); reflexivity.
  - destruct (String.eqb_spec k (pattern_type m)) as [-> | Hk]; simpl.
    + destruct (String.eqb (pattern_type m) key); reflexivity.
    + destruct (String.eqb_spec k key) as [-> | Hkk]; [| exact IH].
      destruct (String.eqb_spec (pattern_type m) key) as [Heq | _]; [| reflexivity].
      congruence.
Qed.

Lemma group_insert_keys (m : PatternMatch) (g : groups) :
  map fst (group_insert m g)
  = if existsb (String.eqb (pattern_type m)) (map fst g)
    then map fst g else map fst g ++ [pattern_type m].
Proof.
  induction g as [| [k l] g IH]; simpl; [reflexivity |].
  rewrite (String.eqb_sym (pattern_type m) k).
  destruct (String.eqb k (pattern_type m)); simpl; [reflexivity |].
  rewrite IH. destruct (existsb (String.eqb (pattern_type m)) (map fst g)); reflexivity.
Qed.

Lemma group_by_type_snoc (ms : list PatternMatch) (m : PatternMatch) :
  group_by_type (ms ++ [m]) = group_insert m (group_by_type ms).
Proof. unfold group_by_type. rewrite fold_left_app. reflexivity. Qed.

Lemma of_type_snoc (key : string) (ms : list PatternMatch) (m : PatternMatch) :
  of_type key (ms ++ [m])
  = of_type key ms ++ (if String.eqb (pattern_type m) key then [m] else []).
Proof. unfold of_type. rewrite filter_app. reflexivity. Qed.

(** X10: [group_by_type] gives each type that occurs one entry, the
    matches of that type in the order of the list, and no entry to a
    type that does not occur; no key comes twice. *)
Theorem group_by_type_partitions (ms : list PatternMatch) (key : string) :
  group_lookup key (group_by_type ms)
  = match of_type key ms with
    | [] => None
    | l => Some l
    end
  /\ NoDup (map fst (group_by_type ms)).
Proof.
  induction ms as [| m ms IH] using rev_ind.
  - split; [reflexivity | constructor].
  - destruct IH as [IHl IHk].
    rewrite group_by_type_snoc, of_type_snoc. split.
    + rewrite group_insert_lookup, IHl.
      destruct (String.eqb (pattern_type m) key).
      * destruct (of_type key ms); reflexivity.
      * rewrite app_nil_r. reflexivity.
    + rewrite group_insert_keys.
      destruct (existsb (String.eqb (pattern_type m)) (map fst (group_by_type ms))) eqn:He;
        [exact IHk |].
      apply NoDup_app; [exact IHk | constructor; [intros [] | constructor] |].
      intros k Hk [<- | []].
      assert (Ht : existsb (String.eqb (pattern_type m)) (map fst (group_by_type ms)) = true).
      { apply existsb_exists. exists (pattern_type m).
        split; [exact Hk | apply String.eqb_refl]. }
      congruence.
Qed.

End MatchLists.

Section DetectorMore.

Import Re PatternDetector.

(** ** Every match points at a line *)

Lemma scan_points_at (test : nat -> string -> bool) (mk : nat -> string -> PatternMatch)
      (lines : list string) :
  (forall i l, line_number (mk i l) = Z.of_nat i
               /\ (code_snippet (mk i l) = Py.strip l
                   \/ code_snippet (mk i l) = Py.take 80 (Py.strip l))) ->
  Forall (points_at lines) (scan test mk 1 lines).
Proof.
  intros Hmk. apply Forall_forall. intros m Hin.
  apply scan_In in Hin. destruct Hin as [k [l [Hk [_ ->]]]].
  exists k, l. destruct (Hmk (1 + k) l) as [Hn Hs]. auto.
Qed.

Lemma credential_scan_points_at (table : list (string * rule)) (lines : list string) :
  Forall (points_at lines) (credential_scan table lines).
Proof.
  unfold credential_scan. apply Forall_flat_map.
  apply Forall_forall. intros [ptype config] _.
  destruct (String.eqb ptype "hardcoded_credentials"); [| constructor].
  apply Forall_flat_map. apply Forall_forall. intros [re msg] _.
  apply scan_points_at. intros i l. simpl. auto.
Qed.

Ltac scans_point :=
  repeat (apply Forall_app; split);
  try (apply scan_points_at; intros i l; simpl; auto).

(** X11: every match [detect_patterns] returns points at a line of the
    code: its line number is that of an existing line, counted from 1,
    and its excerpt is that line without the white space around it, or
    the first 80 characters of that. *)
Theorem matches_point_at_lines (code language : string) :
  Forall (points_at (Py.splitlines code)) (detect_patterns code language).
Proof.
  unfold detect_patterns. apply Forall_app. split.
  - destruct (String.eqb (Py.lower language) "java");
      [unfold _detect_java_patterns; scans_point |].
    destruct (String.eqb (Py.lower language) "python");
      [unfold _detect_python_patterns; scans_point |].
    destruct (String.eqb (Py.lower language) "javascript"
              || String.eqb (Py.lower language) "typescript");
      [unfold _detect_javascript_patterns; scans_point | constructor].
  - unfold _detect_universal_patterns. apply Forall_app. split.
    + apply credential_scan_points_at.
    + apply scan_points_at. intros i l. simpl. auto.
Qed.

(** ** The language tag *)

Lemma lower_char_idempotent (c : ascii) :
  Py.lower_char (Py.lower_char c) = Py.lower_char c.
Proof.
  destruct c as [[] [] [] [] [] [] [] []]; vm_compute; reflexivity.
Qed.

Lemma lower_idempotent (s : string) : Py.lower (Py.lower s) = Py.lower s.
Proof.
  induction s as [| c s IH]; simpl; [reflexivity |].
  rewrite lower_char_idempotent, IH. reflexivity.
Qed.

(** X12: the language tag is matched without regard to letter case:
    [detect_patterns] gives the same matches for a tag and for the tag
    in lower case. *)
Theorem language_tag_case_insensitive (code language : string) :
  detect_patterns code language = detect_patterns code (Py.lower language).
Proof.
  unfold detect_patterns. rewrite lower_idempotent. reflexivity.
Qed.

(** ** What the matcher accepts *)

Lemma star_cls_stop (ic : bool) (p : ascii -> bool) (prev : option ascii) (s : string)
      (k : option ascii -> string -> bool) :
  k prev s = true -> matches ic (Star (Cls p)) prev s k = true.
Proof.
  intros H. destruct s; cbn [matches String.length]; rewrite H; reflexivity.
Qed.

Lemma star_cls_step (ic : bool) (p : ascii -> bool) (prev : option ascii)
      (c : ascii) (s : string) (k : option ascii -> string -> bool) :
  p c = true ->
  matches ic (Star (Cls p)) (Some c) s k = true ->
  matches ic (Star (Cls p)) prev (String c s) k = true.
Proof.
  intros Hp Hs.
  change (matches ic (Star (Cls p)) prev (String c s) k)
    with (if k prev (String c s) then true
          else if p c
               then if (String.length s <? S (String.length s))%nat
                    then matches ic (Star (Cls p)) (Some c) s k else false
               else false).
  destruct (k prev (String c s)); [reflexivity |].
  rewrite Hp, Hs.
  destruct (Nat.ltb_spec (String.length s) (S (String.length s))); [reflexivity | lia].
Qed.

Lemma star_cls_app (ic : bool) (p : ascii -> bool) (ws r : string)
      (k : option ascii -> string -> bool) (prev : option ascii) :
  all_chars p ws = true ->
  k (last_of prev ws) r = true ->
  matches ic (Star (Cls p)) prev (ws ++ r) k = true.
Proof.
  revert prev. induction ws as [| c ws IH]; intros prev Hall Hk.
  - apply star_cls_stop. exact Hk.
  - simpl in Hall. destruct (p c) eqn:Hp; [| discriminate].
    change ((String c ws ++ r)%string) with (String c (ws ++ r)%string).
    apply star_cls_step; [exact Hp |].
    apply IH; assumption.
Qed.

Lemma lit_app (ic : bool) (lit s r : string) (k : option ascii -> string -> bool)
      (prev : option ascii) :
  chars_match ic lit s = true ->
  matches ic (Lit lit) prev (s ++ r) k = k (last_of prev s) r.
Proof.
  revert s prev. induction lit as [| c lit IH]; intros [| x s] prev H;
    try discriminate; [reflexivity |].
  simpl in H. destruct (chr_eq ic c x) eqn:Hc; [| discriminate].
  cbn [Lit matches String.append last_of]. rewrite Hc. apply IH. exact H.
Qed.

Lemma search_from_app (ic : bool) (r : regex) (p s : string) (prev : option ascii) :
  (forall prev', match_here ic r prev' s = true) ->
  search_from ic r prev (p ++ s) = true.
Proof.
  intros H. revert prev. induction p as [| c p IH]; intros prev.
  - simpl. destruct s; cbn [search_from]; rewrite H; reflexivity.
  - cbn [String.append search_from].
    destruct (match_here ic r prev (String c (p ++ s))); [reflexivity | apply IH].
Qed.

(** ** Bare except clauses *)

(** X13: in Python code, a line that holds [except], any white space
    and a colon is reported as a bare except clause (severity major,
    confidence 0.95) with its line number, whatever stands before and
    after. *)
Theorem bare_except_reported
  (code language : string) (i : nat) (line p ws q : string) :
  Py.lower language = "python" ->
  nth_error (Py.splitlines code) i = Some line ->
  line = (p ++ "except" ++ ws ++ String ":" q)%string ->
  all_chars Py.isspace ws = true ->
  In (mkMatch "bare_except" "major" "Bare except clause - catches all exceptions"
              (Z.of_nat (S i)) (Py.strip line) 0.95%float)
     (detect_patterns code language).
Proof.
  intros Hlang Hline Hshape Hws.
  unfold detect_patterns. rewrite Hlang. cbn [String.eqb].
  change (String.eqb "python" "java") with false. cbv iota.
  change (String.eqb "python" "python") with true. cbv iota.
  apply in_app_iff. left. unfold _detect_python_patterns.
  apply in_app_iff. left. apply scan_In.
  exists i, line. split; [exact Hline |]. split; [| reflexivity].
  rewrite Hshape. unfold search. apply search_from_app.
  intros prev'. unfold match_here. cbn [Cat matches].
  rewrite (lit_app false "except" "except" _ _ _ eq_refl).
  cbn [last_of]. unfold Space.
  apply star_cls_app; [exact Hws |].
  reflexivity.
Qed.

Lemma bare_except_reported_witness :
  In (mkMatch "bare_except" "major" "Bare except clause - catches all exceptions"
              3 "except :  # noqa" 0.95%float)
     (detect_patterns (Py.join_lines ["try:"; "    f()"; "    except :  # noqa"; "    pass"])
                      "Python").
Proof.
  apply (bare_except_reported
           (Py.join_lines ["try:"; "    f()"; "    except :  # noqa"; "    pass"])
           "Python" 2 "    except :  # noqa" "    " " " "  # noqa");
    reflexivity.
Defined.

(** ** Hard-coded passwords *)

Lemma seq_chr (ic : bool) (c x : ascii) (r2 : regex) (prev : option ascii) (s : string)
      (k : option ascii -> string -> bool) :
  chr_eq ic c x = true -> matches ic r2 (Some x) s k = true ->
  matches ic (Seq (Chr c) r2) prev (String x s) k = true.
Proof. intros Hc H. cbn [matches]. rewrite Hc. exact H. Qed.

Lemma seq_cls (ic : bool) (p : ascii -> bool) (c : ascii) (r2 : regex)
      (prev : option ascii) (s : string) (k : option ascii -> string -> bool) :
  p c = true -> matches ic r2 (Some c) s k = true ->
  matches ic (Seq (Cls p) r2) prev (String c s) k = true.
Proof. intros Hc H. cbn [matches]. rewrite Hc. exact H. Qed.

Lemma seq_star_cls (ic : bool) (p : ascii -> bool) (r2 : regex) (ws r : string)
      (prev : option ascii) (k : option ascii -> string -> bool) :
  all_chars p ws = true -> matches ic r2 (last_of prev ws) r k = true ->
  matches ic (Seq (Star (Cls p)) r2) prev (ws ++ r) k = true.
Proof.
  intros Hws H.
  change (matches ic (Seq (Star (Cls p)) r2) prev (ws ++ r) k)
    with (matches ic (Star (Cls p)) prev (ws ++ r) (fun p' s' => matches ic r2 p' s' k)).
  apply star_cls_app; assumption.
Qed.

Lemma seq_lit (ic : bool) (lit s r : string) (r2 : regex) (prev : option ascii)
      (k : option ascii -> string -> bool) :
  chars_match ic lit s = true -> matches ic r2 (last_of prev s) r k = true ->
  matches ic (Seq (Lit lit) r2) prev (s ++ r) k = true.
Proof.
  intros Hl H.
  change (matches ic (Seq (Lit lit) r2) prev (s ++ r) k)
    with (matches ic (Lit lit) prev (s ++ r) (fun p' s' => matches ic r2 p' s' k)).
  rewrite (lit_app ic lit s r _ prev Hl). exact H.
Qed.

(** X14: for every language, a line that holds the word [password] in
    any letter case, optional white space, an equals sign, optional white
    space and a non-empty literal between two quote characters is
    reported as hard-coded credentials (severity critical, confidence
    0.85) with its line number. *)
Theorem hardcoded_password_reported
  (code language : string) (i : nat)
  (line p kw ws1 ws2 body rest : string) (q1 b q2 : ascii) :
  nth_error (Py.splitlines code) i = Some line ->
  line = (p ++ kw ++ ws1 ++ String "=" (ws2 ++ String q1 (String b body ++ String q2 rest)))%string ->
  chars_match true "password" kw = true ->
  all_chars Py.isspace ws1 = true -> all_chars Py.isspace ws2 = true ->
  is_quote q1 = true -> is_quote q2 = true ->
  all_chars (fun x => negb (is_quote x)) (String b body) = true ->
  In (mkMatch "hardcoded_credentials" "critical" "Hardcoded password"
              (Z.of_nat (S i)) (Py.strip line) 0.85%float)
     (detect_patterns code language).
Proof.
  intros Hline Hshape Hkw Hws1 Hws2 Hq1 Hq2 Hbody.
  unfold detect_patterns. apply in_app_iff. right.
  unfold _detect_universal_patterns. apply in_app_iff. left.
  unfold credential_scan. apply in_flat_map.
  exists ("hardcoded_credentials",
          mkRule "critical"
            [ (Seq (Lit "password") quoted_assignment, "Hardcoded password");
              (Cat [Lit "api"; Opt (OneOf "_-"); Lit "key"; quoted_assignment], "Hardcoded API key");
              (Seq (Lit "secret") quoted_assignment, "Hardcoded secret");
              (Seq (Lit "token") quoted_assignment, "Hardcoded token") ]).
  split; [left; reflexivity |].
  change (String.eqb "hardcoded_credentials" "hardcoded_credentials") with true. cbv iota.
  apply in_flat_map.
  exists (Seq (Lit "password") quoted_assignment, "Hardcoded password").
  split; [left; reflexivity |].
  apply scan_In. exists i, line. split; [exact Hline |]. split; [| reflexivity].
  rewrite Hshape. unfold search. apply search_from_app.
  intros prev'. unfold match_here.
  apply seq_lit; [exact Hkw |].
  unfold quoted_assignment, Space, Quote, NotQuote, Plus. cbn [Cat].
  apply seq_star_cls; [exact Hws1 |].
  apply seq_chr; [reflexivity |].
  apply seq_star_cls; [exact Hws2 |].
  apply seq_cls; [exact Hq1 |].
  simpl in Hbody.
  destruct (negb (is_quote b)) eqn:Hb; [| discriminate].
  change (matches true
            (Seq (Seq (Cls (fun x => negb (is_quote x))) (Star (Cls (fun x => negb (is_quote x)))))
                 (Seq (Cls is_quote) Eps))
            (Some q1) (String b body ++ String q2 rest) (fun _ _ => true))
    with (matches true
            (Seq (Cls (fun x => negb (is_quote x)))
                 (Seq (Star (Cls (fun x => negb (is_quote x)))) (Seq (Cls is_quote) Eps)))
            (Some q1) (String b (body ++ String q2 rest)) (fun _ _ => true)).
  apply seq_cls; [exact Hb |].
  apply seq_star_cls; [exact Hbody |].
  apply seq_cls; [exact Hq2 |].
  reflexivity.
Qed.

Lemma hardcoded_password_reported_witness :
  In (mkMatch "hardcoded_credentials" "critical" "Hardcoded password"
              2 "String PassWord = 'hardcoded123';" 0.85%float)
     (detect_patterns
        (Py.join_lines ["class A {"; "  String PassWord = 'hardcoded123';"; "}"]) "java").
Proof.
  apply (hardcoded_password_reported
           (Py.join_lines ["class A {"; "  String PassWord = 'hardcoded123';"; "}"]) "java" 1
           "  String PassWord = 'hardcoded123';"
           "  String " "PassWord" " " " " "ardcoded123" ";"
           "'"%char "h"%char "'"%char);
    reflexivity.
Defined.

(** ** Print calls, empty catch blocks, long excerpts *)

(** Takes a match of [detect_patterns] back to the scan that emitted it. *)
Ltac from_scan H :=
  let k := fresh "k" in
  let l := fresh "l" in
  let Hk := fresh "Hk" in
  let Htest := fresh "Htest" in
  apply scan_In in H; destruct H as [k [l [Hk [Htest H]]]].

Lemma detect_patterns_In (code language : string) (m : PatternMatch) :
  In m (detect_patterns code language) ->
  In m (_detect_java_patterns code) \/ In m (_detect_python_patterns code)
  \/ In m (_detect_javascript_patterns code) \/ In m (_detect_universal_patterns code).
Proof.
  unfold detect_patterns. intros Hin. apply in_app_iff in Hin.
  destruct Hin as [Hin | Hin]; [| tauto].
  destruct (String.eqb (Py.lower language) "java"); [tauto |].
  destruct (String.eqb (Py.lower language) "python"); [tauto |].
  destruct (String.eqb (Py.lower language) "javascript"
            || String.eqb (Py.lower language) "typescript"); [tauto | destruct Hin].
Qed.

(** X15: when the word [logger] occurs anywhere in the code, no print
    call is reported, in whatever line it stands. *)
Theorem print_not_reported_with_logger (code language : string) :
  Py.contains "logger" code = true ->
  Forall (fun m => pattern_type m <> "print_statement") (detect_patterns code language).
Proof.
  intros Hlog. apply Forall_forall. intros m Hin Ht.
  apply detect_patterns_In in Hin.
  destruct Hin as [Hin | [Hin | [Hin | Hin]]].
  - unfold _detect_java_patterns in Hin.
    apply in_app_iff in Hin. destruct Hin as [Hin | Hin]; [from_scan Hin; subst m; discriminate |].
    apply in_app_iff in Hin. destruct Hin as [Hin | Hin]; from_scan Hin; subst m; discriminate.
  - unfold _detect_python_patterns in Hin.
    apply in_app_iff in Hin. destruct Hin as [Hin | Hin]; [from_scan Hin; subst m; discriminate |].
    apply in_app_iff in Hin. destruct Hin as [Hin | Hin]; [| from_scan Hin; subst m; discriminate].
    from_scan Hin. rewrite Hlog in Htest. rewrite andb_false_r in Htest. discriminate.
  - unfold _detect_javascript_patterns in Hin.
    apply in_app_iff in Hin. destruct Hin as [Hin | Hin]; [from_scan Hin; subst m; discriminate |].
    apply in_app_iff in Hin. destruct Hin as [Hin | Hin]; from_scan Hin; subst m; discriminate.
  - unfold _detect_universal_patterns in Hin.
    apply in_app_iff in Hin. destruct Hin as [Hin | Hin]; [| from_scan Hin; subst m; discriminate].
    pose proof (credential_scan_type _load_patterns (Py.splitlines code)) as Hall.
    rewrite Forall_forall in Hall. apply Hall in Hin. congruence.
Qed.

Lemma print_not_reported_with_logger_witness :
  Forall (fun m => pattern_type m <> "print_statement")
         (detect_patterns
            (Py.join_lines ["import logging"; "logger = logging.getLogger()"; "print('x')"])
            "python").
Proof.
  apply print_not_reported_with_logger. reflexivity.
Defined.

Lemma next_lines_window (lines : list string) (i : nat) :
  next_lines lines i = firstn 3 (skipn i lines).
Proof.
  unfold next_lines.
  destruct (Z.ltb_spec (Z.of_nat i) (Z.of_nat (length lines) - 3)); [reflexivity |].
  symmetry. apply firstn_all2. rewrite length_skipn. lia.
Qed.

(** X16: in Java code, a line is reported as an empty catch block
    exactly when it holds [catch] and one of the lines after it, three at
    most, is a closing brace and white space only; the test on the number
    of lines left changes nothing, and a [catch] on the last line is
    never reported. *)
Theorem empty_catch_window (code language : string) (i : nat) (line : string) :
  Py.lower language = "java" ->
  nth_error (Py.splitlines code) i = Some line ->
  (In (mkMatch "empty_catch" "major" "Empty catch block - swallows exceptions"
               (Z.of_nat (S i)) (Py.strip line) 0.8%float)
      (detect_patterns code language)
   <-> Py.contains "catch" line = true
       /\ existsb (fun l => String.eqb (Py.strip l) "}")
                  (firstn 3 (skipn (S i) (Py.splitlines code))) = true).
Proof.
  intros Hlang Hline.
  rewrite <- next_lines_window, <- andb_true_iff.
  assert (Hjava : detect_patterns code language
                  = _detect_java_patterns code ++ _detect_universal_patterns code).
  { unfold detect_patterns. rewrite Hlang. reflexivity. }
  rewrite Hjava. clear Hjava.
  unfold _detect_java_patterns, _detect_universal_patterns.
  rewrite !in_app_iff, !scan_In. split.
  - intros [[H | [H | H]] | [H | H]].
    + destruct H as [k [l [Hk [Ht H]]]].
      assert (Hnum : Z.of_nat (S i) = Z.of_nat (1 + k))
        by exact (f_equal line_number H).
      apply Nat2Z.inj in Hnum. simpl in Hnum. inversion Hnum; subst k.
      rewrite Hline in Hk. inversion Hk; subst l. exact Ht.
    + destruct H as [k [l [_ [_ H]]]]. discriminate H.
    + destruct H as [k [l [_ [_ H]]]]. discriminate H.
    + pose proof (credential_scan_type _load_patterns (Py.splitlines code)) as Hall.
      rewrite Forall_forall in Hall. apply Hall in H. discriminate H.
    + destruct H as [k [l [_ [_ H]]]]. discriminate H.
  - intros Ht. left. left. exists i, line. auto.
Qed.

Lemma empty_catch_window_witness :
  In (mkMatch "empty_catch" "major" "Empty catch block - swallows exceptions"
              2 "} catch (IOException e) {" 0.8%float)
     (detect_patterns (Py.join_lines ["try { f(); }"; "} catch (IOException e) {"; "  }"])
                      "Java")
  <-> Py.contains "catch" "} catch (IOException e) {" = true
      /\ existsb (fun l => String.eqb (Py.strip l) "}")
                 (firstn 3 (skipn 2
                    (Py.splitlines
                       (Py.join_lines ["try { f(); }"; "} catch (IOException e) {"; "  }"]))))
         = true.
Proof.
  apply (empty_catch_window
           (Py.join_lines ["try { f(); }"; "} catch (IOException e) {"; "  }"])
           "Java" 1 "} catch (IOException e) {"); reflexivity.
Defined.

Lemma take_length (n : nat) (s : string) : String.length (Py.take n s) <= n.
Proof.
  unfold Py.take. revert s. induction n as [| n IH]; intros [| c s]; simpl; try lia.
  specialize (IH s). lia.
Qed.

(** X17: the excerpt of a reported TODO or FIXME comment is never longer
    than 80 characters. *)
Theorem todo_excerpt_at_most_80 (code language : string) :
  Forall (fun m => pattern_type m = "todo_comment"
                   -> String.length (code_snippet m) <= 80)
         (detect_patterns code language).
Proof.
  apply Forall_forall. intros m Hin Ht.
  apply detect_patterns_In in Hin.
  destruct Hin as [Hin | [Hin | [Hin | Hin]]].
  - unfold _detect_java_patterns in Hin.
    apply in_app_iff in Hin. destruct Hin as [Hin | Hin]; [from_scan Hin; subst m; discriminate |].
    apply in_app_iff in Hin. destruct Hin as [Hin | Hin]; from_scan Hin; subst m; discriminate.
  - unfold _detect_python_patterns in Hin.
    apply in_app_iff in Hin. destruct Hin as [Hin | Hin]; [from_scan Hin; subst m; discriminate |].
    apply in_app_iff in Hin. destruct Hin as [Hin | Hin]; from_scan Hin; subst m; discriminate.
  - unfold _detect_javascript_patterns in Hin.
    apply in_app_iff in Hin. destruct Hin as [Hin | Hin]; [from_scan Hin; subst m; discriminate |].
    apply in_app_iff in Hin. destruct Hin as [Hin | Hin]; from_scan Hin; subst m; discriminate.
  - unfold _detect_universal_patterns in Hin.
    apply in_app_iff in Hin. destruct Hin as [Hin | Hin].
    + pose proof (credential_scan_type _load_patterns (Py.splitlines code)) as Hall.
      rewrite Forall_forall in Hall. apply Hall in Hin. congruence.
    + from_scan Hin. subst m. cbn [code_snippet]. apply take_length.
Qed.

End DetectorMore.

(* ================================================================== *)
(** * Further properties of the embedding service *)
(* ================================================================== *)

Section BatchProperties.

Import Effects EmbeddingService.

Variable W : Type.
Variable self : service W.
Variable provider_batch :
  list string -> string -> string -> W -> outcome (list (option vec)) * W.

Lemma check_text_spec (acc : batch_lists) (i : nat) (text task_type : string)
      (s : state W batch_event) :
  batch_calls (snd (snd (check_text self acc i text task_type s))) = batch_calls (snd s)
  /\ forall lists s',
       check_text self acc i text task_type s = (Returns lists, s') ->
       length (embeddings lists) = S (length (embeddings acc)).
Proof.
  unfold check_text. destruct (blank text).
  - simpl. split; [reflexivity |]. intros lists s' H. inversion H; subst. simpl.
    rewrite length_app. simpl. lia.
  - cbv zeta. unfold bind.
    destruct (cache_service self) as [c |].
    + unfold call.
      destruct (get_embedding c (_generate_cache_key self text task_type) (fst s))
        as [[cached | e] w'] eqn:Hget; simpl.
      * assert (Hb : batch_calls (snd s ++ [Single (CacheGet (_generate_cache_key self text task_type))])
                     = batch_calls (snd s)).
        { unfold batch_calls. rewrite filter_app, length_app. simpl. lia. }
        destruct (truthy cached); simpl; (split; [exact Hb |]);
          intros lists s' H; inversion H; subst; simpl; rewrite length_app; simpl; lia.
      * split; [| discriminate].
        unfold batch_calls. rewrite filter_app, length_app. simpl. lia.
    + simpl. split; [reflexivity |]. intros lists s' H. inversion H; subst. simpl.
      rewrite length_app. simpl. lia.
Qed.

Lemma check_texts_spec (texts : list string) (task_type : string) (acc : batch_lists)
      (i : nat) (s : state W batch_event) :
  batch_calls (snd (snd (check_texts self acc i texts task_type s))) = batch_calls (snd s)
  /\ forall lists s',
       check_texts self acc i texts task_type s = (Returns lists, s') ->
       length (embeddings lists) = length (embeddings acc) + length texts.
Proof.
  revert acc i s. induction texts as [| text rest IH]; intros acc i s.
  - simpl. split; [reflexivity |]. intros lists s' H. inversion H; subst. lia.
  - cbn [check_texts]. unfold bind.
    destruct (check_text_spec acc i text task_type s) as [Hb Hl].
    destruct (check_text self acc i text task_type s) as [[acc' | e] s1] eqn:Hc.
    + destruct (IH acc' (S i) s1) as [Hb' Hl']. simpl in Hb. split.
      * rewrite Hb'. exact Hb.
      * intros lists s' H. rewrite (Hl' lists s' H), (Hl acc' s1 eq_refl). simpl. lia.
    + simpl in *. split; [exact Hb | discriminate].
Qed.

Lemma set_at_length (l : list (option vec)) (idx : nat) (v : option vec) :
  length (set_at l idx v) = length l.
Proof.
  revert idx. induction l as [| x l IH]; intros [| n]; simpl; auto.
Qed.

Lemma fill_spec (texts : list string) (task_type : string)
      (pairs : list (nat * option vec)) (embs : list (option vec))
      (s : state W batch_event) :
  length (fst (fst (fill self texts task_type pairs embs s))) = length embs
  /\ batch_calls (snd (snd (fill self texts task_type pairs embs s))) = batch_calls (snd s).
Proof.
  revert embs s. induction pairs as [| [idx embedding] rest IH]; intros embs s.
  - simpl. auto.
  - cbn [fill].
    destruct (cache_service self) as [c |].
    + destruct (truthy embedding).
      * unfold call.
        destruct (set_embedding c (_generate_cache_key self (nth idx texts EmptyString) task_type)
                                embedding 86400 (fst s)) as [[u | e] w'] eqn:Hset.
        -- destruct (IH (set_at embs idx embedding)
                        (w', snd s ++ [Single (CacheSet
                           (_generate_cache_key self (nth idx texts EmptyString) task_type)
                           embedding 86400)])) as [Hl Hb].
           rewrite Hl, Hb, set_at_length. split; [reflexivity |].
           simpl. unfold batch_calls. rewrite filter_app, length_app. simpl. lia.
        -- simpl. rewrite set_at_length. split; [reflexivity |].
           unfold batch_calls. rewrite filter_app, length_app. simpl. lia.
      * destruct (IH (set_at embs idx embedding) s) as [Hl Hb].
        rewrite Hl, Hb, set_at_length. auto.
    + destruct (IH (set_at embs idx embedding) s) as [Hl Hb].
      rewrite Hl, Hb, set_at_length. auto.
Qed.

Lemma embed_uncached_spec (texts : list string) (task_type : string) (lists : batch_lists)
      (s : state W batch_event) :
  length (fst (fst (embed_uncached self provider_batch texts task_type lists s)))
  = length (embeddings lists)
  /\ batch_calls (snd (snd (embed_uncached self provider_batch texts task_type lists s)))
     <= S (batch_calls (snd s)).
Proof.
  unfold embed_uncached.
  destruct (gemini_service self) as [g |].
  - unfold call.
    destruct (provider_batch (uncached_texts lists) embedding_model task_type (fst s))
      as [[batch | e] w'] eqn:Hp.
    + match goal with
      | |- context [fill self texts task_type ?ps ?es ?st] =>
          destruct (fill_spec texts task_type ps es st) as [Hl Hb]
      end.
      rewrite Hl, Hb. split; [reflexivity |].
      simpl. unfold batch_calls. rewrite filter_app, length_app. simpl. lia.
    + simpl. split; [reflexivity |].
      unfold batch_calls. rewrite filter_app, length_app. simpl. lia.
  - match goal with
    | |- context [fill self texts task_type ?ps ?es ?st] =>
        destruct (fill_spec texts task_type ps es st) as [Hl Hb]
    end.
    rewrite Hl, Hb. split; [reflexivity | lia].
Qed.

Lemma batch_spec (texts : list string) (task_type : string) (s : state W batch_event) :
  (forall res s',
     generate_embeddings_batch self provider_batch texts task_type s = (Returns res, s') ->
     length res = length texts)
  /\ batch_calls (snd (snd (generate_embeddings_batch self provider_batch texts task_type s)))
     <= S (batch_calls (snd s)).
Proof.
  unfold generate_embeddings_batch.
  destruct texts as [| t ts]; [simpl; split; [intros res s' H; inversion H; reflexivity | lia] |].
  unfold bind.
  destruct (check_texts_spec (t :: ts) task_type (mkLists [] [] []) 0 s) as [Hb Hl].
  destruct (check_texts self (mkLists [] [] []) 0 (t :: ts) task_type s)
    as [[lists | e] s1] eqn:Hc; [| simpl in *; split; [discriminate | lia]].
  specialize (Hl lists s1 eq_refl). simpl in Hb, Hl.
  destruct (uncached_texts lists) as [| u us] eqn:Hu.
  - simpl. split; [| lia]. intros res s' H. inversion H; subst. exact Hl.
  - destruct (embed_uncached_spec (t :: ts) task_type lists s1) as [Hel Heb].
    destruct (embed_uncached self provider_batch (t :: ts) task_type lists s1)
      as [[embs [u' | e]] s2] eqn:He; simpl in Hel, Heb.
    + simpl. split; [| lia]. intros res s' H. inversion H; subst. simpl. lia.
    + destruct (exn_is_Exception e); simpl; (split; [| lia]).
      * intros res s' H. inversion H; subst. simpl. lia.
      * discriminate.
Qed.

(** X18: whenever [generate_embeddings_batch] returns, its list is as
    long as the list of texts, whatever the cache holds and however many
    vectors the provider sends back. *)
Theorem batch_keeps_length
  (texts : list string) (task_type : string) (s s' : state W batch_event)
  (res : list (option vec)) :
  generate_embeddings_batch self provider_batch texts task_type s = (Returns res, s') ->
  length res = length texts.
Proof. apply (proj1 (batch_spec texts task_type s)). Qed.

(** X19: whatever it is given and however it ends,
    [generate_embeddings_batch] makes at most one batch call of the
    provider. *)
Theorem batch_calls_provider_at_most_once
  (texts : list string) (task_type : string) (s : state W batch_event) :
  batch_calls (snd (snd (generate_embeddings_batch self provider_batch texts task_type s)))
  <= S (batch_calls (snd s)).
Proof. apply (proj2 (batch_spec texts task_type s)). Qed.


Lemma check_texts_blank (texts : list string) (task_type : string) (acc : batch_lists)
      (i : nat) (s : state W batch_event) :
  forallb Py.all_space texts = true ->
  check_texts self acc i texts task_type s
  = (Returns (mkLists (embeddings acc ++ map (fun _ => None) texts)
                      (uncached_indices acc) (uncached_texts acc)), s).
Proof.
  revert acc i. induction texts as [| t ts IH]; intros acc i Hall.
  - simpl. rewrite app_nil_r. destruct acc; reflexivity.
  - simpl in Hall. apply andb_true_iff in Hall. destruct Hall as [Ht Hts].
    cbn [check_texts]. unfold bind, check_text.
    rewrite (all_space_blank t Ht). unfold ret at 1.
    rewrite (IH _ (S i) Hts). simpl. rewrite <- app_assoc. reflexivity.
Qed.

(** X21: when every text is empty or white space only,
    [generate_embeddings_batch] returns [None] for each of them and
    touches neither the cache nor the provider. *)
Theorem batch_of_blank_texts
  (texts : list string) (task_type : string) (s : state W batch_event) :
  forallb Py.all_space texts = true ->
  generate_embeddings_batch self provider_batch texts task_type s
  = (Returns (map (fun _ => None) texts), s).
Proof.
  intros Hall. unfold generate_embeddings_batch.
  destruct texts as [| t ts]; [reflexivity |].
  unfold bind. rewrite (check_texts_blank (t :: ts) task_type _ 0 s Hall). reflexivity.
Qed.

End BatchProperties.


Lemma batch_keeps_length_witness :
  length [Some [1%float]; None; Some [7%float]] = length ["a"; "  "; "b"].
Proof.
  apply (batch_keeps_length EmbeddingService.store
           (EmbeddingService.stored_service None)
           (EmbeddingService.constant_batch EmbeddingService.store (Some [1%float]))
           ["a"; "  "; "b"] "retrieval_document"
           ([("retrieval_document:b", Some [7%float])], [])
           (("retrieval_document:a", Some [1%float])
              :: [("retrieval_document:b", Some [7%float])],
            [EmbeddingService.Single (EmbeddingService.CacheGet "retrieval_document:a");
             EmbeddingService.Single (EmbeddingService.CacheGet "retrieval_document:b");
             EmbeddingService.ProviderEmbedBatch ["a"] "models/embedding-001"
               "retrieval_document";
             EmbeddingService.Single
               (EmbeddingService.CacheSet "retrieval_document:a" (Some [1%float]) 86400)])).
  reflexivity.
Defined.


Lemma batch_of_blank_texts_witness :
  EmbeddingService.generate_embeddings_batch
    (EmbeddingService.stored_service None) (EmbeddingService.failing_batch EmbeddingService.store)
    [""; "   "] "retrieval_query" ([], [])
  = (Effects.Returns [None; None], ([], [])).
Proof.
  apply (batch_of_blank_texts EmbeddingService.store
           (EmbeddingService.stored_service None) (EmbeddingService.failing_batch EmbeddingService.store)
           [""; "   "] "retrieval_query" ([], [])).
  reflexivity.
Defined.

Section SnippetAndKeys.

Import Effects EmbeddingService.

Variable W : Type.
Variable self : service W.

Lemma rstrip_keeps_first (c : ascii) (s : string) :
  Py.isspace c = false -> exists r, Py.rstrip (String c s) = String c r.
Proof.
  intros Hc. simpl. destruct (Py.rstrip s) as [| c' r'].
  - rewrite Hc. exists EmptyString. reflexivity.
  - exists (String c' r'). reflexivity.
Qed.

Lemma combined_text_not_blank (code language : string) (description : option string) :
  blank (combined_text code language description) = false.
Proof.
  unfold combined_text.
  assert (H : exists rest,
             join (String Py.newline (String Py.newline EmptyString))
                  ([("Language: " ++ language)%string;
                    ("Code:" ++ String Py.newline code)%string]
                   ++ match description with
                      | Some d => if Py.truthy d then [("Description: " ++ d)%string] else []
                      | None => []
                      end)
             = String "L" rest).
  { cbn [app join String.append]. eexists. reflexivity. }
  destruct H as [rest ->].
  unfold blank, Py.strip. cbn [Py.truthy Py.lstrip negb orb].
  change (Py.isspace "L") with false. cbv iota.
  destruct (rstrip_keeps_first "L" rest eq_refl) as [r ->]. reflexivity.
Qed.

(** X22: [embed_code_snippet] never takes the way out for blank text,
    however empty the code, the language and the description are: with a
    provider and no cache it always makes exactly one provider call, for
    the combined text and the task type [retrieval_document]. *)
Theorem snippet_always_reaches_provider
  (g : GeminiService W) (code language : string) (description : option string)
  (s : state W call_event) :
  cache_service self = None ->
  gemini_service self = Some g ->
  snd (snd (embed_code_snippet self code language description s))
  = snd s ++ [ProviderEmbed (combined_text code language description)
                            embedding_model "retrieval_document"].
Proof.
  intros Hc Hg.
  unfold embed_code_snippet, generate_embedding.
  rewrite combined_text_not_blank. cbv zeta.
  unfold bind, read_cache, try_except, embed_and_cache, bind, call, ret.
  rewrite Hc, Hg. simpl.
  destruct (provider_generate_embedding g (combined_text code language description)
              embedding_model "retrieval_document" (fst s)) as [[v | e] w'].
  - reflexivity.
  - destruct (exn_is_Exception e); reflexivity.
Qed.

Lemma no_colon_prefix (t1 t2 x1 x2 : string) :
  Py.contains ":" t1 = false -> Py.contains ":" t2 = false ->
  (t1 ++ String ":" x1)%string = (t2 ++ String ":" x2)%string ->
  t1 = t2 /\ x1 = x2.
Proof.
  revert t2. induction t1 as [| c t1 IH]; intros [| d t2] H1 H2 Heq; simpl in Heq.
  - inversion Heq. auto.
  - inversion Heq; subst d. simpl in H2.
    unfold Py.startswith in H2. simpl in H2. discriminate.
  - inversion Heq; subst c. simpl in H1.
    unfold Py.startswith in H1. simpl in H1. discriminate.
  - inversion Heq; subst d.
    simpl in H1, H2. apply orb_false_iff in H1, H2.
    destruct (IH t2 (proj2 H1) (proj2 H2) H3) as [-> ->]. auto.
Qed.

(** X23: the cache key is the digest of the task type, a colon and the
    text, and for task types without a colon, such as the two the service
    uses, that string tells the task type and the text apart: two calls
    hash the same string only for the same task type and the same text. *)
Theorem cache_key_content_separates
  (text1 task1 text2 task2 : string) :
  Py.contains ":" task1 = false -> Py.contains ":" task2 = false ->
  _generate_cache_key self text1 task1 = sha256_hexdigest self (cache_key_content text1 task1)
  /\ (cache_key_content text1 task1 = cache_key_content text2 task2 ->
      task1 = task2 /\ text1 = text2).
Proof.
  intros H1 H2. split; [reflexivity |].
  unfold cache_key_content. intros Heq.
  exact (no_colon_prefix task1 task2 text1 text2 H1 H2 Heq).
Qed.

End SnippetAndKeys.

Lemma snippet_always_reaches_provider_witness :
  snd (snd (EmbeddingService.embed_code_snippet
              EmbeddingService.service_with_failing_provider "" "" None (tt, [])))
  = [] ++ [EmbeddingService.ProviderEmbed
             (EmbeddingService.combined_text "" "" None)
             "models/embedding-001" "retrieval_document"].
Proof.
  apply (snippet_always_reaches_provider unit
           EmbeddingService.service_with_failing_provider
           (EmbeddingService.failing_provider unit) "" "" None (tt, []));
    reflexivity.
Defined.

Lemma cache_key_content_separates_witness :
  EmbeddingService._generate_cache_key EmbeddingService.service_with_failing_provider
    "x = 1" "retrieval_document"
  = EmbeddingService.sha256_hexdigest EmbeddingService.service_with_failing_provider
      (EmbeddingService.cache_key_content "x = 1" "retrieval_document")
  /\ (EmbeddingService.cache_key_content "x = 1" "retrieval_document"
      = EmbeddingService.cache_key_content "x = 1" "retrieval_query" ->
      "retrieval_document" = "retrieval_query" /\ "x = 1" = "x = 1").
Proof.
  apply (cache_key_content_separates unit EmbeddingService.service_with_failing_provider
           "x = 1" "retrieval_document" "x = 1" "retrieval_query");
    reflexivity.
Defined.

(* ================================================================== *)
(** * Properties of the pattern store *)
(* ================================================================== *)

Section StoreProperties.

Import Effects RAGService.

Variable W : Type.
Variable store : Store W.
Variable sha256_hexdigest : string -> string.

Lemma dict_get_set (d : metadata) (k v k' dflt : string) :
  dict_get (dict_set d k v) k' dflt
  = if String.eqb k k' then v else dict_get d k' dflt.
Proof.
  induction d as [| [k0 v0] d IH]; simpl.
  - reflexivity.
  - destruct (String.eqb k0 k) eqn:E0; simpl.
    + apply String.eqb_eq in E0. subst k0.
      destruct (String.eqb k k'); reflexivity.
    + destruct (String.eqb k0 k') eqn:E1.
      * apply String.eqb_eq in E1. subst k0.
        rewrite String.eqb_sym in E0. rewrite E0. reflexivity.
      * apply IH.
Qed.

Lemma dict_get_app (d1 d2 : metadata) (k dflt : string) :
  dict_get (d1 ++ d2) k dflt = dict_get d1 k (dict_get d2 k dflt).
Proof.
  induction d1 as [| [k0 v0] d1 IH]; simpl.
  - reflexivity.
  - destruct (String.eqb k0 k); [reflexivity | apply IH].
Qed.

Lemma dict_get_update (extras d : metadata) (k dflt : string) :
  dict_get (dict_update d extras) k dflt
  = dict_get (rev extras) k (dict_get d k dflt).
Proof.
  unfold dict_update. revert d.
  induction extras as [| [k0 v0] extras IH]; intros d.
  - reflexivity.
  - cbn [fold_left fst snd rev]. rewrite IH, dict_get_app, dict_get_set.
    cbn [dict_get]. reflexivity.
Qed.

(** X24: the metadata [store_pattern] writes answers a lookup with the
    binding of the caller's extras when they have the key (the last one
    if the list binds it twice), and with the required field otherwise;
    without extras it holds the five required fields only.  A caller's
    extras so replace [category] or [repository_id]. *)
Theorem extras_override_required_fields
  (repository_id file_path language category description : string)
  (extras : metadata) (k dflt : string) :
  dict_get (pattern_metadata_of repository_id file_path language category description
              (Some extras)) k dflt
  = dict_get (rev extras) k
      (dict_get (required_metadata repository_id file_path language category description)
         k dflt)
  /\ pattern_metadata_of repository_id file_path language category description None
     = required_metadata repository_id file_path language category description.
Proof.
  split; [| reflexivity].
  destruct extras as [| kv more].
  - reflexivity.
  - unfold pattern_metadata_of. apply dict_get_update.
Qed.

(** X25: when the write to the index raises, [store_pattern] raises the
    same exception, whatever its class, after that one call. *)
Theorem store_pattern_raises_what_the_index_raises
  (code repository_id file_path language category description : string)
  (extras : option metadata) (s : state W store_event) (e : exn) (w' : W) :
  add store [code]
      [pattern_metadata_of repository_id file_path language category description extras]
      [_generate_pattern_id sha256_hexdigest code repository_id file_path] (fst s)
  = (Raises e, w') ->
  store_pattern store sha256_hexdigest
    code repository_id file_path language category description extras s
  = (Raises e,
     (w', snd s ++
          [IndexAdd [code]
             [pattern_metadata_of repository_id file_path language category description extras]
             [_generate_pattern_id sha256_hexdigest code repository_id file_path]])).
Proof.
  intros Hadd.
  unfold store_pattern, try_except, bind, call, raise, ret.
  rewrite Hadd. destruct (exn_is_Exception e); reflexivity.
Qed.

(** X26: when the write to the index raises an exception deriving from
    [Exception], [store_accepted_suggestion] returns normally: the
    suggestion is not stored and the caller is not told. *)
Theorem accepted_suggestion_failure_is_silent
  (suggestion_id code_before code_after repository_id file_path language category : string)
  (s : state W store_event) (e : exn) (w' : W) :
  exn_is_Exception e = true ->
  add store [code_after]
      [pattern_metadata_of repository_id file_path language category
         ("Accepted " ++ category ++ " improvement")%string
         (Some (suggestion_metadata suggestion_id code_before category))]
      [_generate_pattern_id sha256_hexdigest code_after repository_id file_path] (fst s)
  = (Raises e, w') ->
  fst (store_accepted_suggestion store sha256_hexdigest
         suggestion_id code_before code_after repository_id file_path language category s)
  = Returns tt
  /\ fst (snd (store_accepted_suggestion store sha256_hexdigest
         suggestion_id code_before code_after repository_id file_path language category s))
     = w'.
Proof.
  intros He Hadd.
  unfold store_accepted_suggestion, store_pattern, try_except, bind, call, raise, ret.
  rewrite Hadd. rewrite He. cbn. rewrite He. split; reflexivity.
Qed.

End StoreProperties.

Section RepositoryStatistics.

Import Effects RAGService.

Variable W : Type.
Variable store : Store W.

(** X27: when listing the index raises an exception deriving from
    [Exception], [get_repository_stats] returns the statistics of an
    empty repository. *)
Theorem repository_stats_of_failing_index
  (repository_id : string) (s : state W store_event) (e : exn) (w' : W) :
  exn_is_Exception e = true ->
  get store (WhereEq "repository_id" repository_id) (fst s) = (Raises e, w') ->
  fst (get_repository_stats store repository_id s) = Returns (mkRepoStats 0 []).
Proof.
  intros He Hget.
  unfold get_repository_stats, try_except, bind, call, ret.
  rewrite Hget. rewrite He. reflexivity.
Qed.

Lemma tally_get_add (t : list (string * nat)) (k k' : string) :
  tally_get (tally_add t k) k'
  = if String.eqb k k' then S (tally_get t k') else tally_get t k'.
Proof.
  induction t as [| [k0 n0] t IH]; simpl.
  - destruct (String.eqb k k'); reflexivity.
  - destruct (String.eqb k0 k) eqn:E0; simpl.
    + apply String.eqb_eq in E0. subst k0.
      destruct (String.eqb k k'); reflexivity.
    + destruct (String.eqb k0 k') eqn:E1.
      * apply String.eqb_eq in E1. subst k0.
        rewrite String.eqb_sym in E0. rewrite E0. reflexivity.
      * apply IH.
Qed.

Lemma tally_add_keys (t : list (string * nat)) (k k' : string) :
  In k' (map fst (tally_add t k)) <-> k' = k \/ In k' (map fst t).
Proof.
  induction t as [| [k0 n0] t IH]; simpl.
  - intuition.
  - destruct (String.eqb k0 k) eqn:E0; simpl.
    + apply String.eqb_eq in E0. subst k0. intuition.
    + rewrite IH. intuition.
Qed.

Lemma tally_add_NoDup (t : list (string * nat)) (k : string) :
  NoDup (map fst t) -> NoDup (map fst (tally_add t k)).
Proof.
  induction t as [| [k0 n0] t IH]; simpl; intros Hnd.
  - constructor; [intros [] | constructor].
  - inversion Hnd as [| ? ? Hnotin Hnd']; subst.
    destruct (String.eqb k0 k) eqn:E0; simpl.
    + constructor; assumption.
    + constructor.
      * rewrite tally_add_keys. intros [Heq | Hin].
        -- subst k0. rewrite String.eqb_refl in E0. discriminate.
        -- contradiction.
      * apply IH. assumption.
Qed.

Lemma tally_add_sum (t : list (string * nat)) (k : string) :
  list_sum (map snd (tally_add t k)) = S (list_sum (map snd t)).
Proof.
  induction t as [| [k0 n0] t IH]; simpl.
  - reflexivity.
  - destruct (String.eqb k0 k); simpl; [reflexivity | rewrite IH; lia].
Qed.

Lemma tally_fold (ms : list metadata) (t : list (string * nat)) :
  let t' := fold_left (fun t m => tally_add t (category_of m)) ms t in
  (forall k, tally_get t' k
             = tally_get t k + count_occ string_dec (map category_of ms) k)
  /\ (NoDup (map fst t) -> NoDup (map fst t'))
  /\ list_sum (map snd t') = list_sum (map snd t) + length ms.
Proof.
  revert t. induction ms as [| m ms IH]; intros t; cbn [fold_left map count_occ length].
  - repeat split; try lia. auto.
  - destruct (IH (tally_add t (category_of m))) as (Hget & Hnd & Hsum).
    split; [| split].
    + intros k. rewrite Hget, tally_get_add.
      destruct (string_dec (category_of m) k) as [Heq | Hne].
      * subst k. rewrite String.eqb_refl. lia.
      * apply String.eqb_neq in Hne. rewrite Hne. reflexivity.
    + intros H. apply Hnd, tally_add_NoDup, H.
    + rewrite Hsum, tally_add_sum. lia.
Qed.

(** X28: when listing the index succeeds, the statistics count every
    identifier, and the category table lists each category once, with
    the number of entries that carry it, an entry without a category
    counting as [unknown]; the counts add up to the number of entries. *)
Theorem repository_stats_count_categories
  (repository_id : string) (s : state W store_event) (r : get_result) (w' : W) :
  get store (WhereEq "repository_id" repository_id) (fst s) = (Returns r, w') ->
  exists st,
    fst (get_repository_stats store repository_id s) = Returns st
    /\ total_patterns st = length (or_empty (ids r))
    /\ (forall k, tally_get (categories st) k
                  = count_occ string_dec (map category_of (or_empty (got_metadatas r))) k)
    /\ NoDup (map fst (categories st))
    /\ list_sum (map snd (categories st)) = length (or_empty (got_metadatas r)).
Proof.
  intros Hget.
  unfold get_repository_stats, try_except, bind, call, ret.
  rewrite Hget. cbn [fst snd].
  eexists. split; [reflexivity |].
  cbn [total_patterns categories].
  split.
  - destruct (ids r) as [[| i more] |]; reflexivity.
  - destruct (got_metadatas r) as [[| m more] |]; cbn [or_empty].
    + repeat split; try reflexivity. constructor.
    + unfold tally.
      destruct (tally_fold (m :: more) []) as (Hg & Hnd & Hsum).
      split; [| split].
      * intros k. rewrite Hg. reflexivity.
      * apply Hnd. constructor.
      * rewrite Hsum. reflexivity.
    + repeat split; try reflexivity. constructor.
Qed.

End RepositoryStatistics.

Lemma store_pattern_raises_what_the_index_raises_witness :
  RAGService.store_pattern (RAGService.failing_store unit) (fun x => x)
    "return a;" "repo-1" "A.java" "java" "style" "" None (tt, [])
  = (Effects.Raises RAGService.ChromaError,
     (tt, [] ++
          [RAGService.IndexAdd ["return a;"]
             [RAGService.pattern_metadata_of "repo-1" "A.java" "java" "style" "" None]
             [RAGService._generate_pattern_id (fun x => x) "return a;" "repo-1" "A.java"]])).
Proof.
  apply (store_pattern_raises_what_the_index_raises unit (RAGService.failing_store unit)
           (fun x => x) "return a;" "repo-1" "A.java" "java" "style" "" None (tt, [])
           RAGService.ChromaError tt).
  reflexivity.
Defined.

Lemma accepted_suggestion_failure_is_silent_witness :
  fst (RAGService.store_accepted_suggestion (RAGService.failing_store unit) (fun x => x)
         "s-1" "return b;" "return a;" "repo-1" "A.java" "java" "style" (tt, []))
  = Effects.Returns tt
  /\ fst (snd (RAGService.store_accepted_suggestion (RAGService.failing_store unit) (fun x => x)
         "s-1" "return b;" "return a;" "repo-1" "A.java" "java" "style" (tt, [])))
     = tt.
Proof.
  apply (accepted_suggestion_failure_is_silent unit (RAGService.failing_store unit)
           (fun x => x) "s-1" "return b;" "return a;" "repo-1" "A.java" "java" "style"
           (tt, []) RAGService.ChromaError tt).
  - reflexivity.
  - reflexivity.
Defined.

Lemma repository_stats_of_failing_index_witness :
  fst (RAGService.get_repository_stats (RAGService.failing_store unit) "repo-1" (tt, []))
  = Effects.Returns (RAGService.mkRepoStats 0 []).
Proof.
  apply (repository_stats_of_failing_index unit (RAGService.failing_store unit)
           "repo-1" (tt, []) RAGService.ChromaError tt).
  - reflexivity.
  - reflexivity.
Defined.

Lemma repository_stats_count_categories_witness :
  exists st,
    fst (RAGService.get_repository_stats
           (RAGService.fixed_store unit
              (RAGService.mkGetResult (Some ["a"; "b"; "c"])
                 (Some [[("category", "style")]; []; [("category", "style")]])))
           "repo-1" (tt, [])) = Effects.Returns st
    /\ RAGService.total_patterns st = 3
    /\ (forall k, RAGService.tally_get (RAGService.categories st) k
                  = count_occ string_dec
                      (map RAGService.category_of
                         [[("category", "style")]; []; [("category", "style")]]) k)
    /\ NoDup (map fst (RAGService.categories st))
    /\ list_sum (map snd (RAGService.categories st)) = 3.
Proof.
  apply (repository_stats_count_categories unit
           (RAGService.fixed_store unit
              (RAGService.mkGetResult (Some ["a"; "b"; "c"])
                 (Some [[("category", "style")]; []; [("category", "style")]])))
           "repo-1" (tt, [])
           (RAGService.mkGetResult (Some ["a"; "b"; "c"])
              (Some [[("category", "style")]; []; [("category", "style")]])) tt).
  reflexivity.
Defined.

(* ================================================================== *)
(** * The rows of a query result *)
(* ================================================================== *)

Section QueryRows.

Import Effects RAGService.

Variable W : Type.
Variable collection : Collection W.

Lemma row_covers_le {A : Type} (l : option (list (list A))) (n m : nat) :
  m <= n -> row_covers n l = true -> row_covers m l = true.
Proof.
  intros Hle. destruct l as [[| row rows] |]; cbn [row_covers]; trivial.
  intros H. apply Nat.leb_le in H. apply Nat.leb_le. lia.
Qed.

Lemma first_at_covered {A : Type} (l : option (list (list A))) (i : nat) :
  row_covers (S i) l = true -> truthy l = true ->
  exists x, first_at l i = Returns x.
Proof.
  destruct l as [[| row rows] |]; cbn [row_covers truthy first_at]; try discriminate.
  intros H _. apply Nat.leb_le in H.
  destruct (nth_error row i) as [x |] eqn:E.
  - exists x. reflexivity.
  - apply nth_error_None in E. lia.
Qed.

Lemma first_at_uncovered {A : Type} (l : option (list (list A))) (i : nat) :
  row_covers (S i) l = false ->
  truthy l = true /\ first_at l i = Raises IndexError.
Proof.
  destruct l as [[| row rows] |]; cbn [row_covers truthy first_at]; try discriminate.
  intros H. apply Nat.leb_gt in H. split; [reflexivity |].
  destruct (nth_error row i) as [x |] eqn:E; [| reflexivity].
  assert (Hlt : i < length row) by (apply nth_error_Some; congruence).
  lia.
Qed.

Lemma format_one_covered (r : query_result) (i : nat) (doc : string) :
  row_covers (S i) (metadatas r) = true ->
  row_covers (S i) (distances r) = true ->
  exists p, format_one r i doc = Returns p /\ code p = doc.
Proof.
  intros Hm Hd. unfold format_one.
  destruct (truthy (metadatas r)) eqn:Tm.
  - destruct (first_at_covered _ _ Hm Tm) as [m Em]. rewrite Em.
    destruct (truthy (distances r)) eqn:Td.
    + destruct (first_at_covered _ _ Hd Td) as [d Ed]. rewrite Ed.
      eexists. split; reflexivity.
    + eexists. split; reflexivity.
  - destruct (truthy (distances r)) eqn:Td.
    + destruct (first_at_covered _ _ Hd Td) as [d Ed]. rewrite Ed.
      eexists. split; reflexivity.
    + eexists. split; reflexivity.
Qed.

Lemma format_one_uncovered (r : query_result) (i : nat) (doc : string) :
  row_covers (S i) (metadatas r) && row_covers (S i) (distances r) = false ->
  format_one r i doc = Raises IndexError.
Proof.
  intros H. unfold format_one.
  destruct (row_covers (S i) (metadatas r)) eqn:Cm.
  - simpl in H. destruct (first_at_uncovered _ _ H) as [Td Ed].
    rewrite Td, Ed.
    destruct (truthy (metadatas r)) eqn:Tm.
    + destruct (first_at_covered _ _ Cm Tm) as [m Em]. rewrite Em. reflexivity.
    + reflexivity.
  - destruct (first_at_uncovered _ _ Cm) as [Tm Em].
    rewrite Tm, Em. reflexivity.
Qed.

Lemma format_docs_covered (r : query_result) (docs : list string) (i : nat) :
  row_covers (i + length docs) (metadatas r) = true ->
  row_covers (i + length docs) (distances r) = true ->
  exists ps, format_docs r i docs = Returns ps /\ map code ps = docs.
Proof.
  revert i. induction docs as [| doc docs IH]; intros i Hm Hd.
  - exists []. split; reflexivity.
  - cbn [length] in Hm, Hd. cbn [format_docs].
    destruct (format_one_covered r i doc) as (p & Ep & Hp).
    + apply (row_covers_le _ (i + S (length docs))); [lia | assumption].
    + apply (row_covers_le _ (i + S (length docs))); [lia | assumption].
    + rewrite Ep.
      destruct (IH (S i)) as (ps & Eps & Hps).
      * replace (S i + length docs) with (i + S (length docs)) by lia. assumption.
      * replace (S i + length docs) with (i + S (length docs)) by lia. assumption.
      * rewrite Eps. exists (p :: ps). split; [reflexivity |].
        cbn [map]. rewrite Hp, Hps. reflexivity.
Qed.

Lemma format_docs_uncovered (r : query_result) (docs : list string) (i : nat) :
  row_covers i (metadatas r) && row_covers i (distances r) = true ->
  row_covers (i + length docs) (metadatas r)
  && row_covers (i + length docs) (distances r) = false ->
  format_docs r i docs = Raises IndexError.
Proof.
  revert i. induction docs as [| doc docs IH]; intros i Hi Hshort.
  - cbn [length] in Hshort. rewrite Nat.add_0_r in Hshort. congruence.
  - cbn [format_docs].
    destruct (row_covers (S i) (metadatas r) && row_covers (S i) (distances r)) eqn:Hnext.
    + apply andb_true_iff in Hnext as Hboth. destruct Hboth as [Hm Hd].
      destruct (format_one_covered r i doc Hm Hd) as (p & Ep & _). rewrite Ep.
      rewrite IH; [reflexivity | assumption |].
      cbn [length] in Hshort.
      replace (S i + length docs) with (i + S (length docs)) by lia. assumption.
    + rewrite (format_one_uncovered r i doc Hnext). reflexivity.
Qed.

Lemma row_covers_0 {A : Type} (l : option (list (list A))) : row_covers 0 l = true.
Proof. destruct l as [[| row rows] |]; reflexivity. Qed.

(** What [find_similar_patterns] does once the index has answered. *)
Lemma find_similar_after_query
  (code_snippet repository_id language : string) (limit : Z)
  (s : state W call_event) (n n' : Z) (w1 w2 w3 : W) (results : option query_result) :
  count collection (fst s) = (Returns n, w1) ->
  n <> 0%Z ->
  count collection w1 = (Returns n', w2) ->
  query collection [code_snippet] (Z.min limit n') (build_where repository_id language) w2
  = (Returns results, w3) ->
  fst (find_similar_patterns collection code_snippet repository_id language limit s)
  = match format_results results with
    | Returns ps => Returns ps
    | Raises e => if exn_is_Exception e then Returns [] else Raises e
    end.
Proof.
  intros Hc Hn Hc' Hq.
  unfold find_similar_patterns, find_similar_body, try_except, bind, call, ret, lift.
  rewrite Hc. cbn [fst snd].
  destruct (n =? 0)%Z eqn:E; [apply Z.eqb_eq in E; contradiction |].
  cbn [fst snd]. rewrite Hc'. cbn [fst snd]. rewrite Hq. cbn [fst snd].
  destruct (format_results results) as [ps | e]; [reflexivity |].
  destruct (exn_is_Exception e); reflexivity.
Qed.

(** X29: when the index holds something and answers the query with a
    row of documents, and the rows of metadata and of distances (each
    read only when present and not empty) are at least as long,
    [find_similar_patterns] returns one pattern for each document, in
    the order of the row, with the document as its code. *)
Theorem similar_patterns_one_per_document
  (code_snippet repository_id language : string) (limit : Z)
  (s : state W call_event) (n n' : Z) (w1 w2 w3 : W)
  (r : query_result) (docs : list string) (more : list (list string)) :
  count collection (fst s) = (Returns n, w1) ->
  n <> 0%Z ->
  count collection w1 = (Returns n', w2) ->
  query collection [code_snippet] (Z.min limit n') (build_where repository_id language) w2
  = (Returns (Some r), w3) ->
  documents r = Some (docs :: more) ->
  row_covers (length docs) (metadatas r) = true ->
  row_covers (length docs) (distances r) = true ->
  exists ps,
    fst (find_similar_patterns collection code_snippet repository_id language limit s)
    = Returns ps
    /\ map code ps = docs.
Proof.
  intros Hc Hn Hc' Hq Hdocs Hm Hd.
  rewrite (find_similar_after_query _ _ _ _ _ _ _ _ _ _ _ Hc Hn Hc' Hq).
  unfold format_results. rewrite Hdocs.
  destruct (format_docs_covered r docs 0 Hm Hd) as (ps & Eps & Hps).
  rewrite Eps. exists ps. split; [reflexivity | assumption].
Qed.

(** X30: when the row of metadata or the row of distances is present
    but shorter than the row of documents, [find_similar_patterns]
    returns the empty list: the patterns formatted before the short row
    ran out are dropped with the rest. *)
Theorem short_rows_give_no_patterns
  (code_snippet repository_id language : string) (limit : Z)
  (s : state W call_event) (n n' : Z) (w1 w2 w3 : W)
  (r : query_result) (docs : list string) (more : list (list string)) :
  count collection (fst s) = (Returns n, w1) ->
  n <> 0%Z ->
  count collection w1 = (Returns n', w2) ->
  query collection [code_snippet] (Z.min limit n') (build_where repository_id language) w2
  = (Returns (Some r), w3) ->
  documents r = Some (docs :: more) ->
  row_covers (length docs) (metadatas r)
  && row_covers (length docs) (distances r) = false ->
  fst (find_similar_patterns collection code_snippet repository_id language limit s)
  = Returns [].
Proof.
  intros Hc Hn Hc' Hq Hdocs Hshort.
  rewrite (find_similar_after_query _ _ _ _ _ _ _ _ _ _ _ Hc Hn Hc' Hq).
  unfold format_results. rewrite Hdocs.
  rewrite (format_docs_uncovered r docs 0).
  - reflexivity.
  - rewrite !row_covers_0. reflexivity.
  - assumption.
Qed.

End QueryRows.

Lemma similar_patterns_one_per_document_witness :
  exists ps,
    fst (RAGService.find_similar_patterns
           (RAGService.fixed_index unit 3
              (Some (RAGService.mkResult
                       (Some [["return a;"; "return b;"]])
                       (Some [[[("description", "first")]; []]])
                       None)))
           "return c;" "repo-1" "java" 5 (tt, []))
    = Effects.Returns ps
    /\ map RAGService.code ps = ["return a;"; "return b;"].
Proof.
  apply (similar_patterns_one_per_document unit
           (RAGService.fixed_index unit 3
              (Some (RAGService.mkResult
                       (Some [["return a;"; "return b;"]])
                       (Some [[[("description", "first")]; []]])
                       None)))
           "return c;" "repo-1" "java" 5 (tt, []) 3%Z 3%Z tt tt tt
           (RAGService.mkResult
              (Some [["return a;"; "return b;"]])
              (Some [[[("description", "first")]; []]])
              None)
           ["return a;"; "return b;"] []).
  - reflexivity.
  - discriminate.
  - reflexivity.
  - reflexivity.
  - reflexivity.
  - reflexivity.
  - reflexivity.
Defined.

Lemma short_rows_give_no_patterns_witness :
  fst (RAGService.find_similar_patterns
         (RAGService.fixed_index unit 3
            (Some (RAGService.mkResult
                     (Some [["return a;"; "return b;"]])
                     (Some [[[("description", "first")]]])
                     None)))
         "return c;" "repo-1" "java" 5 (tt, []))
  = Effects.Returns [].
Proof.
  apply (short_rows_give_no_patterns unit
           (RAGService.fixed_index unit 3
              (Some (RAGService.mkResult
                       (Some [["return a;"; "return b;"]])
                       (Some [[[("description", "first")]]])
                       None)))
           "return c;" "repo-1" "java" 5 (tt, []) 3%Z 3%Z tt tt tt
           (RAGService.mkResult
              (Some [["return a;"; "return b;"]])
              (Some [[[("description", "first")]]])
              None)
           ["return a;"; "return b;"] []).
  - reflexivity.
  - discriminate.
  - reflexivity.
  - reflexivity.
  - reflexivity.
  - reflexivity.
Defined.
